(** * MyMonitoringV-Sol: discovery and telemetry engine of [monitor_vsol.py]

    A shallow embedding of the class [VSOLMonitorEmpresarial] and of the
    Python built-ins it relies on, followed by the properties of the
    discovery, refresh, extraction and statistics code.

    Conventions of the embedding.
    - A Python [str] is a [string]; the character classes and the case
      mappings are those of Python on the ASCII range (the text handled is
      command-line output of network equipment), other characters are
      neither whitespace nor digits and have no case.
    - A Python [float] is a binary64 value, [spec_float] at precision 53
      and maximal exponent 1024; [float(s)] is the correctly rounded value
      of the decimal literal.
    - A Python exception is a constructor of [excepcion]; a function that
      can raise returns a [resultado].
    - The network, the clock, the random generator and the database
      engine are oracles of a record [Red]; the monitor, its database and
      the log of network operations form the state [Estado] threaded
      through the code.  A write the engine refuses is caught by the
      manager and leaves the table as it was.
    - The tasks of a scan pass, which the source hands to worker threads,
      are run one after the other in an arbitrary order.  The order
      stands for the order of their assignments to the inventory; the
      events of different tasks overlap in the source, so of a whole pass
      only what does not depend on their order is stated. *)

From Stdlib Require Import ZArith List String Ascii Bool Lia Permutation.
From Stdlib Require Import SpecFloat DecimalString.
Import ListNotations.
Open Scope string_scope.

(** ** Python built-ins *)

Module Py.

(** *** Characters *)

Definition code (c : ascii) : nat := nat_of_ascii c.

Definition entre (lo hi : nat) (c : ascii) : bool :=
  Nat.leb lo (code c) && Nat.leb (code c) hi.

(** [str.isspace] on one character: TAB, LF, VT, FF, CR, FS, GS, RS, US
    and the space. *)
Definition isspace_char (c : ascii) : bool := entre 9 13 c || entre 28 32 c.

Definition isdigit_char (c : ascii) : bool := entre 48 57 c.

Definition lower_char (c : ascii) : ascii :=
  if entre 65 90 c then ascii_of_nat (code c + 32) else c.

Definition upper_char (c : ascii) : ascii :=
  if entre 97 122 c then ascii_of_nat (code c - 32) else c.

(** *** Strings *)

Fixpoint map_str (f : ascii -> ascii) (s : string) : string :=
  match s with
  | EmptyString => EmptyString
  | String c r => String (f c) (map_str f r)
  end.

Definition lower : string -> string := map_str lower_char.
Definition upper : string -> string := map_str upper_char.

(** [needle in hay] *)
Fixpoint startswith (p s : string) : bool :=
  match p, s with
  | EmptyString, _ => true
  | String a p', String b s' => Ascii.eqb a b && startswith p' s'
  | String _ _, EmptyString => false
  end.

Fixpoint contiene (needle hay : string) : bool :=
  startswith needle hay ||
  match hay with
  | EmptyString => false
  | String _ r => contiene needle r
  end.

(** [s.split(sep)] for a separator of one character: empty pieces are
    kept, and the empty string gives one empty piece. *)
Fixpoint split_sep (sep : ascii) (s : string) : list string :=
  match s with
  | EmptyString => [EmptyString]
  | String c r =>
      if Ascii.eqb c sep then EmptyString :: split_sep sep r
      else match split_sep sep r with
           | h :: t => String c h :: t
           | [] => [String c EmptyString]
           end
  end.

(** [s.split()]: pieces between runs of whitespace, none of them empty. *)
Fixpoint split (s : string) : list string :=
  match s with
  | EmptyString => []
  | String c r =>
      if isspace_char c then split r
      else match r with
           | EmptyString => [String c EmptyString]
           | String c' _ =>
               if isspace_char c' then String c EmptyString :: split r
               else match split r with
                    | h :: t => String c h :: t
                    | [] => [String c EmptyString]
                    end
           end
  end.

Fixpoint lstrip (s : string) : string :=
  match s with
  | EmptyString => EmptyString
  | String c r => if isspace_char c then lstrip r else s
  end.

Fixpoint rstrip (s : string) : string :=
  match s with
  | EmptyString => EmptyString
  | String c r =>
      match rstrip r with
      | EmptyString => if isspace_char c then EmptyString else String c EmptyString
      | r' => String c r'
      end
  end.

Definition strip (s : string) : string := rstrip (lstrip s).

(** [s.replace(c, '')] for a character [c]. *)
Fixpoint quitar (c : ascii) (s : string) : string :=
  match s with
  | EmptyString => EmptyString
  | String a r => if Ascii.eqb a c then quitar c r else String a (quitar c r)
  end.

Fixpoint todos (p : ascii -> bool) (s : string) : bool :=
  match s with
  | EmptyString => true
  | String c r => p c && todos p r
  end.

(** [s.isdigit()]: at least one character, all of them digits. *)
Definition isdigit (s : string) : bool :=
  match s with
  | EmptyString => false
  | _ => todos isdigit_char s
  end.

(** [s[:n]] *)
Fixpoint hasta (n : nat) (s : string) : string :=
  match n, s with
  | S n', String c r => String c (hasta n' r)
  | _, _ => EmptyString
  end.

(** [xs[-1]] of a list that is not empty *)
Definition ultimo (xs : list string) : string := List.last xs EmptyString.

(** [xs[i]], [None] standing for [IndexError] *)
Definition indice (xs : list string) (i : nat) : option string := nth_error xs i.

(** Truth value of a string: the empty string is false. *)
Definition verdad_str (s : string) : bool :=
  match s with EmptyString => false | _ => true end.

(** *** Floats *)

Definition prec : Z := 53%Z.
Definition emax : Z := 1024%Z.

Definition digito (c : ascii) : Z := Z.of_nat (code c - 48).

(** Value of a run of decimal digits, most significant first. *)
Fixpoint valor_digitos (acc : Z) (s : string) : Z :=
  match s with
  | EmptyString => acc
  | String c r => valor_digitos (10 * acc + digito c)%Z r
  end.

(** Longest prefix of digits, and what follows it. *)
Fixpoint toma_digitos (s : string) : string * string :=
  match s with
  | String c r =>
      if isdigit_char c then let (d, t) := toma_digitos r in (String c d, t)
      else (EmptyString, s)
  | EmptyString => (EmptyString, EmptyString)
  end.

(** Underscores are accepted between two digits only; [prev] tells
    whether the previous character was a digit. *)
Fixpoint guiones_ok (prev : bool) (s : string) : bool :=
  match s with
  | EmptyString => true
  | String c r =>
      if Ascii.eqb c "_" then
        prev && match r with
                | String d _ => isdigit_char d
                | EmptyString => false
                end && guiones_ok false r
      else guiones_ok (isdigit_char c) r
  end.

(** The float nearest to [(-1)^neg * m * 10^e10], ties to even. *)
Definition redondea (neg : bool) (m e10 : Z) : spec_float :=
  match m, e10 with
  | Zpos p, Zneg k =>
      SFdiv prec emax (S754_finite neg p 0%Z)
                      (S754_finite false (Pos.pow 10 k) 0%Z)
  | Zpos p, _ =>
      binary_normalize prec emax
        (if neg then - (m * 10 ^ e10) else m * 10 ^ e10)%Z 0%Z neg
  | _, _ => S754_zero neg
  end.

(** Optional exponent at the end of a literal: [e] or [E], an optional
    sign and at least one digit. *)
Definition exponente (s : string) : option Z :=
  match s with
  | EmptyString => Some 0%Z
  | String c r =>
      if Ascii.eqb (lower_char c) "e" then
        let '(neg, r') :=
          match r with
          | String "+" t => (false, t)
          | String "-" t => (true, t)
          | _ => (false, r)
          end in
        let '(d, t) := toma_digitos r' in
        match d, t with
        | String _ _, EmptyString =>
            Some (if neg then - valor_digitos 0 d else valor_digitos 0 d)%Z
        | _, _ => None
        end
      else None
  end.

(** Unsigned decimal literal: digits, an optional point and digits, at
    least one digit in all, an optional exponent.  Gives the integer
    made of all the digits and the power of ten that scales it. *)
Definition cuerpo (s : string) : option (Z * Z) :=
  let '(ent, r1) := toma_digitos s in
  let '(frac, r2) :=
    match r1 with
    | String "." r => toma_digitos r
    | _ => (EmptyString, r1)
    end in
  match (ent ++ frac)%string with
  | EmptyString => None
  | ds =>
      match exponente r2 with
      | Some e => Some (valor_digitos 0 ds, (e - Z.of_nat (String.length frac))%Z)
      | None => None
      end
  end.

(** [float(s)]; [None] stands for [ValueError]. *)
Definition float (s : string) : option spec_float :=
  let t := strip s in
  if negb (guiones_ok false t) then None
  else
    let u := quitar "_" t in
    let '(neg, v) :=
      match u with
      | String "+" r => (false, r)
      | String "-" r => (true, r)
      | _ => (false, u)
      end in
    let lv := lower v in
    if String.eqb lv "inf" || String.eqb lv "infinity" then Some (S754_infinity neg)
    else if String.eqb lv "nan" then Some S754_nan
    else match cuerpo v with
         | Some (m, e) => Some (redondea neg m e)
         | None => None
         end.

(** Truth value of a float: both zeros are false, everything else
    (infinities and NaN included) is true. *)
Definition verdad_float (f : spec_float) : bool :=
  match f with S754_zero _ => false | _ => true end.

(** Exact comparison of a float with an integer, as Python compares an
    [int] with a [float]; [None] when the float is NaN. *)
Definition compara_float_Z (f : spec_float) (z : Z) : option comparison :=
  match f with
  | S754_nan => None
  | S754_infinity s => Some (if s then Lt else Gt)
  | S754_zero _ => Some (0 ?= z)%Z
  | S754_finite s m e =>
      let v := if s then Z.neg m else Z.pos m in
      Some (match e with
            | Zneg k => (v ?= z * Z.pow_pos 2 k)%Z
            | _ => (v * 2 ^ e ?= z)%Z
            end)
  end.

(** A Python number as the code produces them: the optical-power
    sentinel is the [int] literal [-999], a reading is a [float]. *)
Inductive numero : Type :=
| PyInt (z : Z)
| PyFloat (f : spec_float).

(** [x < z] for an integer literal [z] *)
Definition menor_que (x : numero) (z : Z) : bool :=
  match x with
  | PyInt a => (a <? z)%Z
  | PyFloat f => match compara_float_Z f z with Some Lt => true | _ => false end
  end.

(** [x == y] *)
Definition igual (x y : numero) : bool :=
  match x, y with
  | PyInt a, PyInt b => (a =? b)%Z
  | PyFloat f, PyFloat g => SFeqb f g
  | PyInt a, PyFloat f | PyFloat f, PyInt a =>
      match compara_float_Z f a with Some Eq => true | _ => false end
  end.

End Py.

(** ** Exceptions *)

Inductive excepcion : Type :=
| ValueError
| IndexError.

Inductive resultado (A : Type) : Type :=
| Retorna (a : A)
| Lanza (e : excepcion).

Arguments Retorna {A} a.
Arguments Lanza {A} e.

(** ** Data model: the dataclasses [ONUInfo] and [OLTInfo] *)

(** [datetime]: seconds of local time. *)
Definition datetime : Type := Z.

Record ONUInfo : Type := {
  serial : string;
  interfaz : string;
  slot : string;
  puerto : string;
  rx_power : Py.numero;
  tx_power : Py.numero;
  estado : string;
  consumo_bytes : Z;
  ultima_actualizacion : option datetime
}.

(** [snmp_community] is the attribute that [verificar_ip] attaches to the
    devices found by SNMP: [None] is an object without the attribute. *)
Record OLTInfo : Type := {
  ip : string;
  nombre : string;
  modelo : string;
  temperatura : option spec_float;
  consumo_cpu : option spec_float;
  consumo_memoria : option spec_float;
  total_onus : nat;
  onus_por_puerto : list (string * nat);
  onus_detalladas : list ONUInfo;
  snmp_community : option string
}.

(** [OLTInfo(ip=..., nombre=..., modelo=...)] with the defaults of the
    dataclass and of [__post_init__]. *)
Definition nueva_olt (ip0 nombre0 modelo0 : string) : OLTInfo :=
  {| ip := ip0; nombre := nombre0; modelo := modelo0;
     temperatura := None; consumo_cpu := None; consumo_memoria := None;
     total_onus := 0; onus_por_puerto := []; onus_detalladas := [];
     snmp_community := None |}.

(** ** Dictionaries *)

(** A [dict] with string keys, in insertion order. *)
Definition dict (V : Type) : Type := list (string * V).

Fixpoint get {V : Type} (d : dict V) (k : string) : option V :=
  match d with
  | [] => None
  | (k', v) :: r => if String.eqb k k' then Some v else get r k
  end.

(** [d[k] = v]: an existing key keeps its place, a new one goes last. *)
Fixpoint setitem {V : Type} (k : string) (v : V) (d : dict V) : dict V :=
  match d with
  | [] => [(k, v)]
  | (k', v') :: r =>
      if String.eqb k k' then (k, v) :: r else (k', v') :: setitem k v r
  end.

Definition claves {V : Type} (d : dict V) : list string := map fst d.
Definition valores {V : Type} (d : dict V) : list V := map snd d.

(** ** Telemetry extractors *)

Definition salto : ascii := ascii_of_nat 10.

(** [parte.replace('.', '').replace('-', '').isdigit()] *)
Definition parece_numero (parte : string) : bool :=
  Py.isdigit (Py.quitar "-" (Py.quitar "." parte)).

(** The inner loop of the temperature and optical-power extractors,
    [for parte in partes: if ...: return float(parte)]: the first token
    that looks like a number is handed to [float], whose [ValueError] is
    not caught; [Retorna None] when the loop ends without returning. *)
Fixpoint primer_numero (partes : list string) : resultado (option spec_float) :=
  match partes with
  | [] => Retorna None
  | parte :: resto =>
      if parece_numero parte then
        match Py.float parte with
        | Some v => Retorna (Some v)
        | None => Lanza ValueError
        end
      else primer_numero resto
  end.

Fixpoint extraer_temperatura_lineas (lineas : list string)
    : resultado (option spec_float) :=
  match lineas with
  | [] => Retorna None
  | linea :: resto =>
      if Py.contiene "temperature" (Py.lower linea) then
        match primer_numero (Py.split linea) with
        | Retorna (Some v) => Retorna (Some v)
        | Retorna None => extraer_temperatura_lineas resto
        | Lanza e => Lanza e
        end
      else extraer_temperatura_lineas resto
  end.

Definition extraer_temperatura (output : string) : resultado (option spec_float) :=
  extraer_temperatura_lineas (Py.split_sep salto output).

Fixpoint extraer_rx_power_lineas (lineas : list string) : resultado Py.numero :=
  match lineas with
  | [] => Retorna (Py.PyInt (-999))
  | linea :: resto =>
      if Py.contiene "rx" (Py.lower linea) && Py.contiene "power" (Py.lower linea) then
        match primer_numero (Py.split linea) with
        | Retorna (Some v) => Retorna (Py.PyFloat v)
        | Retorna None => extraer_rx_power_lineas resto
        | Lanza e => Lanza e
        end
      else extraer_rx_power_lineas resto
  end.

Definition extraer_rx_power (output : string) : resultado Py.numero :=
  extraer_rx_power_lineas (Py.split_sep salto output).

Fixpoint extraer_tx_power_lineas (lineas : list string) : resultado Py.numero :=
  match lineas with
  | [] => Retorna (Py.PyInt (-999))
  | linea :: resto =>
      if Py.contiene "tx" (Py.lower linea) && Py.contiene "power" (Py.lower linea) then
        match primer_numero (Py.split linea) with
        | Retorna (Some v) => Retorna (Py.PyFloat v)
        | Retorna None => extraer_tx_power_lineas resto
        | Lanza e => Lanza e
        end
      else extraer_tx_power_lineas resto
  end.

Definition extraer_tx_power (output : string) : resultado Py.numero :=
  extraer_tx_power_lineas (Py.split_sep salto output).

(** [extraer_porcentaje]: here the [ValueError] of [float] is caught and
    the next token is tried. *)
Fixpoint primer_porcentaje (partes : list string) : option spec_float :=
  match partes with
  | [] => None
  | parte :: resto =>
      if Py.contiene "%" parte then
        match Py.float (Py.quitar "%" parte) with
        | Some v => Some v
        | None => primer_porcentaje resto
        end
      else primer_porcentaje resto
  end.

Fixpoint extraer_porcentaje_lineas (lineas : list string) : option spec_float :=
  match lineas with
  | [] => None
  | linea :: resto =>
      if Py.contiene "%" linea then
        match primer_porcentaje (Py.split linea) with
        | Some v => Some v
        | None => extraer_porcentaje_lineas resto
        end
      else extraer_porcentaje_lineas resto
  end.

Definition extraer_porcentaje (output : string) : option spec_float :=
  extraer_porcentaje_lineas (Py.split_sep salto output).

Fixpoint extraer_serial_lineas (lineas : list string) : option string :=
  match lineas with
  | [] => None
  | linea :: resto =>
      if Py.contiene "serial" (Py.lower linea) || Py.contiene "sn" (Py.lower linea) then
        let partes := Py.split linea in
        if Nat.ltb 1 (List.length partes) then Some (Py.strip (Py.ultimo partes))
        else extraer_serial_lineas resto
      else extraer_serial_lineas resto
  end.

Definition extraer_serial (output : string) : option string :=
  extraer_serial_lineas (Py.split_sep salto output).

Fixpoint extraer_modelo_lineas (lineas : list string) : string :=
  match lineas with
  | [] => "VSOL-OLT"
  | linea :: resto =>
      if Py.contiene "model" (Py.lower linea) || Py.contiene "hardware" (Py.lower linea)
      then Py.hasta 50 (Py.strip linea)
      else extraer_modelo_lineas resto
  end.

Definition extraer_modelo (version_info : string) : string :=
  extraer_modelo_lineas (Py.split_sep salto version_info).

(** [es_olt_vsol] *)
Definition indicadores : list string := ["VSOL"; "V-SOL"; "GPON"; "OLT"].

Definition es_olt_vsol (version_info : string) : bool :=
  if negb (Py.verdad_str version_info) then false
  else existsb (fun indicator => Py.contiene indicator (Py.upper version_info)) indicadores.

(** [contar_onus_por_puerto] *)
Fixpoint contar_onus_desde (conteo : dict nat) (onus_info : list ONUInfo) : dict nat :=
  match onus_info with
  | [] => conteo
  | onu :: resto =>
      let puerto0 := interfaz onu in
      contar_onus_desde
        (setitem puerto0 (match get conteo puerto0 with Some n => n | None => 0 end + 1) conteo)
        resto
  end.

Definition contar_onus_por_puerto (onus_info : list ONUInfo) : dict nat :=
  contar_onus_desde [] onus_info.

(** ** The world around the monitor *)

Record Credencial : Type := {
  username : string;
  password : string
}.

(** A connected [paramiko.SSHClient]: the address and the credential of
    the session. *)
Record SSHClient : Type := {
  ssh_ip : string;
  ssh_cred : Credencial
}.

(** The network as the monitor sees it, the clock, the random generator
    and the database engine.
    - [red_snmp_get ip oid community]: the value [snmp_get] returns, [None]
      for an error indication, an error status, no binding or an exception.
    - [red_snmp_walk]: the pairs [snmp_walk] returns.
    - [red_puerto ip puerto]: whether [connect_ex] answers 0.
    - [red_connect ip cred]: whether [ssh.connect] returns; [false] is any
      exception it raises (rejected credential, timeout, network error).
    - [red_exec ip cred comando]: the decoded standard output of the
      command, [None] when [exec_command] or the read raises.
    - [red_reloj n], [red_azar n a b]: the reading of [datetime.now()]
      or of [random.randint(a, b)] at the [n]-th call to the clock, the
      generator or the database.
    - [red_db n]: whether the database accepts the write requested at
      the [n]-th such call; [false] is any exception of [cursor],
      [execute] or [commit] (a connection used from another thread, a
      foreign key without its row, a lost connection). *)
Record Red : Type := {
  red_snmp_get : string -> string -> string -> option string;
  red_snmp_walk : string -> string -> string -> list (string * string);
  red_puerto : string -> Z -> bool;
  red_connect : string -> Credencial -> bool;
  red_exec : string -> Credencial -> string -> option string;
  red_reloj : nat -> datetime;
  red_azar : nat -> Z -> Z -> Z;
  red_db : nat -> bool
}.

(** What the monitor does on the network, in the order it does it. *)
Inductive Evento : Type :=
| EvSnmpGet (ip oid community : string)
| EvSnmpWalk (ip oid community : string)
| EvPuerto (ip : string) (puerto : Z)
| EvConnect (ip : string) (cred : Credencial)
| EvExec (ip : string) (cred : Credencial) (comando : string)
| EvClose (ip : string) (cred : Credencial).

(** ** The database manager

    The tables as the writes that landed: [guardar_olt] and
    [guardar_onu] are upserts on the primary key, [guardar_metrica] and
    [guardar_trafico] append a row.  Each of the four runs its statement
    and the commit inside a [try]; when the engine refuses, the manager
    logs the error and returns, and the table is as before. *)

Record Metrica : Type := {
  m_olt_ip : string;
  m_tipo_metrica : string;
  m_valor : spec_float;
  m_timestamp : datetime
}.

Record Trafico : Type := {
  t_olt_ip : string;
  t_onu_serial : string;
  t_bytes_rx : Z;
  t_bytes_tx : Z
}.

Record DatabaseManager : Type := {
  olts : dict (string * string * datetime);
  onus : dict (string * ONUInfo);
  metricas : list Metrica;
  trafico : list Trafico
}.

(** ** State of the program *)

Record Estado : Type := {
  olts_detectadas : dict OLTInfo;
  db : DatabaseManager;
  bitacora : list Evento;
  tic : nat
}.

Definition con_olts (f : dict OLTInfo -> dict OLTInfo) (st : Estado) : Estado :=
  {| olts_detectadas := f (olts_detectadas st); db := db st;
     bitacora := bitacora st; tic := tic st |}.

Definition con_db (f : DatabaseManager -> DatabaseManager) (st : Estado) : Estado :=
  {| olts_detectadas := olts_detectadas st; db := f (db st);
     bitacora := bitacora st; tic := tic st |}.

Definition anota (ev : Evento) (st : Estado) : Estado :=
  {| olts_detectadas := olts_detectadas st; db := db st;
     bitacora := bitacora st ++ [ev]; tic := tic st |}.

Definition avanza (st : Estado) : Estado :=
  {| olts_detectadas := olts_detectadas st; db := db st;
     bitacora := bitacora st; tic := S (tic st) |}.

(** The state monad of the embedding. *)
Definition M (A : Type) : Type := Estado -> A * Estado.

Definition ret {A : Type} (a : A) : M A := fun st => (a, st).

Definition bind {A B : Type} (m : M A) (k : A -> M B) : M B :=
  fun st => let '(a, st') := m st in k a st'.

Declare Scope monitor_scope.
Delimit Scope monitor_scope with mon.
Notation "x <- m ;; k" := (bind m (fun x => k))
  (at level 61, m at next level, right associativity) : monitor_scope.
Notation "m ;;; k" := (bind m (fun _ => k))
  (at level 61, right associativity) : monitor_scope.
Notation "' pat <- m ;; k" := (bind m (fun x => match x with pat => k end))
  (at level 61, pat pattern, m at next level, right associativity) : monitor_scope.
Open Scope monitor_scope.

Definition modifica (f : Estado -> Estado) : M unit := fun st => (tt, f st).

(** Decimal writing of a natural number, [str(n)]. *)
Definition str_nat (n : nat) : string := NilEmpty.string_of_uint (Nat.to_uint n).

Definition dos_digitos (n : nat) : string :=
  if Nat.ltb n 10 then "0" ++ str_nat n else str_nat n.

(** [t.strftime('%H%M')] *)
Definition strftime_HM (t : datetime) : string :=
  let s := Z.to_nat (t mod 86400) in
  dos_digitos (s / 3600) ++ dos_digitos ((s mod 3600) / 60).

(** The dictionary [probar_snmp_olt] returns on a match. *)
Record SnmpInfo : Type := {
  si_ip : string;
  si_nombre : string;
  si_modelo : string;
  si_community : string;
  si_snmp_available : bool
}.

(** The dictionary [obtener_info_snmp_olt] builds. *)
Record SnmpDetalle : Type := {
  sysDescr : option string;
  sysName : option string;
  sysLocation : option string;
  interfaces : list (string * string);
  onu_count : nat
}.

(** The dictionary [obtener_estadisticas] returns. *)
Record Estadisticas : Type := {
  e_total_olts : nat;
  e_total_onus : nat;
  e_olts_online : nat;
  e_onus_senal_baja : nat;
  e_ultima_actualizacion : datetime
}.

Definition sin_lectura : option string * Py.numero * Py.numero :=
  (None, Py.PyInt (-999), Py.PyInt (-999)).

(** ** The monitor: class [VSOLMonitorEmpresarial] *)

Section Monitor.

Variable red : Red.

(** The configuration held by the instance: [self.credenciales],
    [self.communities] (from [SNMP_CONFIG]) and [self.rangos_ip]. *)
Variable credenciales : list Credencial.
Variable communities : list string.
Variable rangos_ip : list string.

(** *** Clock and random generator *)

Definition ahora : M datetime :=
  fun st => (red_reloj red (tic st), avanza st).

Definition randint (a b : Z) : M Z :=
  fun st => (red_azar red (tic st) a b, avanza st).

(** *** [DatabaseManager] *)

(** [cursor.execute(...); self.conn.commit()] inside the [try] of a
    writer: [true] when both return, [false] when one of them raises and
    the [except] branch logs the error. *)
Definition escribe : M bool :=
  fun st => (red_db red (tic st), avanza st).

Definition guardar_olt (olt_info : OLTInfo) : M unit :=
  t <- ahora ;;
  aceptada <- escribe ;;
  if aceptada then
    modifica (con_db (fun d =>
      {| olts := setitem (ip olt_info) (nombre olt_info, modelo olt_info, t) (olts d);
         onus := onus d; metricas := metricas d; trafico := trafico d |}))
  else ret tt.

Definition guardar_onu (onu_info : ONUInfo) (olt_ip : string) : M unit :=
  aceptada <- escribe ;;
  if aceptada then
    modifica (con_db (fun d =>
      {| olts := olts d;
         onus := setitem (serial onu_info) (olt_ip, onu_info) (onus d);
         metricas := metricas d; trafico := trafico d |}))
  else ret tt.

Definition guardar_metrica (olt_ip tipo_metrica : string) (valor : spec_float) : M unit :=
  t <- ahora ;;
  aceptada <- escribe ;;
  if aceptada then
    modifica (con_db (fun d =>
      {| olts := olts d; onus := onus d;
         metricas := metricas d ++
           [{| m_olt_ip := olt_ip; m_tipo_metrica := tipo_metrica;
               m_valor := valor; m_timestamp := t |}];
         trafico := trafico d |}))
  else ret tt.

Definition guardar_trafico (olt_ip onu_serial : string) (bytes_rx bytes_tx : Z) : M unit :=
  aceptada <- escribe ;;
  if aceptada then
    modifica (con_db (fun d =>
      {| olts := olts d; onus := onus d; metricas := metricas d;
         trafico := trafico d ++
           [{| t_olt_ip := olt_ip; t_onu_serial := onu_serial;
               t_bytes_rx := bytes_rx; t_bytes_tx := bytes_tx |}] |}))
  else ret tt.

(** *** Network operations *)

Definition puerto_abierto (ip : string) (puerto : Z) : M bool :=
  modifica (anota (EvPuerto ip puerto)) ;;;
  ret (red_puerto red ip puerto).

Definition snmp_get (ip oid community : string) : M (option string) :=
  modifica (anota (EvSnmpGet ip oid community)) ;;;
  ret (red_snmp_get red ip oid community).

Definition snmp_walk (ip oid community : string) : M (list (string * string)) :=
  modifica (anota (EvSnmpWalk ip oid community)) ;;;
  ret (red_snmp_walk red ip oid community).

(** [ssh.connect(ip, username=..., password=..., timeout=10)]: [false]
    when the call raises. *)
Definition ssh_connect (ip : string) (cred : Credencial) : M bool :=
  modifica (anota (EvConnect ip cred)) ;;;
  ret (red_connect red ip cred).

Definition ssh_close (ssh : SSHClient) : M unit :=
  modifica (anota (EvClose (ssh_ip ssh) (ssh_cred ssh))).

(** [ejecutar_comando]: the stripped output, the empty string when the
    execution raises. *)
Definition ejecutar_comando (ssh : SSHClient) (comando : string) : M string :=
  modifica (anota (EvExec (ssh_ip ssh) (ssh_cred ssh) comando)) ;;;
  ret (match red_exec red (ssh_ip ssh) (ssh_cred ssh) comando with
       | Some salida => Py.strip salida
       | None => ""
       end).

(** *** SNMP prober *)

Definition marca_snmp (sysdescr : string) : bool :=
  Py.contiene "VSOL" (Py.upper sysdescr) ||
  Py.contiene "OLT" (Py.upper sysdescr) ||
  Py.contiene "GPON" (Py.upper sysdescr).

(** [x or y] on an optional string *)
Definition o_bien (x : option string) (y : string) : string :=
  match x with
  | Some s => if Py.verdad_str s then s else y
  | None => y
  end.

Fixpoint probar_snmp_desde (ip : string) (cs : list string) : M (option SnmpInfo) :=
  match cs with
  | [] => ret None
  | community :: resto =>
      sysdescr <- snmp_get ip "1.3.6.1.2.1.1.1.0" community ;;
      match sysdescr with
      | Some d =>
          if Py.verdad_str d && marca_snmp d then
            sysname <- snmp_get ip "1.3.6.1.2.1.1.5.0" community ;;
            ret (Some {| si_ip := ip;
                         si_nombre := o_bien sysname
                           ("OLT-" ++ Py.ultimo (Py.split_sep "." ip));
                         si_modelo := Py.hasta 50 d;
                         si_community := community;
                         si_snmp_available := true |})
          else probar_snmp_desde ip resto
      | None => probar_snmp_desde ip resto
      end
  end.

Definition probar_snmp_olt (ip : string) : M (option SnmpInfo) :=
  probar_snmp_desde ip communities.

(** [obtener_info_snmp_olt]: the queries catch their own exceptions, so
    the dictionary is always built; [None] stands for the empty
    dictionary of the [except] branch. *)
Definition obtener_info_snmp_olt (ip community : string) : M (option SnmpDetalle) :=
  d <- snmp_get ip "1.3.6.1.2.1.1.1.0" community ;;
  n <- snmp_get ip "1.3.6.1.2.1.1.5.0" community ;;
  l <- snmp_get ip "1.3.6.1.2.1.1.6.0" community ;;
  ifs <- snmp_walk ip "1.3.6.1.2.1.2.2.1.2" community ;;
  onu_info <- snmp_walk ip "1.3.6.1.4.1" community ;;
  ret (Some {| sysDescr := d; sysName := n; sysLocation := l;
               interfaces :=
                 map (fun ov => (Py.ultimo (Py.split_sep "." (fst ov)), snd ov))
                     (filter (fun ov => Py.verdad_str (snd ov)) ifs);
               onu_count :=
                 List.length
                   (filter (fun x => Py.contiene "onu" (Py.lower (snd x))) onu_info) |}).

Definition actualizar_olt_snmp (olt_info : OLTInfo) : M bool :=
  match snmp_community olt_info with
  | None => ret false
  | Some community =>
      info <- obtener_info_snmp_olt (ip olt_info) community ;;
      match info with
      | Some _ => ret true
      | None => ret false
      end
  end.

(** *** Command-shell prober and telemetry acquisition *)

Fixpoint extraer_nombre_lineas (lineas : list string) : option string :=
  match lineas with
  | [] => None
  | linea :: resto =>
      if Py.contiene "hostname" (Py.lower linea) || Py.contiene "nombre" (Py.lower linea) then
        let partes := Py.split linea in
        if Nat.ltb 1 (List.length partes) then Some (Py.ultimo partes)
        else extraer_nombre_lineas resto
      else extraer_nombre_lineas resto
  end.

Definition extraer_nombre_sistema (system_info : string) : M string :=
  match extraer_nombre_lineas (Py.split_sep salto system_info) with
  | Some n => ret n
  | None => t <- ahora ;; ret ("OLT-" ++ strftime_HM t)
  end.

(** [obtener_detalles_onu]: the three alternative commands in order; an
    exception of an extractor is caught by the enclosing [try] and gives
    the unit without reading. *)
Fixpoint detalles_desde (ssh : SSHClient) (comandos : list string)
    : M (option string * Py.numero * Py.numero) :=
  match comandos with
  | [] => ret sin_lectura
  | cmd :: resto =>
      output <- ejecutar_comando ssh cmd ;;
      if Py.verdad_str output && negb (Py.contiene "invalid" (Py.lower output)) then
        let serial0 := extraer_serial output in
        match extraer_rx_power output with
        | Lanza _ => ret sin_lectura
        | Retorna rx =>
            match extraer_tx_power output with
            | Lanza _ => ret sin_lectura
            | Retorna tx => ret (serial0, rx, tx)
            end
        end
      else detalles_desde ssh resto
  end.

Definition obtener_detalles_onu (ssh : SSHClient) (interfaz0 onu_id : string)
    : M (option string * Py.numero * Py.numero) :=
  detalles_desde ssh
    [ "show gpon onu detail " ++ interfaz0 ++ " " ++ onu_id;
      "show onu opm-diag " ++ interfaz0 ++ " " ++ onu_id;
      "show gpon onu optical-info " ++ interfaz0 ++ " " ++ onu_id ].

(** [partes[0].split('/')[i] if '/' in partes[0] else '0'] *)
Definition campo_interfaz (p0 : string) (i : nat) : resultado string :=
  if Py.contiene "/" p0 then
    match Py.indice (Py.split_sep "/" p0) i with
    | Some s => Retorna s
    | None => Lanza IndexError
    end
  else Retorna "0".

(** The loop of [obtener_informacion_onus] over the lines of the unit
    listing; [onus0] is the list built so far.  An exception ends the
    loop with the units already appended. *)
Fixpoint onus_desde (ssh : SSHClient) (olt_ip : string) (lineas : list string)
    (onus0 : list ONUInfo) : M (list ONUInfo) :=
  match lineas with
  | [] => ret onus0
  | linea :: resto =>
      if Py.contiene "gpon" (Py.lower linea) && Py.contiene "onu" (Py.lower linea) then
        match Py.split linea with
        | p0 :: p1 :: p2 :: _ :: _ =>
            match campo_interfaz p0 1, campo_interfaz p0 2 with
            | Retorna slot0, Retorna puerto0 =>
                '(serial0, rx, tx) <- obtener_detalles_onu ssh p0 p1 ;;
                t <- ahora ;;
                let onu_info :=
                  {| serial := o_bien serial0 ("UNKNOWN-" ++ p0 ++ "-" ++ p1);
                     interfaz := p0; slot := slot0; puerto := puerto0;
                     rx_power := rx; tx_power := tx; estado := p2;
                     consumo_bytes := 0; ultima_actualizacion := Some t |} in
                guardar_onu onu_info olt_ip ;;;
                bytes_rx <- randint 1000 1000000 ;;
                bytes_tx <- randint 1000 500000 ;;
                guardar_trafico olt_ip (serial onu_info) bytes_rx bytes_tx ;;;
                onus_desde ssh olt_ip resto (onus0 ++ [onu_info])
            | _, _ => ret onus0
            end
        | _ => onus_desde ssh olt_ip resto onus0
        end
      else onus_desde ssh olt_ip resto onus0
  end.

Definition obtener_informacion_onus (ssh : SSHClient) (olt_ip : string) : M (list ONUInfo) :=
  output_onus <- ejecutar_comando ssh "show gpon onu state" ;;
  onus_desde ssh olt_ip (Py.split_sep salto output_onus) [].

(** [if valor: self.db.guardar_metrica(olt_ip, tipo, valor)] *)
Definition guardar_si (olt_ip tipo_metrica : string) (valor : option spec_float) : M unit :=
  match valor with
  | Some f => if Py.verdad_float f then guardar_metrica olt_ip tipo_metrica f else ret tt
  | None => ret tt
  end.

Definition con_temperatura (t : option spec_float) (o : OLTInfo) : OLTInfo :=
  {| ip := ip o; nombre := nombre o; modelo := modelo o;
     temperatura := t; consumo_cpu := consumo_cpu o;
     consumo_memoria := consumo_memoria o; total_onus := total_onus o;
     onus_por_puerto := onus_por_puerto o; onus_detalladas := onus_detalladas o;
     snmp_community := snmp_community o |}.

Definition con_consumos (c m : option spec_float) (o : OLTInfo) : OLTInfo :=
  {| ip := ip o; nombre := nombre o; modelo := modelo o;
     temperatura := temperatura o; consumo_cpu := c;
     consumo_memoria := m; total_onus := total_onus o;
     onus_por_puerto := onus_por_puerto o; onus_detalladas := onus_detalladas o;
     snmp_community := snmp_community o |}.

Definition con_onus (l : list ONUInfo) (o : OLTInfo) : OLTInfo :=
  {| ip := ip o; nombre := nombre o; modelo := modelo o;
     temperatura := temperatura o; consumo_cpu := consumo_cpu o;
     consumo_memoria := consumo_memoria o; total_onus := List.length l;
     onus_por_puerto := contar_onus_por_puerto l; onus_detalladas := l;
     snmp_community := snmp_community o |}.

Definition con_community (c : string) (o : OLTInfo) : OLTInfo :=
  {| ip := ip o; nombre := nombre o; modelo := modelo o;
     temperatura := temperatura o; consumo_cpu := consumo_cpu o;
     consumo_memoria := consumo_memoria o; total_onus := total_onus o;
     onus_por_puerto := onus_por_puerto o; onus_detalladas := onus_detalladas o;
     snmp_community := Some c |}.

(** [actualizar_informacion_olt]: the object is mutated step by step, so
    what was assigned before an exception stays; the only call of the
    body that can raise is [extraer_temperatura]. *)
Definition actualizar_informacion_olt (ssh : SSHClient) (olt_info : OLTInfo) : M OLTInfo :=
  temp_info <- ejecutar_comando ssh "show system temperature" ;;
  match extraer_temperatura temp_info with
  | Lanza _ => ret olt_info
  | Retorna temp =>
      let olt1 := con_temperatura temp olt_info in
      guardar_si (ip olt1) "temperatura" (temperatura olt1) ;;;
      cpu_info <- ejecutar_comando ssh "show cpu usage" ;;
      mem_info <- ejecutar_comando ssh "show memory usage" ;;
      let olt2 := con_consumos (extraer_porcentaje cpu_info)
                               (extraer_porcentaje mem_info) olt1 in
      guardar_si (ip olt2) "cpu" (consumo_cpu olt2) ;;;
      guardar_si (ip olt2) "memoria" (consumo_memoria olt2) ;;;
      onus_info <- obtener_informacion_onus ssh (ip olt2) ;;
      ret (con_onus onus_info olt2)
  end.

(** [identificar_olt_vsol]: one turn of the loop per credential; a
    connection that raises, or a device that is not recognised, passes
    to the next credential. *)
Fixpoint identificar_desde (ip : string) (creds : list Credencial) : M (option OLTInfo) :=
  match creds with
  | [] => ret None
  | cred :: resto =>
      conectado <- ssh_connect ip cred ;;
      if conectado then
        let ssh := {| ssh_ip := ip; ssh_cred := cred |} in
        version_info <- ejecutar_comando ssh "show version" ;;
        system_info <- ejecutar_comando ssh "show system" ;;
        if es_olt_vsol version_info then
          nombre0 <- extraer_nombre_sistema system_info ;;
          olt_info <- actualizar_informacion_olt ssh
                        (nueva_olt ip nombre0 (extraer_modelo version_info)) ;;
          ssh_close ssh ;;;
          ret (Some olt_info)
        else
          ssh_close ssh ;;;
          identificar_desde ip resto
      else identificar_desde ip resto
  end.

Definition identificar_olt_vsol (ip : string) : M (option OLTInfo) :=
  identificar_desde ip credenciales.

(** *** Discovery *)

Definition asigna (ip : string) (olt_info : OLTInfo) : M unit :=
  modifica (con_olts (setitem ip olt_info)).

(** [verificar_ip], the task submitted for each address. *)
Definition verificar_ip (ip : string) : M unit :=
  snmp_info <- probar_snmp_olt ip ;;
  match snmp_info with
  | Some info =>
      let olt_info :=
        con_community (si_community info)
          (nueva_olt (si_ip info) (si_nombre info) (si_modelo info)) in
      asigna ip olt_info ;;;
      guardar_olt olt_info
  | None =>
      abierto <- puerto_abierto ip 22 ;;
      if abierto then
        r <- identificar_olt_vsol ip ;;
        match r with
        | Some olt_info => asigna ip olt_info ;;; guardar_olt olt_info
        | None => ret tt
        end
      else ret tt
  end.

(** The tasks of a pass, run one after the other in the order [ips].
    The source submits them to a pool of twenty worker threads for each
    range, and runs the ranges in threads of their own.  A task reads
    nothing another task writes: it meets the others only in its
    assignment to [olts_detectadas] and in the rows it asks the database
    to store.  The order of the list stands for the order of these
    assignments, so the inventory a pass leaves is that of the source
    for some order of the list.  The log of a pass is the log of one
    schedule, that in which no two tasks overlap: the order of the
    events of one task is that of the source, the order of the events
    of different tasks is not. *)
Fixpoint escanear_direcciones (ips : list string) : M unit :=
  match ips with
  | [] => ret tt
  | ip :: resto => verificar_ip ip ;;; escanear_direcciones resto
  end.

(** [for i in range(1, 254): ip = f"{rango_ip}{i}"] *)
Definition direcciones_rango (rango_ip : string) : list string :=
  map (fun i => rango_ip ++ str_nat i) (seq 1 253).

Definition escanear_rango (rango_ip : string) : M unit :=
  escanear_direcciones (direcciones_rango rango_ip).

Fixpoint escanear_rangos (rangos : list string) : M unit :=
  match rangos with
  | [] => ret tt
  | rango :: resto => escanear_rango rango ;;; escanear_rangos resto
  end.

Definition escanear_red_empresarial : M nat :=
  escanear_rangos rangos_ip ;;;
  (fun st => (List.length (olts_detectadas st), st)).

(** [cargar_olts_existentes], given the rows [obtener_olts] returns. *)
Fixpoint cargar_olts_existentes (filas : list (string * string * string)) : M unit :=
  match filas with
  | [] => ret tt
  | (ip0, nombre0, modelo0) :: resto =>
      asigna ip0 (nueva_olt ip0 nombre0 modelo0) ;;;
      cargar_olts_existentes resto
  end.

(** *** Refresh *)

(** The loop of [actualizar_todas_olts] over the items of the
    inventory.  Each object is mutated in place: the loop gives back
    the items with the objects as the pass leaves them, and the count
    of the devices refreshed. *)
Fixpoint actualizar_desde (items : dict OLTInfo) (actualizadas : nat)
    : M (dict OLTInfo * nat) :=
  match items with
  | [] => ret ([], actualizadas)
  | (ip, olt_info) :: resto =>
      por_snmp <- match snmp_community olt_info with
                  | Some _ => actualizar_olt_snmp olt_info
                  | None => ret false
                  end ;;
      if por_snmp then
        '(r, n) <- actualizar_desde resto (S actualizadas) ;;
        ret ((ip, olt_info) :: r, n)
      else
        match credenciales with
        | [] =>
            '(r, n) <- actualizar_desde resto actualizadas ;;
            ret ((ip, olt_info) :: r, n)
        | cred :: _ =>
            conectado <- ssh_connect ip cred ;;
            if conectado then
              let ssh := {| ssh_ip := ip; ssh_cred := cred |} in
              olt_info' <- actualizar_informacion_olt ssh olt_info ;;
              ssh_close ssh ;;;
              '(r, n) <- actualizar_desde resto (S actualizadas) ;;
              ret ((ip, olt_info') :: r, n)
            else
              '(r, n) <- actualizar_desde resto actualizadas ;;
              ret ((ip, olt_info) :: r, n)
        end
  end.

Definition actualizar_todas_olts : M nat :=
  fun st =>
    let '((items, n), st') := actualizar_desde (olts_detectadas st) 0 st in
    (n, con_olts (fun _ => items) st').

(** *** Statistics *)

Fixpoint suma_total_onus (l : list OLTInfo) : nat :=
  match l with
  | [] => 0
  | olt :: resto => total_onus olt + suma_total_onus resto
  end.

(** [if onu.rx_power < -27: onus_con_señal_baja += 1], over the units
    of one device and then over the devices. *)
Fixpoint cuenta_baja_onus (l : list ONUInfo) (n : nat) : nat :=
  match l with
  | [] => n
  | onu :: resto =>
      cuenta_baja_onus resto (if Py.menor_que (rx_power onu) (-27) then S n else n)
  end.

Fixpoint cuenta_baja_olts (l : list OLTInfo) (n : nat) : nat :=
  match l with
  | [] => n
  | olt :: resto => cuenta_baja_olts resto (cuenta_baja_onus (onus_detalladas olt) n)
  end.

Definition obtener_estadisticas : M Estadisticas :=
  fun st =>
    let vs := valores (olts_detectadas st) in
    (t <- ahora ;;
     ret {| e_total_olts := List.length (olts_detectadas st);
            e_total_onus := suma_total_onus vs;
            e_olts_online := List.length (olts_detectadas st);
            e_onus_senal_baja := cuenta_baja_olts vs 0;
            e_ultima_actualizacion := t |}) st.

End Monitor.

(** The credentials the constructor sets. *)
Definition credenciales_por_defecto : list Credencial :=
  [ {| username := "admin"; password := "admin" |};
    {| username := "admin"; password := "Admin123!" |};
    {| username := "admin"; password := "vsol123" |};
    {| username := "support"; password := "support" |};
    {| username := "root"; password := "root" |} ].

Definition rangos_por_defecto : list string :=
  [ "10.0.0."; "172.16.0."; "192.168.0."; "192.168.1."; "192.168.100." ].

(** The state after [self.olts_detectadas = {}] over an empty database. *)
Definition estado_inicial : Estado :=
  {| olts_detectadas := [];
     db := {| olts := []; onus := []; metricas := []; trafico := [] |};
     bitacora := []; tic := 0 |}.

(** ** The web layer: read-only handlers of [app.py]

    The global [monitor] of the application is [None] before the start-up
    code has run, the monitor afterwards. *)

(** The dictionary [get_stats] returns. *)
Record StatsWeb : Type := {
  w_total_olts : nat;
  w_total_onus : nat;
  w_olts_online : nat;
  w_last_update : datetime
}.

(** [get_stats]: [None] stands for the empty dictionary returned when
    there is no monitor. *)
Definition get_stats (red : Red) (monitor : option Estado)
    : option StatsWeb * option Estado :=
  match monitor with
  | None => (None, None)
  | Some st =>
      let total_onus0 := suma_total_onus (valores (olts_detectadas st)) in
      let olts_online := List.length (valores (olts_detectadas st)) in
      let '(t, st') := ahora red st in
      (Some {| w_total_olts := List.length (olts_detectadas st);
               w_total_onus := total_onus0;
               w_olts_online := olts_online;
               w_last_update := t |},
       Some st')
  end.

(** [get_onus_by_olt]: the units of a device and their count, as the
    record holds them. *)
Definition get_onus_by_olt (monitor : option Estado) (olt_ip : string)
    : list ONUInfo * nat :=
  match monitor with
  | None => ([], 0)
  | Some st =>
      match get (olts_detectadas st) olt_ip with
      | Some olt => (onus_detalladas olt, total_onus olt)
      | None => ([], 0)
      end
  end.

(** [get_olts]: the records of the inventory and their number. *)
Definition get_olts (monitor : option Estado) : list OLTInfo * nat :=
  match monitor with
  | None => ([], 0)
  | Some st => (valores (olts_detectadas st), List.length (olts_detectadas st))
  end.

(** * Properties *)

Open Scope list_scope.

(** ** Vocabulary of the statements *)

(** *** Extractors and statistics *)

(** The lines an extractor scans. *)
Definition lineas_de (output : string) : list string := Py.split_sep salto output.

(** A line mentions a keyword, whatever the case of its letters. *)
Definition menciona (palabra linea : string) : bool :=
  Py.contiene palabra (Py.lower linea).

(** The test of the statistics: RX power strictly below -27. *)
Definition senal_baja (onu : ONUInfo) : bool := Py.menor_que (rx_power onu) (-27).

(** A unit that carries the optical-power sentinel. *)
Definition lectura_ausente (onu : ONUInfo) : bool :=
  Py.igual (rx_power onu) (Py.PyInt (-999)).

(** All the units of the inventory, device after device. *)
Definition todas_las_onus (st : Estado) : list ONUInfo :=
  flat_map onus_detalladas (valores (olts_detectadas st)).

(** A unit with a given RX power. *)
Definition onu_con_rx (n : string) (rx : Py.numero) : ONUInfo :=
  {| serial := n; interfaz := "p1"; slot := "1"; puerto := "1";
     rx_power := rx; tx_power := Py.PyInt (-999); estado := "online";
     consumo_bytes := 0; ultima_actualizacion := None |}.

(** A float written as Python writes its literals. *)
Definition literal (s : string) : Py.numero :=
  match Py.float s with
  | Some f => Py.PyFloat f
  | None => Py.PyInt 0
  end.

(** An inventory of one device with the units [l]. *)
Definition inventario_de (l : list ONUInfo) : Estado :=
  {| olts_detectadas :=
       [("10.0.0.1",
         {| ip := "10.0.0.1"; nombre := "OLT-1"; modelo := "VSOL-OLT";
            temperatura := None; consumo_cpu := None; consumo_memoria := None;
            total_onus := List.length l; onus_por_puerto := contar_onus_por_puerto l;
            onus_detalladas := l; snmp_community := None |})];
     db := db estado_inicial; bitacora := []; tic := 0 |}.

(** *** Frames and views of the log *)

(** [preserva f m]: running [m] does not change the view [f] of the
    state. *)
Definition preserva {X A : Type} (f : Estado -> X) (m : M A) : Prop :=
  forall st, f (snd (m st)) = f st.

(** The log of network operations seen through [h], in the order of the
    operations. *)
Definition traza {T : Type} (h : Evento -> list T) (st : Estado) : list T :=
  flat_map h (bitacora st).


(** The output [ejecutar_comando] returns, as a function of the network. *)
Definition salida (red : Red) (ssh : SSHClient) (comando : string) : string :=
  match red_exec red (ssh_ip ssh) (ssh_cred ssh) comando with
  | Some s => Py.strip s
  | None => ""
  end.

(** The connections attempted: address and credential. *)
Definition ev_conexion (ev : Evento) : list (string * Credencial) :=
  match ev with
  | EvConnect i c => [(i, c)]
  | _ => []
  end.

(** The connections attempted up to a state. *)
Definition conexiones : Estado -> list (string * Credencial) := traza ev_conexion.

(** What happens to the shell sessions: a connection is attempted, a
    session is closed. *)
Inductive PasoSesion : Type :=
| Conecta (ip : string) (cred : Credencial)
| Cierra (ip : string) (cred : Credencial).

Definition ev_sesion (ev : Evento) : list PasoSesion :=
  match ev with
  | EvConnect i c => [Conecta i c]
  | EvClose i c => [Cierra i c]
  | _ => []
  end.

(** The connections attempted and the sessions closed up to a state, in
    the order they happened. *)
Definition sesiones : Estado -> list PasoSesion := traza ev_sesion.

(** The turn of one credential in the loop of the shell prober: the
    connection is attempted and, when it succeeds, the session is closed
    before the loop goes on or returns. *)
Definition turno (red : Red) (ip0 : string) (cred : Credencial) : list PasoSesion :=
  Conecta ip0 cred :: (if red_connect red ip0 cred then [Cierra ip0 cred] else []).

(** The SNMP queries sent: address and community. *)
Definition ev_snmp (ev : Evento) : list (string * string) :=
  match ev with
  | EvSnmpGet i _ c | EvSnmpWalk i _ c => [(i, c)]
  | _ => []
  end.

(** The SNMP queries sent up to a state. *)
Definition consultas : Estado -> list (string * string) := traza ev_snmp.

(** *** Probers and refresh *)

(** The elements of a list up to the first that satisfies [p], that one
    included. *)
Fixpoint hasta_primero {A : Type} (p : A -> bool) (l : list A) : list A :=
  match l with
  | [] => []
  | x :: r => if p x then [x] else x :: hasta_primero p r
  end.

(** The session opened at an address with a credential. *)
Definition sesion (ip0 : string) (cred : Credencial) : SSHClient :=
  {| ssh_ip := ip0; ssh_cred := cred |}.

(** The connection with [cred] succeeds and the version output carries a
    marker. *)
Definition reconocida (red : Red) (ip0 : string) (cred : Credencial) : bool :=
  red_connect red ip0 cred &&
  es_olt_vsol (salida red (sesion ip0 cred) "show version").

(** Networks for the examples: no SNMP agent, port 22 open, the
    connection decided by [conecta], the output of a command by [exec],
    a database that accepts every write. *)
Definition red_de_prueba (conecta : Credencial -> bool)
    (exec : string -> option string) : Red :=
  {| red_snmp_get := fun _ _ _ => None;
     red_snmp_walk := fun _ _ _ => [];
     red_puerto := fun _ _ => true;
     red_connect := fun _ c => conecta c;
     red_exec := fun _ _ cmd => exec cmd;
     red_reloj := fun n => Z.of_nat n;
     red_azar := fun _ a _ => a;
     red_db := fun _ => true |}.

(** Three credentials, in the order of the list. *)
Definition cred_A : Credencial := {| username := "admin"; password := "a" |}.
Definition cred_B : Credencial := {| username := "admin"; password := "b" |}.
Definition cred_C : Credencial := {| username := "admin"; password := "c" |}.

(** The connection test of a host that accepts [cred_B] only. *)
Definition solo_B (c : Credencial) : bool := String.eqb (password c) "b".

(** Only [cred_B] connects, to a host that is not a line terminal. *)
Definition red_otro_equipo : Red :=
  red_de_prueba solo_B
    (fun cmd => if String.eqb cmd "show version" then Some "Linux 5.10" else Some "").

(** Only [cred_B] connects, to a line terminal. *)
Definition red_olt : Red :=
  red_de_prueba solo_B
    (fun cmd => if String.eqb cmd "show version" then Some "VSOL GPON OLT V2" else Some "").

(** The state after the five queries of [obtener_info_snmp_olt]. *)
Definition tras_snmp (i c : string) (st : Estado) : Estado :=
  anota (EvSnmpWalk i "1.3.6.1.4.1" c)
    (anota (EvSnmpWalk i "1.3.6.1.2.1.2.2.1.2" c)
       (anota (EvSnmpGet i "1.3.6.1.2.1.1.6.0" c)
          (anota (EvSnmpGet i "1.3.6.1.2.1.1.5.0" c)
             (anota (EvSnmpGet i "1.3.6.1.2.1.1.1.0" c) st)))).

(** What the refresh of one item sends: the SNMP queries and the shell
    connections. *)
Definition consultas_refresco (item : string * OLTInfo) : list (string * string) :=
  match snmp_community (snd item) with
  | Some c => repeat (ip (snd item), c) 5
  | None => []
  end.

(** The SNMP re-query of a record reports success. *)
Definition refresco_snmp (red : Red) (o : OLTInfo) : bool :=
  fst (actualizar_olt_snmp red o estado_inicial).

(** The shell is used, with the first configured credential, when the
    SNMP re-query did not report success. *)
Definition conexiones_refresco (red : Red) (creds : list Credencial)
    (item : string * OLTInfo) : list (string * Credencial) :=
  if refresco_snmp red (snd item) then []
  else map (pair (fst item)) (firstn 1 creds).

(** A line terminal found by the shell prober with the second credential,
    then refreshed. *)
Definition tras_descubrir : Estado :=
  snd (verificar_ip red_olt [cred_A; cred_B] ["public"] "10.0.0.7" estado_inicial).

(** The device at an address answers nothing: no SNMP query and no shell
    connection succeeds. *)
Definition sin_respuesta (red : Red) (ip0 : string) : Prop :=
  (forall oid c, red_snmp_get red ip0 oid c = None) /\
  (forall oid c, red_snmp_walk red ip0 oid c = []) /\
  (forall cred, red_connect red ip0 cred = false).

(** An item after the pass: the same key, and the same record when the
    device did not answer. *)
Definition intacto (red : Red) (antes despues : string * OLTInfo) : Prop :=
  fst despues = fst antes /\
  (sin_respuesta red (fst antes) -> snd despues = snd antes).

(** Nothing answers on this network. *)
Definition red_muda : Red := red_de_prueba (fun _ => false) (fun _ => None).

(** [marca] occurs in [texto], the case of the letters set aside. *)
Definition sin_distinguir (marca texto : string) : bool :=
  Py.contiene (Py.lower marca) (Py.lower texto).

(** The markers [probar_snmp_olt] looks for. *)
Definition marcadores_snmp : list string := ["VSOL"; "OLT"; "GPON"].

(** The community is accepted: the system-description query succeeds and
    the description carries a marker. *)
Definition acepta (red : Red) (ip0 community : string) : bool :=
  match red_snmp_get red ip0 "1.3.6.1.2.1.1.1.0" community with
  | Some d => marca_snmp d
  | None => false
  end.

(** The candidate returned for an accepted community. *)
Definition candidato (red : Red) (ip0 community : string) : SnmpInfo :=
  {| si_ip := ip0;
     si_nombre := o_bien (red_snmp_get red ip0 "1.3.6.1.2.1.1.5.0" community)
                    ("OLT-" ++ Py.ultimo (Py.split_sep "." ip0))%string;
     si_modelo := Py.hasta 50
                    (match red_snmp_get red ip0 "1.3.6.1.2.1.1.1.0" community with
                     | Some d => d
                     | None => ""
                     end);
     si_community := community;
     si_snmp_available := true |}.

(** The test [obtener_detalles_onu] makes on the output of a detail
    command. *)
Definition respuesta_valida (output : string) : bool :=
  Py.verdad_str output && negb (Py.contiene "invalid" (Py.lower output)).

(** The three detail commands tried for a unit. *)
Definition comandos_detalle (i o : string) : list string :=
  [ "show gpon onu detail " ++ i ++ " " ++ o;
    "show onu opm-diag " ++ i ++ " " ++ o;
    "show gpon onu optical-info " ++ i ++ " " ++ o ]%string.

(** A line terminal that lists one unit and answers nothing valid to the
    detail commands. *)
Definition red_sin_lectura : Red :=
  red_de_prueba solo_B
    (fun cmd =>
       if String.eqb cmd "show version" then Some "VSOL GPON OLT V2"
       else if String.eqb cmd "show gpon onu state"
            then Some "gpon-onu_1/1/1 1 working 1(GPON)"
            else Some "").

(** *** Metric samples *)









(** A line terminal at 0 degrees with an idle processor. *)
Definition red_en_cero : Red :=
  red_de_prueba solo_B
    (fun cmd =>
       if String.eqb cmd "show system temperature" then Some "Temperature: 0 C"
       else if String.eqb cmd "show cpu usage" then Some "CPU usage: 0.0%"
            else if String.eqb cmd "show memory usage" then Some "Memory usage: 37%"
                 else Some "").

(** *** Inventory and scan passes *)

(** The record [verificar_ip] builds for an address, if any: the probe
    without the assignment to the inventory and the write to the
    database. *)
Definition hallar (red : Red) (creds : list Credencial) (comms : list string)
    (ip0 : string) : M (option OLTInfo) :=
  snmp_info <- probar_snmp_olt red comms ip0 ;;
  match snmp_info with
  | Some info =>
      ret (Some (con_community (si_community info)
                   (nueva_olt (si_ip info) (si_nombre info) (si_modelo info))))
  | None =>
      abierto <- puerto_abierto red ip0 22 ;;
      if abierto then identificar_olt_vsol red creds ip0 else ret None
  end.

(** The counts kept for a device: [total_onus], the number of unit
    records and the counts by port. *)
Definition conteos (o : OLTInfo) : nat * nat * dict nat :=
  (total_onus o, List.length (onus_detalladas o), onus_por_puerto o).

(** The inventory seen through the counts: address and counts of each
    record, in the order of the dictionary. *)
Definition vista (st : Estado) : dict (nat * nat * dict nat) :=
  map (fun kv => (fst kv, conteos (snd kv))) (olts_detectadas st).


(** The addresses of a pass over the ranges. *)
Definition direcciones (rangos : list string) : list string :=
  flat_map direcciones_rango rangos.

(** The states the monitor goes through: from an empty inventory, by
    loading the devices of the database, by the identification tasks of
    the scan passes, and by refresh passes. *)
Inductive alcanzable (red : Red) (creds : list Credencial) (comms : list string)
    : Estado -> Prop :=
| alc_inicial st :
    olts_detectadas st = [] -> alcanzable red creds comms st
| alc_cargar st filas :
    alcanzable red creds comms st ->
    alcanzable red creds comms (snd (cargar_olts_existentes filas st))
| alc_verificar st ip0 :
    alcanzable red creds comms st ->
    alcanzable red creds comms (snd (verificar_ip red creds comms ip0 st))
| alc_actualizar st :
    alcanzable red creds comms st ->
    alcanzable red creds comms (snd (actualizar_todas_olts red creds st)).

(** *** Further vocabulary *)

(** The number of units of a list on an interface. *)
Definition en_interfaz (p : string) (l : list ONUInfo) : nat :=
  List.length (filter (fun o => String.eqb (interfaz o) p) l).

(** A string without whitespace. *)
Definition sin_espacios (t : string) : bool :=
  Py.todos (fun c => negb (Py.isspace_char c)) t.

(** The commands run in the sessions, in order. *)
Definition ev_comando (ev : Evento) : list string :=
  match ev with
  | EvExec _ _ cmd => [cmd]
  | _ => []
  end.

Definition comandos : Estado -> list string := traza ev_comando.

(** What [obtener_detalles_onu] reads in the output of a detail command:
    nothing when an extractor of optical power raises. *)
Definition lectura_de (output : string) : option string * Py.numero * Py.numero :=
  match extraer_rx_power output with
  | Lanza _ => sin_lectura
  | Retorna rx =>
      match extraer_tx_power output with
      | Lanza _ => sin_lectura
      | Retorna tx => (extraer_serial output, rx, tx)
      end
  end.

(** [respeta R m]: running [m] takes a state to a state related to it by
    [R]. *)
Definition respeta {A : Type} (R : Estado -> Estado -> Prop) (m : M A) : Prop :=
  forall st, R st (snd (m st)).

(** A traffic row without its byte counts. *)
Definition par_trafico (t : Trafico) : string * string := (t_olt_ip t, t_onu_serial t).

(** [l] is [l'] with some of its elements left out. *)
Inductive subsecuencia {A : Type} : list A -> list A -> Prop :=
| sub_nil : subsecuencia [] []
| sub_toma x l l' : subsecuencia l l' -> subsecuencia (x :: l) (x :: l')
| sub_deja x l l' : subsecuencia l l' -> subsecuencia l (x :: l').

(** The last unit of [l] that carries the serial [s]. *)
Definition ultima_con_serial (s : string) (l : list ONUInfo) : option ONUInfo :=
  find (fun o => String.eqb (serial o) s) (rev l).

(** What [obtener_informacion_onus] leaves in the database for the units
    [nuevas] it returns for the device [olt_ip], whatever the database
    accepts: the traffic rows appended are rows of these units, in
    their order; no serial leaves the units table; the row under a
    serial is the row of before or the row of one of these units with
    that serial. *)
Definition registro_onus (olt_ip : string) (st st' : Estado) (nuevas : list ONUInfo)
    : Prop :=
  (exists filas,
     subsecuencia filas (map (fun o => (olt_ip, serial o)) nuevas) /\
     map par_trafico (trafico (db st')) = map par_trafico (trafico (db st)) ++ filas) /\
  incl (claves (onus (db st))) (claves (onus (db st'))) /\
  (forall s,
     get (onus (db st')) s = get (onus (db st)) s \/
     exists o, In o nuevas /\ serial o = s /\ get (onus (db st')) s = Some (olt_ip, o)).

(** The same when every write lands: one traffic row for each unit, in
    order; under each serial the row of the last unit that carries it,
    and the row of before under the other serials. *)
Definition registro_completo (olt_ip : string) (st st' : Estado)
    (nuevas : list ONUInfo) : Prop :=
  map par_trafico (trafico (db st')) =
  map par_trafico (trafico (db st)) ++ map (fun o => (olt_ip, serial o)) nuevas /\
  (forall s,
     get (onus (db st')) s =
     match ultima_con_serial s nuevas with
     | Some o => Some (olt_ip, o)
     | None => get (onus (db st)) s
     end).

(** Two units of a listing whose detail output gives the same last
    token as serial. *)
Definition red_dos_unidades : Red :=
  red_de_prueba solo_B
    (fun cmd =>
       if String.eqb cmd "show gpon onu state"
       then Some (String.append "gpon-onu_1/1/1 1 working 1(GPON)"
                    (String salto "gpon-onu_1/1/2 2 working 1(GPON)"))
       else if Py.startswith "show gpon onu detail" cmd
            then Some "SN: router"
            else Some "").

(** A record of the inventory agrees with itself and with its key: it
    holds the address it is filed under, [total_onus] is the number of
    its unit records and the counts by port are those of its units. *)
Definition coherente (k : string) (o : OLTInfo) : Prop :=
  ip o = k /\
  total_onus o = List.length (onus_detalladas o) /\
  onus_por_puerto o = contar_onus_por_puerto (onus_detalladas o).

Definition inventario_coherente (st : Estado) : Prop :=
  Forall (fun kv => coherente (fst kv) (snd kv)) (olts_detectadas st).

(** An item of the inventory before and after a refresh pass: the key
    stays; the record stays too, unless it has no community and the
    connection with the first credential succeeds, in which case it is
    what [actualizar_informacion_olt] makes of it over that session. *)
Definition refrescado (red : Red) (creds : list Credencial)
    (a b : string * OLTInfo) : Prop :=
  fst b = fst a /\
  match snmp_community (snd a), creds with
  | Some _, _ => snd b = snd a
  | None, [] => snd b = snd a
  | None, c :: _ =>
      if red_connect red (fst a) c
      then exists s, snd b = fst (actualizar_informacion_olt red (sesion (fst a) c) (snd a) s)
      else snd b = snd a
  end.

(** The device is counted as refreshed by [actualizar_todas_olts]. *)
Definition refrescada (red : Red) (creds : list Credencial)
    (item : string * OLTInfo) : bool :=
  refresco_snmp red (snd item) ||
  match creds with
  | c :: _ => red_connect red (fst item) c
  | [] => false
  end.

(** A device found by SNMP, on a network where the shell would answer. *)
Definition inventario_snmp : Estado :=
  {| olts_detectadas :=
       [("10.0.0.9", con_community "public" (nueva_olt "10.0.0.9" "OLT-9" "VSOL GPON"))];
     db := db estado_inicial; bitacora := []; tic := 0 |}.

(** [l'] continues [l]. *)
Definition prefijo {A : Type} (l l' : list A) : Prop := exists s, l' = l ++ s.

(** The database only grows from one state to the other: no device and
    no unit leaves its table, the metric and traffic rows of before are
    the first rows of after. *)
Definition crece (a b : Estado) : Prop :=
  incl (claves (olts (db a))) (claves (olts (db b))) /\
  incl (claves (onus (db a))) (claves (onus (db b))) /\
  prefijo (metricas (db a)) (metricas (db b)) /\
  prefijo (trafico (db a)) (trafico (db b)).

(** The devices table is the same in both states. *)
Definition misma_tabla_olts (a b : Estado) : Prop := olts (db b) = olts (db a).

(** The sessions opened, that is the connections that succeeded, and the
    sessions closed. *)
Definition ev_abre (red : Red) (ev : Evento) : list (string * Credencial) :=
  match ev with
  | EvConnect i c => if red_connect red i c then [(i, c)] else []
  | _ => []
  end.

Definition ev_cierra (ev : Evento) : list (string * Credencial) :=
  match ev with
  | EvClose i c => [(i, c)]
  | _ => []
  end.

(** From one state to the other the same sessions were opened and
    closed, in the same order. *)
Definition equilibrado (red : Red) (a b : Estado) : Prop :=
  exists X,
    traza (ev_abre red) b = traza (ev_abre red) a ++ X /\
    traza ev_cierra b = traza ev_cierra a ++ X.

(** From one state to the other the sessions opened and the sessions
    closed are the same, their order set aside: the tasks of a scan pass
    run in worker threads, so the sessions of different tasks overlap
    and only what does not depend on the schedule is stated of a pass. *)
Definition compensado (red : Red) (a b : Estado) : Prop :=
  exists X Y,
    traza (ev_abre red) b = traza (ev_abre red) a ++ X /\
    traza ev_cierra b = traza ev_cierra a ++ Y /\
    Permutation X Y.

(** The inventory keeps its addresses, in their order, and may get new
    ones after them. *)
Definition conserva_claves (a b : Estado) : Prop :=
  prefijo (claves (olts_detectadas a)) (claves (olts_detectadas b)).

(** The view [f] of the state is the same in both states. *)
Definition igual_en {X : Type} (f : Estado -> X) (a b : Estado) : Prop := f b = f a.

(** The ports probed: address and port. *)
Definition ev_puerto (ev : Evento) : list (string * Z) :=
  match ev with
  | EvPuerto i p => [(i, p)]
  | _ => []
  end.

Definition puertos : Estado -> list (string * Z) := traza ev_puerto.

(** The communities the SNMP prober queries: each community of the list
    up to the first accepted one, which is queried a second time for the
    system name. *)
Fixpoint comunidades_consultadas (p : string -> bool) (cs : list string) : list string :=
  match cs with
  | [] => []
  | c :: r => if p c then [c; c] else c :: comunidades_consultadas p r
  end.

(** The address of a row of the table of devices, and the record
    [cargar_olts_existentes] builds from the row. *)
Definition ip_fila (f : string * string * string) : string := fst (fst f).

Definition olt_de_fila (f : string * string * string) : OLTInfo :=
  nueva_olt (fst (fst f)) (snd (fst f)) (snd f).

(** Every entry of a trace is about an address of [ips]. *)
Definition dentro {B : Type} (ips : list string) (l : list (string * B)) : Prop :=
  Forall (fun e => In (fst e) ips) l.

(** From one state to the other the network was contacted only at
    addresses of [ips], and no port other than 22 was probed. *)
Definition solo_contacta (ips : list string) (a b : Estado) : Prop :=
  exists qs ps cs,
    consultas b = consultas a ++ qs /\ dentro ips qs /\
    puertos b = puertos a ++ ps /\ dentro ips ps /\ Forall (fun e => snd e = 22%Z) ps /\
    conexiones b = conexiones a ++ cs /\ dentro ips cs.

(** [v] is the float of a numeric token of a line of [output] that
    satisfies [p]. *)
Definition leido_de (p : string -> bool) (output : string) (v : spec_float) : Prop :=
  exists linea parte,
    In linea (lineas_de output) /\ p linea = true /\
    In parte (Py.split linea) /\ parece_numero parte = true /\
    Py.float parte = Some v.

(** The lines the RX and the TX extractor look at. *)
Definition linea_rx (linea : string) : bool :=
  menciona "rx" linea && menciona "power" linea.

Definition linea_tx (linea : string) : bool :=
  menciona "tx" linea && menciona "power" linea.

(** ** Extractors *)

Lemma extraer_temperatura_sin_linea (lineas : list string) :
  (forall linea, In linea lineas -> menciona "temperature" linea = false) ->
  extraer_temperatura_lineas lineas = Retorna None.
Proof.
  induction lineas as [|linea resto IH]; intros H; [reflexivity|].
  cbn [extraer_temperatura_lineas].
  fold (menciona "temperature" linea). rewrite (H linea (or_introl eq_refl)).
  apply IH. intros l Hl. apply H. right. exact Hl.
Qed.

Lemma extraer_rx_power_sin_linea (lineas : list string) :
  (forall linea, In linea lineas ->
     menciona "rx" linea && menciona "power" linea = false) ->
  extraer_rx_power_lineas lineas = Retorna (Py.PyInt (-999)).
Proof.
  induction lineas as [|linea resto IH]; intros H; [reflexivity|].
  cbn [extraer_rx_power_lineas].
  fold (menciona "rx" linea) (menciona "power" linea).
  rewrite (H linea (or_introl eq_refl)).
  apply IH. intros l Hl. apply H. right. exact Hl.
Qed.

Lemma extraer_tx_power_sin_linea (lineas : list string) :
  (forall linea, In linea lineas ->
     menciona "tx" linea && menciona "power" linea = false) ->
  extraer_tx_power_lineas lineas = Retorna (Py.PyInt (-999)).
Proof.
  induction lineas as [|linea resto IH]; intros H; [reflexivity|].
  cbn [extraer_tx_power_lineas].
  fold (menciona "tx" linea) (menciona "power" linea).
  rewrite (H linea (or_introl eq_refl)).
  apply IH. intros l Hl. apply H. right. exact Hl.
Qed.

(** C2. The extractors of temperature and of RX and TX power raise on a
    text they can receive: a token made of digits, points and hyphens
    passes the test that guards [float] and is then refused by [float],
    whose [ValueError] is not caught (here a date on the matching line).
    The percentage extractor, which catches it, goes on to the next
    token. *)
Theorem C2_extractores_lanzan :
  extraer_temperatura "Temperature 2024-01-15 45 C" = Lanza ValueError /\
  extraer_rx_power "Rx power 2024-01-15 -21.5" = Lanza ValueError /\
  extraer_tx_power "Tx power 1.2.3" = Lanza ValueError /\
  extraer_porcentaje "cpu 2024-01-15% 12%" = Py.float "12".
Proof. repeat split; vm_compute; reflexivity. Qed.

(** C6. A text none of whose lines carries the keywords gives the
    sentinel: [-999], equal to [-999.0], for RX and TX power, [None] for
    the temperature; so do the three texts of the specification. *)
Theorem C6_centinelas :
  (forall output,
     (forall linea, In linea (lineas_de output) ->
        menciona "rx" linea && menciona "power" linea = false) ->
     extraer_rx_power output = Retorna (Py.PyInt (-999))) /\
  (forall output,
     (forall linea, In linea (lineas_de output) ->
        menciona "tx" linea && menciona "power" linea = false) ->
     extraer_tx_power output = Retorna (Py.PyInt (-999))) /\
  (forall output,
     (forall linea, In linea (lineas_de output) ->
        menciona "temperature" linea = false) ->
     extraer_temperatura output = Retorna None) /\
  Py.igual (Py.PyInt (-999)) (literal "-999.0") = true /\
  extraer_rx_power "no mention of power" = Retorna (Py.PyInt (-999)) /\
  extraer_tx_power "no mention of power" = Retorna (Py.PyInt (-999)) /\
  extraer_temperatura "no temperature here" = Retorna None.
Proof.
  split; [|split; [|split]].
  - intros output H. apply extraer_rx_power_sin_linea. exact H.
  - intros output H. apply extraer_tx_power_sin_linea. exact H.
  - intros output H. apply extraer_temperatura_sin_linea. exact H.
  - repeat split; vm_compute; reflexivity.
Qed.

Lemma C6_centinelas_testigo :
  extraer_rx_power "link down" = Retorna (Py.PyInt (-999)) /\
  extraer_tx_power "link down" = Retorna (Py.PyInt (-999)) /\
  extraer_temperatura "link down" = Retorna None.
Proof.
  destruct C6_centinelas as (Hrx & Htx & Htemp & _).
  split; [|split].
  - apply Hrx. intros linea [<-|[]]. reflexivity.
  - apply Htx. intros linea [<-|[]]. reflexivity.
  - apply Htemp. intros linea [<-|[]]. reflexivity.
Defined.

(** ** Statistics *)

Lemma cuenta_baja_onus_filter (l : list ONUInfo) (n : nat) :
  cuenta_baja_onus l n = n + List.length (filter senal_baja l).
Proof.
  revert n. induction l as [|onu resto IH]; intros n; simpl.
  - lia.
  - rewrite IH. unfold senal_baja at 2.
    destruct (Py.menor_que (rx_power onu) (-27)); simpl; lia.
Qed.

Lemma cuenta_baja_olts_filter (l : list OLTInfo) (n : nat) :
  cuenta_baja_olts l n =
  n + List.length (filter senal_baja (flat_map onus_detalladas l)).
Proof.
  revert n. induction l as [|olt resto IH]; intros n; simpl.
  - lia.
  - rewrite IH, cuenta_baja_onus_filter, filter_app, length_app. lia.
Qed.

Lemma estadisticas_senal_baja (red : Red) (st : Estado) :
  e_onus_senal_baja (fst (obtener_estadisticas red st)) =
  List.length (filter senal_baja (todas_las_onus st)).
Proof.
  unfold obtener_estadisticas, todas_las_onus. simpl.
  apply cuenta_baja_olts_filter.
Qed.

(** C7. The low-signal count of the statistics is the number of units of
    the inventory whose RX power is strictly below -27: -27 itself and
    anything above are not counted, anything below is; a device with
    units at -20, -28 and -30 reports 2. *)
Theorem C7_senal_baja :
  (forall red st,
     e_onus_senal_baja (fst (obtener_estadisticas red st)) =
     List.length (filter senal_baja (todas_las_onus st))) /\
  (forall n z, senal_baja (onu_con_rx n (Py.PyInt z)) = (z <? -27)%Z) /\
  senal_baja (onu_con_rx "a" (literal "-27.0")) = false /\
  senal_baja (onu_con_rx "a" (literal "-26.99")) = false /\
  senal_baja (onu_con_rx "a" (literal "-27.01")) = true /\
  (forall red,
     e_onus_senal_baja
       (fst (obtener_estadisticas red
               (inventario_de [onu_con_rx "a" (literal "-20");
                               onu_con_rx "b" (literal "-28");
                               onu_con_rx "c" (literal "-30")]))) = 2).
Proof.
  split; [exact estadisticas_senal_baja|].
  split; [intros n z; reflexivity|].
  repeat split; try (vm_compute; reflexivity).
Qed.

Lemma compara_float_Z_menor (f : spec_float) (a b : Z) :
  Py.compara_float_Z f a = Some Eq -> (a < b)%Z ->
  Py.compara_float_Z f b = Some Lt.
Proof.
  intros E Hab.
  destruct f as [s|s| |s m e]; unfold Py.compara_float_Z in *; try discriminate.
  - destruct a; try discriminate. destruct b; try lia. reflexivity.
  - destruct s; discriminate.
  - injection E as E. f_equal.
    destruct e as [|e|e].
    + apply Z.compare_eq_iff in E. apply Z.compare_lt_iff. lia.
    + apply Z.compare_eq_iff in E. apply Z.compare_lt_iff. lia.
    + apply Z.compare_eq_iff in E. apply Z.compare_lt_iff.
      assert (0 < Z.pow_pos 2 e)%Z
        by (rewrite Z.pow_pos_fold; apply Z.pow_pos_nonneg; lia).
      nia.
Qed.

Lemma ausente_es_baja (onu : ONUInfo) :
  lectura_ausente onu = true -> senal_baja onu = true.
Proof.
  unfold lectura_ausente, senal_baja, Py.igual, Py.menor_que.
  destruct (rx_power onu) as [z|f].
  - intros H. apply Z.eqb_eq in H. subst z. reflexivity.
  - destruct (Py.compara_float_Z f (-999)) as [[| |]|] eqn:E; try discriminate.
    intros _. rewrite (compara_float_Z_menor f (-999) (-27) E); [reflexivity | lia].
Qed.

Lemma filter_incl_length {A : Type} (p q : A -> bool) (l : list A) :
  (forall x, p x = true -> q x = true) ->
  List.length (filter p l) <= List.length (filter q l).
Proof.
  intros H. induction l as [|x r IH]; simpl; [lia|].
  destruct (p x) eqn:P.
  - rewrite (H x P). simpl. lia.
  - destruct (q x); simpl; lia.
Qed.

(** ** Reasoning on the state monad *)

Lemma bind_eq {A B : Type} (m : M A) (k : A -> M B) (st : Estado) :
  bind m k st = k (fst (m st)) (snd (m st)).
Proof. unfold bind. destruct (m st). reflexivity. Qed.

Lemma ejecutar_comando_eq (red : Red) (ssh : SSHClient) (comando : string) (st : Estado) :
  ejecutar_comando red ssh comando st =
  (salida red ssh comando, anota (EvExec (ssh_ip ssh) (ssh_cred ssh) comando) st).
Proof. reflexivity. Qed.

(** *** The four writers: the write lands or the table is as before *)

Lemma guardar_olt_eq (red : Red) (o : OLTInfo) (st : Estado) :
  guardar_olt red o st =
  (tt, if red_db red (S (tic st)) then
         con_db (fun d =>
           {| olts := setitem (ip o) (nombre o, modelo o, red_reloj red (tic st)) (olts d);
              onus := onus d; metricas := metricas d; trafico := trafico d |})
           (avanza (avanza st))
       else avanza (avanza st)).
Proof.
  unfold guardar_olt, escribe, ahora, bind. cbn [avanza tic].
  destruct (red_db red (S (tic st))); reflexivity.
Qed.

Lemma guardar_onu_eq (red : Red) (o : ONUInfo) (i : string) (st : Estado) :
  guardar_onu red o i st =
  (tt, if red_db red (tic st) then
         con_db (fun d =>
           {| olts := olts d; onus := setitem (serial o) (i, o) (onus d);
              metricas := metricas d; trafico := trafico d |})
           (avanza st)
       else avanza st).
Proof.
  unfold guardar_onu, escribe, bind. destruct (red_db red (tic st)); reflexivity.
Qed.

Lemma guardar_metrica_eq (red : Red) (i t : string) (v : spec_float) (st : Estado) :
  guardar_metrica red i t v st =
  (tt, if red_db red (S (tic st)) then
         con_db (fun d =>
           {| olts := olts d; onus := onus d;
              metricas := metricas d ++
                [{| m_olt_ip := i; m_tipo_metrica := t;
                    m_valor := v; m_timestamp := red_reloj red (tic st) |}];
              trafico := trafico d |})
           (avanza (avanza st))
       else avanza (avanza st)).
Proof.
  unfold guardar_metrica, escribe, ahora, bind. cbn [avanza tic].
  destruct (red_db red (S (tic st))); reflexivity.
Qed.

Lemma guardar_trafico_eq (red : Red) (i s : string) (a b : Z) (st : Estado) :
  guardar_trafico red i s a b st =
  (tt, if red_db red (tic st) then
         con_db (fun d =>
           {| olts := olts d; onus := onus d; metricas := metricas d;
              trafico := trafico d ++
                [{| t_olt_ip := i; t_onu_serial := s;
                    t_bytes_rx := a; t_bytes_tx := b |}] |})
           (avanza st)
       else avanza st).
Proof.
  unfold guardar_trafico, escribe, bind. destruct (red_db red (tic st)); reflexivity.
Qed.

(** A view that looks neither at the database nor at the count of calls
    is kept by the four writers. *)
Ltac escritura :=
  intros; intros ?st;
  rewrite ?guardar_olt_eq, ?guardar_onu_eq, ?guardar_metrica_eq, ?guardar_trafico_eq;
  cbn [snd]; destruct (red_db _ _); reflexivity.

(** *** Frames: what a computation leaves untouched

    [preserva f m]: running [m] does not change the view [f] of the
    state. *)

Section Marco.

Context {X : Type} (f : Estado -> X).

Lemma preserva_ret {A : Type} (a : A) : preserva f (ret a).
Proof. intros st. reflexivity. Qed.

Lemma preserva_bind {A B : Type} (m : M A) (k : A -> M B) :
  preserva f m -> (forall a, preserva f (k a)) -> preserva f (bind m k).
Proof.
  intros Hm Hk st. rewrite bind_eq, Hk. apply Hm.
Qed.

Variable red : Red.

Hypothesis f_ahora : preserva f (ahora red).
Hypothesis f_randint : forall a b, preserva f (randint red a b).
Hypothesis f_guardar_onu : forall o i, preserva f (guardar_onu red o i).
Hypothesis f_guardar_trafico : forall i s a b, preserva f (guardar_trafico red i s a b).
Hypothesis f_guardar_metrica : forall i t v, preserva f (guardar_metrica red i t v).
Hypothesis f_ejecutar : forall ssh c, preserva f (ejecutar_comando red ssh c).
Hypothesis f_close : forall ssh, preserva f (ssh_close ssh).

Ltac marco :=
  repeat first
    [ apply preserva_ret
    | assumption
    | match goal with
      | H : forall _, preserva f _ |- _ => apply H
      | H : forall _ _, preserva f _ |- _ => apply H
      | H : forall _ _ _, preserva f _ |- _ => apply H
      | H : forall _ _ _ _, preserva f _ |- _ => apply H
      end
    | apply preserva_bind; [|intros]
    | match goal with
      | |- preserva f (match ?x with _ => _ end) => destruct x
      | |- preserva f (let _ := _ in _) => cbv zeta
      end ].

Lemma preserva_extraer_nombre_sistema (s : string) :
  preserva f (extraer_nombre_sistema red s).
Proof. unfold extraer_nombre_sistema. marco. Qed.

Lemma preserva_detalles_desde (ssh : SSHClient) (cs : list string) :
  preserva f (detalles_desde red ssh cs).
Proof. induction cs as [|c r IH]; simpl; marco. Qed.

Lemma preserva_obtener_detalles_onu (ssh : SSHClient) (i o : string) :
  preserva f (obtener_detalles_onu red ssh i o).
Proof. apply preserva_detalles_desde. Qed.

Lemma preserva_onus_desde (ssh : SSHClient) (olt_ip : string)
    (lineas : list string) (onus0 : list ONUInfo) :
  preserva f (onus_desde red ssh olt_ip lineas onus0).
Proof.
  revert onus0. induction lineas as [|l r IH]; intros onus0; simpl.
  - marco.
  - destruct (_ && _); [|apply IH].
    destruct (Py.split l) as [|p0 [|p1 [|p2 [|p3 ps]]]]; try apply IH.
    destruct (campo_interfaz p0 1); [|marco].
    destruct (campo_interfaz p0 2); [|marco].
    apply preserva_bind; [apply preserva_obtener_detalles_onu|].
    intros [[s rx] tx]. marco.
Qed.

Lemma preserva_obtener_informacion_onus (ssh : SSHClient) (olt_ip : string) :
  preserva f (obtener_informacion_onus red ssh olt_ip).
Proof.
  unfold obtener_informacion_onus. marco. apply preserva_onus_desde.
Qed.

Lemma preserva_guardar_si (i t : string) (v : option spec_float) :
  preserva f (guardar_si red i t v).
Proof. unfold guardar_si. marco. Qed.

Lemma preserva_actualizar_informacion_olt (ssh : SSHClient) (o : OLTInfo) :
  preserva f (actualizar_informacion_olt red ssh o).
Proof.
  unfold actualizar_informacion_olt.
  apply preserva_bind; [apply f_ejecutar|]. intros temp_info.
  destruct (extraer_temperatura temp_info); [|marco].
  cbv zeta.
  repeat (apply preserva_bind;
          [first [apply f_ejecutar | apply preserva_guardar_si
                 | apply preserva_obtener_informacion_onus]|intros]).
  marco.
Qed.

End Marco.

(** *** Views of the log of network operations *)

Section Traza.

Context {T : Type} (h : Evento -> list T).

Lemma traza_anota (ev : Evento) (st : Estado) :
  traza h (anota ev st) = traza h st ++ h ev.
Proof.
  unfold traza, anota. simpl. rewrite flat_map_app. simpl.
  rewrite app_nil_r. reflexivity.
Qed.

Lemma traza_con_olts (g : dict OLTInfo -> dict OLTInfo) (st : Estado) :
  traza h (con_olts g st) = traza h st.
Proof. reflexivity. Qed.

Variable red : Red.

Lemma traza_ahora : preserva (traza h) (ahora red).
Proof. intros st. reflexivity. Qed.

Lemma traza_randint (a b : Z) : preserva (traza h) (randint red a b).
Proof. intros st. reflexivity. Qed.

Lemma traza_guardar_onu (o : ONUInfo) (i : string) :
  preserva (traza h) (guardar_onu red o i).
Proof. escritura. Qed.

Lemma traza_guardar_trafico (i s : string) (a b : Z) :
  preserva (traza h) (guardar_trafico red i s a b).
Proof. escritura. Qed.

Lemma traza_guardar_metrica (i t : string) (v : spec_float) :
  preserva (traza h) (guardar_metrica red i t v).
Proof. escritura. Qed.

(** A view that ignores the commands run in a session and its
    closing. *)
Hypothesis h_exec : forall i c cmd, h (EvExec i c cmd) = [].
Hypothesis h_close : forall i c, h (EvClose i c) = [].

Lemma traza_ejecutar (ssh : SSHClient) (c : string) :
  preserva (traza h) (ejecutar_comando red ssh c).
Proof.
  intros st. rewrite ejecutar_comando_eq. simpl snd.
  rewrite traza_anota, h_exec. apply app_nil_r.
Qed.

Lemma traza_close (ssh : SSHClient) : preserva (traza h) (ssh_close ssh).
Proof.
  intros st. unfold ssh_close, modifica. simpl snd.
  rewrite traza_anota, h_close. apply app_nil_r.
Qed.

Lemma traza_extraer_nombre_sistema (s : string) :
  preserva (traza h) (extraer_nombre_sistema red s).
Proof. apply preserva_extraer_nombre_sistema. apply traza_ahora. Qed.

Lemma traza_actualizar_informacion_olt (ssh : SSHClient) (o : OLTInfo) :
  preserva (traza h) (actualizar_informacion_olt red ssh o).
Proof.
  apply preserva_actualizar_informacion_olt; intros;
    first [ apply traza_ahora | apply traza_randint | apply traza_guardar_onu
          | apply traza_guardar_trafico | apply traza_guardar_metrica
          | apply traza_ejecutar ].
Qed.

End Traza.

(** ** Command-shell prober *)

Lemma ssh_connect_eq (red : Red) (ip0 : string) (cred : Credencial) (st : Estado) :
  ssh_connect red ip0 cred st = (red_connect red ip0 cred, anota (EvConnect ip0 cred) st).
Proof. reflexivity. Qed.

Lemma identificar_desde_conexiones (red : Red) (ip0 : string)
    (creds : list Credencial) (st : Estado) :
  conexiones (snd (identificar_desde red ip0 creds st)) =
  conexiones st ++ map (pair ip0) (hasta_primero (reconocida red ip0) creds).
Proof.
  revert st. induction creds as [|cred resto IH]; intros st.
  - simpl. symmetry. apply app_nil_r.
  - cbn [identificar_desde hasta_primero]. unfold reconocida at 1.
    rewrite bind_eq, ssh_connect_eq. cbn [fst snd].
    destruct (red_connect red ip0 cred); cbn [andb].
    + cbv zeta. fold (sesion ip0 cred).
      rewrite bind_eq, ejecutar_comando_eq. cbn [fst snd].
      rewrite bind_eq, ejecutar_comando_eq. cbn [fst snd].
      destruct (es_olt_vsol (salida red (sesion ip0 cred) "show version")).
      * match goal with
        | |- conexiones (snd (?m ?s)) = _ =>
            assert (H : preserva conexiones m)
        end.
        { apply preserva_bind; [apply traza_extraer_nombre_sistema|]. intros n.
          apply preserva_bind;
            [apply traza_actualizar_informacion_olt; reflexivity|]. intros o.
          apply preserva_bind; [apply traza_close; reflexivity|]. intros _.
          apply preserva_ret. }
        rewrite H. unfold conexiones. rewrite !traza_anota. simpl.
        rewrite !app_nil_r. reflexivity.
      * rewrite bind_eq. rewrite IH.
        unfold conexiones, ssh_close, modifica. cbn [fst snd].
        rewrite !traza_anota. simpl. rewrite !app_nil_r, <- app_assoc. reflexivity.
    + rewrite IH. unfold conexiones. rewrite traza_anota. simpl.
      rewrite <- app_assoc. reflexivity.
Qed.

(** C1, as the specification states it, fails: only [cred_B] connects,
    the host is not recognised, and [cred_C] is attempted after the
    successful connection. *)
Lemma C1_contraejemplo :
  red_connect red_otro_equipo "10.0.0.7" cred_A = false /\
  red_connect red_otro_equipo "10.0.0.7" cred_B = true /\
  red_connect red_otro_equipo "10.0.0.7" cred_C = false /\
  conexiones (snd (identificar_olt_vsol red_otro_equipo [cred_A; cred_B; cred_C]
                     "10.0.0.7" estado_inicial)) =
  [("10.0.0.7", cred_A); ("10.0.0.7", cred_B); ("10.0.0.7", cred_C)].
Proof. repeat split; vm_compute; reflexivity. Qed.

Lemma turno_conecta (red : Red) (ip0 : string) (cred : Credencial) :
  red_connect red ip0 cred = true ->
  turno red ip0 cred = [Conecta ip0 cred; Cierra ip0 cred].
Proof. intros H. unfold turno. rewrite H. reflexivity. Qed.

Lemma turno_falla (red : Red) (ip0 : string) (cred : Credencial) :
  red_connect red ip0 cred = false -> turno red ip0 cred = [Conecta ip0 cred].
Proof. intros H. unfold turno. rewrite H. reflexivity. Qed.

Lemma identificar_desde_sesiones (red : Red) (ip0 : string)
    (creds : list Credencial) (st : Estado) :
  sesiones (snd (identificar_desde red ip0 creds st)) =
  sesiones st ++ flat_map (turno red ip0) (hasta_primero (reconocida red ip0) creds).
Proof.
  revert st. induction creds as [|cred resto IH]; intros st.
  - simpl. symmetry. apply app_nil_r.
  - cbn [identificar_desde hasta_primero]. unfold reconocida at 1.
    rewrite bind_eq, ssh_connect_eq. cbn [fst snd].
    destruct (red_connect red ip0 cred) eqn:Hc; cbn [andb].
    + cbv zeta. fold (sesion ip0 cred).
      rewrite bind_eq, ejecutar_comando_eq. cbn [fst snd].
      rewrite bind_eq, ejecutar_comando_eq. cbn [fst snd].
      destruct (es_olt_vsol (salida red (sesion ip0 cred) "show version")).
      * rewrite !bind_eq. cbn [ret snd]. unfold ssh_close at 1, modifica at 1.
        cbn [snd sesion ssh_ip ssh_cred]. unfold sesiones.
        rewrite traza_anota.
        rewrite (traza_actualizar_informacion_olt ev_sesion red (fun _ _ _ => eq_refl)).
        rewrite (traza_extraer_nombre_sistema ev_sesion red), !traza_anota.
        cbn [flat_map ev_sesion sesion ssh_ip ssh_cred]. rewrite (turno_conecta _ _ _ Hc).
        rewrite !app_nil_r, <- !app_assoc. reflexivity.
      * rewrite bind_eq. rewrite IH.
        unfold sesiones, ssh_close, modifica. cbn [fst snd sesion ssh_ip ssh_cred].
        rewrite !traza_anota.
        cbn [flat_map ev_sesion]. rewrite (turno_conecta _ _ _ Hc).
        rewrite !app_nil_r, <- !app_assoc. reflexivity.
    + rewrite IH. unfold sesiones. rewrite traza_anota.
      cbn [flat_map ev_sesion]. rewrite (turno_falla _ _ _ Hc), <- !app_assoc. reflexivity.
Qed.

(** C1, amended. The shell prober attempts the credentials in the
    configured order and stops at the first one whose connection
    succeeds and whose version output carries a marker; a connection
    that succeeds on a host that is not recognised is closed and the next
    credential is attempted, and the session of the recognised device is
    closed before the prober returns.  With [A; B; C], when [A] does not
    connect and [B] connects to a recognised device, [A] then [B] are
    attempted, the session of [B] is closed and [C] is not attempted. *)
Theorem C1_rotacion_credenciales :
  forall (red : Red) (ip0 : string),
    (forall creds st,
       conexiones (snd (identificar_olt_vsol red creds ip0 st)) =
       conexiones st ++ map (pair ip0) (hasta_primero (reconocida red ip0) creds)) /\
    (forall creds st,
       sesiones (snd (identificar_olt_vsol red creds ip0 st)) =
       sesiones st ++
       flat_map (turno red ip0) (hasta_primero (reconocida red ip0) creds)) /\
    (forall A creds st,
       red_connect red ip0 A = true ->
       reconocida red ip0 A = false ->
       sesiones (snd (identificar_olt_vsol red (A :: creds) ip0 st)) =
       sesiones st ++ [Conecta ip0 A; Cierra ip0 A] ++
       flat_map (turno red ip0) (hasta_primero (reconocida red ip0) creds)) /\
    (forall A B C st,
       red_connect red ip0 A = false ->
       reconocida red ip0 B = true ->
       conexiones (snd (identificar_olt_vsol red [A; B; C] ip0 st)) =
       conexiones st ++ [(ip0, A); (ip0, B)] /\
       sesiones (snd (identificar_olt_vsol red [A; B; C] ip0 st)) =
       sesiones st ++ [Conecta ip0 A; Conecta ip0 B; Cierra ip0 B]).
Proof.
  intros red ip0. split; [|split; [|split]].
  - intros creds st. apply identificar_desde_conexiones.
  - intros creds st. apply identificar_desde_sesiones.
  - intros A creds st HA HB.
    unfold identificar_olt_vsol. rewrite identificar_desde_sesiones.
    cbn [hasta_primero]. rewrite HB. cbn [flat_map].
    rewrite (turno_conecta _ _ _ HA). reflexivity.
  - intros A B C st HA HB.
    unfold identificar_olt_vsol.
    rewrite identificar_desde_conexiones, identificar_desde_sesiones.
    assert (HcB : red_connect red ip0 B = true).
    { unfold reconocida in HB. apply andb_prop in HB. apply HB. }
    assert (HrA : reconocida red ip0 A = false).
    { unfold reconocida. rewrite HA. reflexivity. }
    cbn [hasta_primero]. rewrite HrA, HB.
    cbn [flat_map map]. rewrite (turno_falla _ _ _ HA), (turno_conecta _ _ _ HcB).
    split; reflexivity.
Qed.

Lemma C1_rotacion_credenciales_testigo :
  (conexiones (snd (identificar_olt_vsol red_olt [cred_A; cred_B; cred_C]
                      "10.0.0.7" estado_inicial)) =
   conexiones estado_inicial ++ [("10.0.0.7", cred_A); ("10.0.0.7", cred_B)] /\
   sesiones (snd (identificar_olt_vsol red_olt [cred_A; cred_B; cred_C]
                    "10.0.0.7" estado_inicial)) =
   sesiones estado_inicial ++
   [Conecta "10.0.0.7" cred_A; Conecta "10.0.0.7" cred_B; Cierra "10.0.0.7" cred_B]) /\
  sesiones (snd (identificar_olt_vsol red_otro_equipo [cred_B; cred_C]
                   "10.0.0.7" estado_inicial)) =
  sesiones estado_inicial ++
  [Conecta "10.0.0.7" cred_B; Cierra "10.0.0.7" cred_B] ++
  flat_map (turno red_otro_equipo "10.0.0.7")
           (hasta_primero (reconocida red_otro_equipo "10.0.0.7") [cred_C]).
Proof.
  split.
  - apply (proj2 (proj2 (proj2 (C1_rotacion_credenciales red_olt "10.0.0.7")))
             cred_A cred_B cred_C estado_inicial).
    + reflexivity.
    + vm_compute. reflexivity.
  - apply (proj1 (proj2 (proj2 (C1_rotacion_credenciales red_otro_equipo "10.0.0.7")))
             cred_B [cred_C] estado_inicial).
    + reflexivity.
    + vm_compute. reflexivity.
Defined.

Lemma bind_par_snd {A B C : Type} (m : M (A * B)) (g : A -> B -> C) (st : Estado) :
  snd (bind m (fun x => match x with (r, n) => ret (g r n) end) st) = snd (m st).
Proof. rewrite bind_eq. destruct (fst (m st)). reflexivity. Qed.

Lemma bind_par_fst {A B C : Type} (m : M (A * B)) (g : A -> B -> C) (st : Estado) :
  fst (bind m (fun x => match x with (r, n) => ret (g r n) end) st) =
  g (fst (fst (m st))) (snd (fst (m st))).
Proof. rewrite bind_eq. destruct (fst (m st)). reflexivity. Qed.

Lemma actualizar_olt_snmp_eq (red : Red) (o : OLTInfo) (c : string) (st : Estado) :
  snmp_community o = Some c ->
  actualizar_olt_snmp red o st = (true, tras_snmp (ip o) c st).
Proof. intros H. unfold actualizar_olt_snmp. rewrite H. reflexivity. Qed.

Lemma conexiones_tras_snmp (i c : string) (st : Estado) :
  conexiones (tras_snmp i c st) = conexiones st.
Proof.
  unfold conexiones, tras_snmp. rewrite !traza_anota. simpl.
  rewrite !app_nil_r. reflexivity.
Qed.

Lemma consultas_tras_snmp (i c : string) (st : Estado) :
  consultas (tras_snmp i c st) = consultas st ++ repeat (i, c) 5.
Proof.
  unfold consultas, tras_snmp. rewrite !traza_anota. simpl.
  rewrite <- !app_assoc. reflexivity.
Qed.

Lemma refresco_snmp_community (red : Red) (o : OLTInfo) :
  refresco_snmp red o = match snmp_community o with Some _ => true | None => false end.
Proof.
  unfold refresco_snmp, actualizar_olt_snmp.
  destruct (snmp_community o); reflexivity.
Qed.

Lemma actualizar_desde_conexiones (red : Red) (creds : list Credencial)
    (items : dict OLTInfo) (n : nat) (st : Estado) :
  conexiones (snd (actualizar_desde red creds items n st)) =
  conexiones st ++ flat_map (conexiones_refresco red creds) items.
Proof.
  revert n st. induction items as [|[k o] resto IH]; intros n st.
  - simpl. symmetry. apply app_nil_r.
  - cbn [actualizar_desde flat_map]. unfold conexiones_refresco at 1. cbn [fst snd].
    rewrite refresco_snmp_community.
    destruct (snmp_community o) as [c|] eqn:Hc.
    + rewrite bind_eq, (actualizar_olt_snmp_eq red o c st Hc). cbn [fst snd].
      rewrite bind_par_snd, IH, conexiones_tras_snmp. reflexivity.
    + rewrite bind_eq. cbn [ret fst snd].
      destruct creds as [|cred creds'].
      * rewrite bind_par_snd, IH. reflexivity.
      * cbn [firstn map]. rewrite bind_eq, ssh_connect_eq. cbn [fst snd].
        destruct (red_connect red k cred).
        -- cbv zeta. rewrite bind_eq. rewrite bind_eq.
           unfold ssh_close at 1, modifica at 1. cbn [fst snd].
           rewrite bind_par_snd, IH.
           unfold conexiones. rewrite traza_anota.
           rewrite (traza_actualizar_informacion_olt ev_conexion red
                      (fun _ _ _ => eq_refl)).
           rewrite traza_anota. simpl. rewrite !app_nil_r, <- app_assoc. reflexivity.
        -- rewrite bind_par_snd, IH. unfold conexiones. rewrite traza_anota.
           simpl. rewrite <- app_assoc. reflexivity.
Qed.

Lemma consultas_anota_conexion (i : string) (c : Credencial) (st : Estado) :
  consultas (anota (EvConnect i c) st) = consultas st.
Proof. unfold consultas. rewrite traza_anota. apply app_nil_r. Qed.

Lemma actualizar_desde_consultas (red : Red) (creds : list Credencial)
    (items : dict OLTInfo) (n : nat) (st : Estado) :
  consultas (snd (actualizar_desde red creds items n st)) =
  consultas st ++ flat_map consultas_refresco items.
Proof.
  revert n st. induction items as [|[k o] resto IH]; intros n st.
  - simpl. symmetry. apply app_nil_r.
  - cbn [actualizar_desde flat_map]. unfold consultas_refresco at 1. cbn [fst snd].
    destruct (snmp_community o) as [c|] eqn:Hc.
    + rewrite bind_eq, (actualizar_olt_snmp_eq red o c st Hc). cbn [fst snd].
      rewrite bind_par_snd, IH, consultas_tras_snmp, <- app_assoc. reflexivity.
    + rewrite bind_eq. cbn [ret fst snd app].
      destruct creds as [|cred creds'].
      * rewrite bind_par_snd, IH. reflexivity.
      * rewrite bind_eq, ssh_connect_eq. cbn [fst snd].
        destruct (red_connect red k cred).
        -- cbv zeta. rewrite bind_eq. rewrite bind_eq.
           unfold ssh_close at 1, modifica at 1. cbn [fst snd].
           rewrite bind_par_snd, IH.
           unfold consultas at 1. rewrite traza_anota.
           rewrite (traza_actualizar_informacion_olt ev_snmp red
                      (fun _ _ _ => eq_refl)).
           fold consultas. rewrite consultas_anota_conexion.
           simpl. rewrite app_nil_r. reflexivity.
        -- rewrite bind_par_snd, IH, consultas_anota_conexion. reflexivity.
Qed.

Lemma actualizar_todas_olts_eq (red : Red) (creds : list Credencial) (st : Estado) :
  actualizar_todas_olts red creds st =
  (snd (fst (actualizar_desde red creds (olts_detectadas st) 0 st)),
   con_olts (fun _ => fst (fst (actualizar_desde red creds (olts_detectadas st) 0 st)))
            (snd (actualizar_desde red creds (olts_detectadas st) 0 st))).
Proof.
  unfold actualizar_todas_olts.
  destruct (actualizar_desde red creds (olts_detectadas st) 0 st) as [[items n] st'].
  reflexivity.
Qed.

(** C4, as the specification states it, fails: the device was found with
    [cred_B], its record keeps neither that credential nor its index,
    and the refresh connects with [cred_A], the first of the list. *)
Lemma C4_contraejemplo :
  conexiones tras_descubrir = [("10.0.0.7", cred_A); ("10.0.0.7", cred_B)] /\
  claves (olts_detectadas tras_descubrir) = ["10.0.0.7"] /\
  conexiones (snd (actualizar_todas_olts red_olt [cred_A; cred_B] tras_descubrir)) =
  conexiones tras_descubrir ++ [("10.0.0.7", cred_A)].
Proof. repeat split; vm_compute; reflexivity. Qed.

(** C4, amended. The refresh pass re-queries a device found by SNMP with
    the community string kept on its record (five queries to the address
    of the record), and connects over the shell, with the first
    configured credential, for the devices whose SNMP re-query did not
    report success; a record without community, that of a device found
    by the shell prober or loaded from the database, keeps no credential
    and is always refreshed that way. *)
Theorem C4_refresco_protocolo :
  forall (red : Red) (creds : list Credencial) (st : Estado),
    consultas (snd (actualizar_todas_olts red creds st)) =
    consultas st ++ flat_map consultas_refresco (olts_detectadas st) /\
    conexiones (snd (actualizar_todas_olts red creds st)) =
    conexiones st ++ flat_map (conexiones_refresco red creds) (olts_detectadas st) /\
    (forall o, snmp_community o = None -> refresco_snmp red o = false).
Proof.
  intros red creds st. rewrite actualizar_todas_olts_eq. cbn [snd].
  split; [|split].
  - unfold consultas. rewrite traza_con_olts. apply actualizar_desde_consultas.
  - unfold conexiones. rewrite traza_con_olts. apply actualizar_desde_conexiones.
  - intros o H. rewrite refresco_snmp_community, H. reflexivity.
Qed.

Lemma actualizar_desde_items (red : Red) (creds : list Credencial)
    (items : dict OLTInfo) (n : nat) (st : Estado) :
  Forall2 (intacto red) items (fst (fst (actualizar_desde red creds items n st))).
Proof.
  revert n st. induction items as [|[k o] resto IH]; intros n st.
  - constructor.
  - cbn [actualizar_desde].
    assert (Hmismo : intacto red (k, o) (k, o)) by (split; [reflexivity|intros _; reflexivity]).
    destruct (snmp_community o) as [c|] eqn:Hc.
    + rewrite bind_eq, (actualizar_olt_snmp_eq red o c st Hc). cbn [fst snd].
      rewrite bind_par_fst. cbn [fst]. constructor; [exact Hmismo|apply IH].
    + rewrite bind_eq. cbn [ret fst snd].
      destruct creds as [|cred creds'].
      * rewrite bind_par_fst. cbn [fst]. constructor; [exact Hmismo|apply IH].
      * rewrite bind_eq, ssh_connect_eq. cbn [fst snd].
        destruct (red_connect red k cred) eqn:Hk.
        -- cbv zeta. rewrite bind_eq. rewrite bind_eq. rewrite bind_par_fst. cbn [fst].
           constructor; [|apply IH].
           split; [reflexivity|]. intros (_ & _ & H). cbn [fst] in H.
           rewrite H in Hk. discriminate.
        -- rewrite bind_par_fst. cbn [fst]. constructor; [exact Hmismo|apply IH].
Qed.

Lemma Forall2_claves (red : Red) (d d' : dict OLTInfo) :
  Forall2 (intacto red) d d' -> claves d' = claves d.
Proof.
  induction 1 as [|x y l l' [H _] _ IH]; simpl; [reflexivity|].
  rewrite H, IH. reflexivity.
Qed.

Lemma Forall2_nth_intacto (red : Red) (d d' : dict OLTInfo) :
  Forall2 (intacto red) d d' ->
  forall n k o, nth_error d n = Some (k, o) -> sin_respuesta red k ->
                nth_error d' n = Some (k, o).
Proof.
  induction 1 as [|x y l l' [H1 H2] _ IH]; intros n k o Hn Hs.
  - destruct n; discriminate.
  - destruct n as [|n]; simpl in *.
    + injection Hn as ->. cbn [fst snd] in *. destruct y as [k' o']. cbn [fst snd] in *.
      subst k'. rewrite (H2 Hs). reflexivity.
    + eapply IH; eassumption.
Qed.

(** C8. A refresh pass never removes a device: the inventory has the same
    addresses, in the same order, after the pass; and the record of a
    device that answered nothing is, at its place, the record of before
    the pass. *)
Theorem C8_refresco_conserva :
  forall (red : Red) (creds : list Credencial) (st : Estado),
    claves (olts_detectadas (snd (actualizar_todas_olts red creds st))) =
    claves (olts_detectadas st) /\
    (forall n k o,
       nth_error (olts_detectadas st) n = Some (k, o) ->
       sin_respuesta red k ->
       nth_error (olts_detectadas (snd (actualizar_todas_olts red creds st))) n =
       Some (k, o)).
Proof.
  intros red creds st. rewrite actualizar_todas_olts_eq. cbn [snd con_olts olts_detectadas].
  pose proof (actualizar_desde_items red creds (olts_detectadas st) 0 st) as H.
  split.
  - apply (Forall2_claves red). exact H.
  - apply (Forall2_nth_intacto red). exact H.
Qed.

Lemma C8_refresco_conserva_testigo :
  nth_error
    (olts_detectadas
       (snd (actualizar_todas_olts red_muda credenciales_por_defecto
               (inventario_de [onu_con_rx "a" (Py.PyInt (-20))])))) 0 =
  nth_error (olts_detectadas (inventario_de [onu_con_rx "a" (Py.PyInt (-20))])) 0.
Proof.
  apply (proj2 (C8_refresco_conserva red_muda credenciales_por_defecto
                  (inventario_de [onu_con_rx "a" (Py.PyInt (-20))])) 0).
  - reflexivity.
  - repeat split; intros; reflexivity.
Defined.

(** ** SNMP prober *)

Lemma lower_upper_char (a : ascii) : Py.lower_char (Py.upper_char a) = Py.lower_char a.
Proof. destruct a as [[] [] [] [] [] [] [] []]; reflexivity. Qed.

Lemma upper_lower_char (a : ascii) : Py.upper_char (Py.lower_char a) = Py.upper_char a.
Proof. destruct a as [[] [] [] [] [] [] [] []]; reflexivity. Qed.

Lemma eqb_upper_lower_char (a b : ascii) :
  Ascii.eqb (Py.upper_char a) (Py.upper_char b) =
  Ascii.eqb (Py.lower_char a) (Py.lower_char b).
Proof.
  destruct (Ascii.eqb_spec (Py.upper_char a) (Py.upper_char b)) as [H|H];
    destruct (Ascii.eqb_spec (Py.lower_char a) (Py.lower_char b)) as [H'|H'];
    try reflexivity; exfalso.
  - apply H'. rewrite <- (lower_upper_char a), <- (lower_upper_char b), H. reflexivity.
  - apply H. rewrite <- (upper_lower_char a), <- (upper_lower_char b), H'. reflexivity.
Qed.

Lemma startswith_map (f g : ascii -> ascii) :
  (forall a b, Ascii.eqb (f a) (f b) = Ascii.eqb (g a) (g b)) ->
  forall p s, Py.startswith (Py.map_str f p) (Py.map_str f s) =
              Py.startswith (Py.map_str g p) (Py.map_str g s).
Proof.
  intros H p. induction p as [|a p IH]; intros s; [reflexivity|].
  destruct s as [|b s]; [reflexivity|].
  simpl. rewrite H. f_equal. apply IH.
Qed.

Lemma contiene_map (f g : ascii -> ascii) :
  (forall a b, Ascii.eqb (f a) (f b) = Ascii.eqb (g a) (g b)) ->
  forall p s, Py.contiene (Py.map_str f p) (Py.map_str f s) =
              Py.contiene (Py.map_str g p) (Py.map_str g s).
Proof.
  intros H p s. induction s as [|b s IH].
  - simpl. rewrite !orb_false_r. apply (startswith_map f g H p "").
  - simpl. rewrite <- IH. f_equal. apply (startswith_map f g H p (String b s)).
Qed.

Lemma contiene_upper_lower (p s : string) :
  Py.contiene (Py.upper p) (Py.upper s) = Py.contiene (Py.lower p) (Py.lower s).
Proof. apply contiene_map. exact eqb_upper_lower_char. Qed.

Lemma marca_snmp_sin_distinguir (d : string) :
  marca_snmp d = existsb (fun m => sin_distinguir m d) marcadores_snmp.
Proof.
  unfold marca_snmp, marcadores_snmp, sin_distinguir. cbn [existsb].
  rewrite <- !contiene_upper_lower, orb_false_r, orb_assoc. reflexivity.
Qed.

Lemma marca_snmp_verdad (d : string) :
  marca_snmp d = true -> Py.verdad_str d = true.
Proof. destruct d; [discriminate|reflexivity]. Qed.

Lemma snmp_get_eq (red : Red) (i oid c : string) (st : Estado) :
  snmp_get red i oid c st = (red_snmp_get red i oid c, anota (EvSnmpGet i oid c) st).
Proof. reflexivity. Qed.

Lemma probar_snmp_desde_fst (red : Red) (ip0 : string) (cs : list string) (st : Estado) :
  fst (probar_snmp_desde red ip0 cs st) =
  option_map (candidato red ip0) (find (acepta red ip0) cs).
Proof.
  revert st. induction cs as [|c resto IH]; intros st; [reflexivity|].
  cbn [probar_snmp_desde find]. rewrite bind_eq, snmp_get_eq. cbn [fst snd].
  unfold acepta at 1, candidato.
  destruct (red_snmp_get red ip0 "1.3.6.1.2.1.1.1.0" c) as [d|] eqn:Hd; [|apply IH].
  destruct (marca_snmp d) eqn:Hm.
  - rewrite (marca_snmp_verdad d Hm). cbn [andb].
    rewrite bind_eq, snmp_get_eq. cbn [fst snd ret option_map]. rewrite Hd. reflexivity.
  - rewrite andb_false_r. apply IH.
Qed.

(** C5. The SNMP prober returns the candidate of the first community of
    the list whose system-description query succeeds with a description
    that carries one of the markers VSOL, OLT, GPON, the case of the
    letters set aside; it returns no match, and never fails, when no
    community is accepted.  The description "vsol gpon olt v2" carries a
    marker, "generic router" does not. *)
Theorem C5_prober_snmp :
  (forall red comms ip0 st,
     fst (probar_snmp_olt red comms ip0 st) =
     option_map (candidato red ip0) (find (acepta red ip0) comms)) /\
  (forall d, marca_snmp d = existsb (fun m => sin_distinguir m d) marcadores_snmp) /\
  marca_snmp "vsol gpon olt v2" = true /\
  marca_snmp "generic router" = false.
Proof.
  split; [|split; [|split]].
  - intros red comms ip0 st. apply probar_snmp_desde_fst.
  - exact marca_snmp_sin_distinguir.
  - vm_compute. reflexivity.
  - vm_compute. reflexivity.
Qed.

(** ** Units without optical reading *)

Lemma detalles_desde_sin_respuesta (red : Red) (ssh : SSHClient)
    (cmds : list string) (st : Estado) :
  (forall cmd, In cmd cmds -> respuesta_valida (salida red ssh cmd) = false) ->
  fst (detalles_desde red ssh cmds st) = sin_lectura.
Proof.
  revert st. induction cmds as [|cmd resto IH]; intros st H; [reflexivity|].
  cbn [detalles_desde]. rewrite bind_eq, ejecutar_comando_eq. cbn [fst snd].
  fold (respuesta_valida (salida red ssh cmd)).
  rewrite (H cmd (or_introl eq_refl)). apply IH.
  intros c Hc. apply H. right. exact Hc.
Qed.

(** C9. A unit whose optical reading is unavailable carries the sentinel
    [-999] as RX power, and the statistics count it as a low-signal unit:
    the low-signal count is at least the number of units that carry the
    sentinel.  So a device whose only unit gave no reading reports one
    low-signal unit. *)
Theorem C9_centinela_cuenta :
  (forall red ssh i o st,
     (forall cmd, In cmd (comandos_detalle i o) ->
        respuesta_valida (salida red ssh cmd) = false) ->
     fst (obtener_detalles_onu red ssh i o st) = sin_lectura) /\
  (forall onu, rx_power onu = Py.PyInt (-999) -> senal_baja onu = true) /\
  (forall red st,
     List.length (filter lectura_ausente (todas_las_onus st)) <=
     e_onus_senal_baja (fst (obtener_estadisticas red st))) /\
  (let st := snd (verificar_ip red_sin_lectura [cred_B] ["public"] "10.0.0.7"
                    estado_inicial) in
   map rx_power (todas_las_onus st) = [Py.PyInt (-999)] /\
   e_onus_senal_baja (fst (obtener_estadisticas red_sin_lectura st)) = 1).
Proof.
  split; [|split; [|split]].
  - intros red ssh i o st H. apply detalles_desde_sin_respuesta. exact H.
  - intros onu H. unfold senal_baja. rewrite H. reflexivity.
  - intros red st. rewrite estadisticas_senal_baja.
    apply filter_incl_length. exact ausente_es_baja.
  - split; vm_compute; reflexivity.
Qed.

Lemma C9_centinela_cuenta_testigo :
  fst (obtener_detalles_onu red_sin_lectura (sesion "10.0.0.7" cred_B)
         "gpon-onu_1/1/1" "1" estado_inicial) = sin_lectura /\
  senal_baja (onu_con_rx "a" (Py.PyInt (-999))) = true.
Proof.
  destruct C9_centinela_cuenta as (H1 & H2 & _).
  split.
  - apply H1. intros cmd [<-|[<-|[<-|[]]]]; reflexivity.
  - apply H2. reflexivity.
Defined.

(** ** Metric samples *)









Lemma actualizar_informacion_olt_fst (red : Red) (ssh : SSHClient)
    (o : OLTInfo) (st : Estado) :
  exists st',
    fst (actualizar_informacion_olt red ssh o st) =
    match extraer_temperatura (salida red ssh "show system temperature") with
    | Lanza _ => o
    | Retorna t =>
        con_onus (fst (obtener_informacion_onus red ssh (ip o) st'))
          (con_consumos (extraer_porcentaje (salida red ssh "show cpu usage"))
                        (extraer_porcentaje (salida red ssh "show memory usage"))
                        (con_temperatura t o))
    end.
Proof.
  unfold actualizar_informacion_olt.
  rewrite bind_eq, ejecutar_comando_eq. cbn [fst snd].
  destruct (extraer_temperatura (salida red ssh "show system temperature")) as [t|e].
  - cbv zeta.
    rewrite bind_eq. rewrite bind_eq, ejecutar_comando_eq. cbn [fst snd].
    rewrite bind_eq, ejecutar_comando_eq. cbn [fst snd].
    rewrite bind_eq. rewrite bind_eq. rewrite bind_eq. cbn [ret fst].
    eexists. reflexivity.
  - exists st. reflexivity.
Qed.








(** ** The inventory *)

(** *** Dictionaries *)

Lemma get_setitem {V : Type} (k k' : string) (v : V) (d : dict V) :
  get (setitem k v d) k' = if String.eqb k' k then Some v else get d k'.
Proof.
  induction d as [|[k0 v0] r IH]; simpl.
  - destruct (String.eqb k' k); reflexivity.
  - destruct (String.eqb_spec k k0) as [->|Hk]; simpl.
    + destruct (String.eqb k' k0); reflexivity.
    + rewrite IH. destruct (String.eqb_spec k' k0) as [->|Hk'].
      * destruct (String.eqb_spec k0 k) as [E|_]; [congruence|reflexivity].
      * reflexivity.
Qed.


Lemma claves_setitem_in {V : Type} (k : string) (v : V) (d : dict V) :
  In k (claves d) -> claves (setitem k v d) = claves d.
Proof.
  induction d as [|[k0 v0] r IH]; simpl; [intros []|].
  destruct (String.eqb_spec k k0) as [->|Hk]; [reflexivity|].
  intros [H|H]; [congruence|]. simpl. rewrite (IH H). reflexivity.
Qed.

Lemma claves_setitem_nuevo {V : Type} (k : string) (v : V) (d : dict V) :
  ~ In k (claves d) -> claves (setitem k v d) = claves d ++ [k].
Proof.
  induction d as [|[k0 v0] r IH]; simpl; [reflexivity|].
  intros H. destruct (String.eqb_spec k k0) as [->|Hk]; [tauto|].
  simpl. rewrite IH; [reflexivity|tauto].
Qed.

Lemma NoDup_setitem {V : Type} (k : string) (v : V) (d : dict V) :
  NoDup (claves d) -> NoDup (claves (setitem k v d)).
Proof.
  intros H. destruct (in_dec string_dec k (claves d)) as [Hin|Hout].
  - rewrite claves_setitem_in; assumption.
  - rewrite claves_setitem_nuevo by assumption.
    apply NoDup_app; [exact H | repeat constructor; intros [] |].
    intros x Hx [<-|[]]. contradiction.
Qed.


(** *** What the operations do to the inventory *)

Lemma olts_actualizar_informacion_olt (red : Red) (ssh : SSHClient) (o : OLTInfo) :
  preserva olts_detectadas (actualizar_informacion_olt red ssh o).
Proof.
  apply preserva_actualizar_informacion_olt;
    first [escritura | intros; intros st; reflexivity].
Qed.

Lemma olts_guardar_olt (red : Red) (o : OLTInfo) :
  preserva olts_detectadas (guardar_olt red o).
Proof. escritura. Qed.

Lemma olts_probar_snmp_desde (red : Red) (ip0 : string) (cs : list string) :
  preserva olts_detectadas (probar_snmp_desde red ip0 cs).
Proof.
  induction cs as [|c r IH]; [intros st; reflexivity|].
  cbn [probar_snmp_desde].
  apply preserva_bind; [intros st; reflexivity|]. intros [d|]; [|exact IH].
  destruct (_ && _); [|exact IH].
  apply preserva_bind; [intros st; reflexivity|]. intros n st. reflexivity.
Qed.

Lemma olts_identificar_desde (red : Red) (ip0 : string) (creds : list Credencial) :
  preserva olts_detectadas (identificar_desde red ip0 creds).
Proof.
  induction creds as [|c r IH]; [intros st; reflexivity|].
  cbn [identificar_desde].
  apply preserva_bind; [intros st; reflexivity|]. intros [|]; [|exact IH].
  cbv zeta.
  apply preserva_bind; [intros st; reflexivity|]. intros v.
  apply preserva_bind; [intros st; reflexivity|]. intros s.
  destruct (es_olt_vsol v).
  - apply preserva_bind.
    { apply preserva_extraer_nombre_sistema. intros st. reflexivity. }
    intros n. apply preserva_bind; [apply olts_actualizar_informacion_olt|].
    intros o. apply preserva_bind; intros; intros st; reflexivity.
  - apply preserva_bind; [intros st; reflexivity|]. intros _. exact IH.
Qed.

Lemma verificar_ip_olts (red : Red) (creds : list Credencial) (comms : list string)
    (ip0 : string) (st : Estado) :
  olts_detectadas (snd (verificar_ip red creds comms ip0 st)) =
  match fst (hallar red creds comms ip0 st) with
  | Some o => setitem ip0 o (olts_detectadas st)
  | None => olts_detectadas st
  end.
Proof.
  unfold verificar_ip, hallar. rewrite !bind_eq.
  pose proof (olts_probar_snmp_desde red ip0 comms st) as Hs.
  unfold probar_snmp_olt.
  destruct (fst (probar_snmp_desde red ip0 comms st)) as [info|].
  - rewrite bind_eq, olts_guardar_olt. cbn. rewrite Hs. reflexivity.
  - rewrite !bind_eq. cbn [puerto_abierto bind modifica ret fst snd].
    destruct (red_puerto red ip0 22).
    + rewrite bind_eq. unfold identificar_olt_vsol.
      match goal with
      | |- context [identificar_desde red ip0 creds ?s] =>
          pose proof (olts_identificar_desde red ip0 creds s) as Hi;
          destruct (identificar_desde red ip0 creds s) as [[o|] s'] eqn:E
      end; cbn [fst snd] in *.
      * rewrite bind_eq, olts_guardar_olt. cbn. rewrite Hi. cbn. rewrite Hs. reflexivity.
      * cbn. rewrite Hi. cbn. rewrite Hs. reflexivity.
    + cbn. rewrite Hs. reflexivity.
Qed.

(** *** Unit counts do not depend on the clock

    The counts kept for a device: [total_onus], the number of unit
    records and the counts by port. *)







(** *** Scan passes *)

Section Pasos.

Context {R : Type} (h : string -> option R).





End Pasos.



Lemma escanear_direcciones_app (red : Red) (creds : list Credencial)
    (comms : list string) (l1 l2 : list string) (st : Estado) :
  snd (escanear_direcciones red creds comms (l1 ++ l2) st) =
  snd (escanear_direcciones red creds comms l2
         (snd (escanear_direcciones red creds comms l1 st))).
Proof.
  revert st. induction l1 as [|x r IH]; intros st; [reflexivity|].
  cbn [escanear_direcciones app]. rewrite !bind_eq. apply IH.
Qed.

Lemma escanear_rangos_direcciones (red : Red) (creds : list Credencial)
    (comms : list string) (rangos : list string) (st : Estado) :
  snd (escanear_rangos red creds comms rangos st) =
  snd (escanear_direcciones red creds comms (direcciones rangos) st).
Proof.
  revert st. induction rangos as [|x r IH]; intros st; [reflexivity|].
  cbn [escanear_rangos direcciones flat_map].
  rewrite bind_eq, escanear_direcciones_app, IH. reflexivity.
Qed.

Lemma escanear_red_empresarial_eq (red : Red) (creds : list Credencial)
    (comms : list string) (rangos : list string) (st : Estado) :
  escanear_red_empresarial red creds comms rangos st =
  (List.length (vista (snd (escanear_direcciones red creds comms (direcciones rangos) st))),
   snd (escanear_direcciones red creds comms (direcciones rangos) st)).
Proof.
  unfold escanear_red_empresarial. rewrite bind_eq, escanear_rangos_direcciones.
  unfold vista. rewrite length_map. reflexivity.
Qed.


(** *** The states of the monitor *)

Lemma NoDup_cargar (filas : list (string * string * string)) (st : Estado) :
  NoDup (claves (olts_detectadas st)) ->
  NoDup (claves (olts_detectadas (snd (cargar_olts_existentes filas st)))).
Proof.
  revert st. induction filas as [|[[i n] m] r IH]; intros st H; [exact H|].
  cbn [cargar_olts_existentes]. rewrite bind_eq. apply IH.
  cbn. apply NoDup_setitem. exact H.
Qed.

Lemma NoDup_verificar_ip (red : Red) (creds : list Credencial) (comms : list string)
    (ip0 : string) (st : Estado) :
  NoDup (claves (olts_detectadas st)) ->
  NoDup (claves (olts_detectadas (snd (verificar_ip red creds comms ip0 st)))).
Proof.
  intros H. rewrite verificar_ip_olts.
  destruct (fst (hallar red creds comms ip0 st)); [apply NoDup_setitem|]; exact H.
Qed.

Lemma alcanzable_NoDup (red : Red) (creds : list Credencial) (comms : list string)
    (st : Estado) :
  alcanzable red creds comms st -> NoDup (claves (olts_detectadas st)).
Proof.
  induction 1 as [st H|st filas _ IH|st ip0 _ IH|st _ IH].
  - rewrite H. constructor.
  - apply NoDup_cargar. exact IH.
  - apply NoDup_verificar_ip. exact IH.
  - rewrite actualizar_todas_olts_eq. cbn [snd con_olts olts_detectadas].
    rewrite (Forall2_claves red _ _ (actualizar_desde_items red creds _ 0 st)).
    exact IH.
Qed.



(** * Further properties of the code *)

(** ** Counts by port *)

Lemma get_contar_onus_desde (l : list ONUInfo) :
  forall (c : dict nat) (p : string),
    get (contar_onus_desde c l) p =
    match en_interfaz p l with
    | 0 => get c p
    | S n => Some (match get c p with Some b => b | None => 0 end + S n)
    end.
Proof.
  induction l as [|onu r IH]; intros c p; [reflexivity|].
  cbn [contar_onus_desde]. cbv zeta. rewrite IH. unfold en_interfaz.
  cbn [filter]. rewrite get_setitem. rewrite (String.eqb_sym (interfaz onu) p).
  destruct (String.eqb_spec p (interfaz onu)) as [->|Hp].
  - cbn [List.length].
    destruct (List.length (filter (fun o => String.eqb (interfaz o) (interfaz onu)) r));
      f_equal; lia.
  - reflexivity.
Qed.

Lemma NoDup_contar_onus_desde (l : list ONUInfo) :
  forall c, NoDup (claves c) -> NoDup (claves (contar_onus_desde c l)).
Proof.
  induction l as [|onu r IH]; intros c H; [exact H|].
  cbn [contar_onus_desde]. apply IH. apply NoDup_setitem. exact H.
Qed.

Lemma list_sum_cons (a : nat) (l : list nat) : list_sum (a :: l) = a + list_sum l.
Proof. reflexivity. Qed.

Lemma suma_setitem_incremento (k : string) (c : dict nat) :
  list_sum (valores (setitem k (match get c k with Some n => n | None => 0 end + 1) c)) =
  list_sum (valores c) + 1.
Proof.
  induction c as [|[k' v'] r IH]; [reflexivity|].
  cbn [get setitem]. destruct (String.eqb k k').
  - cbn. lia.
  - unfold valores in *. cbn [map snd]. rewrite !list_sum_cons, IH. lia.
Qed.

Lemma suma_contar_onus_desde (l : list ONUInfo) :
  forall c, list_sum (valores (contar_onus_desde c l)) =
            list_sum (valores c) + List.length l.
Proof.
  induction l as [|onu r IH]; intros c; [cbn [contar_onus_desde List.length]; lia|].
  cbn [contar_onus_desde List.length]. rewrite IH, suma_setitem_incremento. lia.
Qed.

(** X1. [contar_onus_por_puerto] gives, for every interface, the number
    of units on it, and no entry for an interface without unit; its keys
    are distinct and its counts add up to the number of units.  Units on
    p1, p1, p2 give p1: 2 and p2: 1, in that order. *)
Theorem X1_conteo_por_puerto :
  (forall l p,
     get (contar_onus_por_puerto l) p =
     match en_interfaz p l with 0 => None | S n => Some (S n) end) /\
  (forall l, NoDup (claves (contar_onus_por_puerto l))) /\
  (forall l, list_sum (valores (contar_onus_por_puerto l)) = List.length l) /\
  (forall a b c,
     interfaz a = "p1" -> interfaz b = "p1" -> interfaz c = "p2" ->
     contar_onus_por_puerto [a; b; c] = [("p1", 2); ("p2", 1)]).
Proof.
  split; [|split; [|split]].
  - intros l p. unfold contar_onus_por_puerto. rewrite get_contar_onus_desde.
    reflexivity.
  - intros l. apply NoDup_contar_onus_desde. constructor.
  - intros l. unfold contar_onus_por_puerto. rewrite suma_contar_onus_desde.
    reflexivity.
  - intros a b c Ha Hb Hc. unfold contar_onus_por_puerto. cbn [contar_onus_desde].
    rewrite Ha, Hb, Hc. reflexivity.
Qed.

Lemma X1_conteo_por_puerto_testigo :
  contar_onus_por_puerto
    [onu_con_rx "a" (Py.PyInt (-20)); onu_con_rx "b" (Py.PyInt (-20));
     {| serial := "c"; interfaz := "p2"; slot := "1"; puerto := "2";
        rx_power := Py.PyInt (-20); tx_power := Py.PyInt (-999);
        estado := "online"; consumo_bytes := 0; ultima_actualizacion := None |}] =
  [("p1", 2); ("p2", 1)].
Proof.
  apply (proj2 (proj2 (proj2 X1_conteo_por_puerto))); reflexivity.
Defined.

(** ** Model, name and serial heuristics *)

Lemma length_hasta (n : nat) (s : string) : String.length (Py.hasta n s) <= n.
Proof.
  revert s. induction n as [|n IH]; intros s; [simpl; lia|].
  destruct s as [|c r]; simpl; [lia|]. specialize (IH r). lia.
Qed.

Lemma extraer_modelo_lineas_largo (lineas : list string) :
  String.length (extraer_modelo_lineas lineas) <= 50.
Proof.
  induction lineas as [|l r IH]; cbn [extraer_modelo_lineas].
  - cbn. lia.
  - destruct (_ || _); [apply length_hasta|exact IH].
Qed.

Lemma extraer_modelo_lineas_prefijo (lineas : list string) :
  extraer_modelo_lineas lineas = "VSOL-OLT" \/
  exists linea, In linea lineas /\
                (menciona "model" linea || menciona "hardware" linea = true) /\
                extraer_modelo_lineas lineas = Py.hasta 50 (Py.strip linea).
Proof.
  induction lineas as [|l r IH]; cbn [extraer_modelo_lineas]; [left; reflexivity|].
  fold (menciona "model" l) (menciona "hardware" l).
  destruct (menciona "model" l || menciona "hardware" l) eqn:E.
  - right. exists l. repeat split; [left; reflexivity|exact E].
  - destruct IH as [H|(x & Hin & Hm & Hx)]; [left; exact H|].
    right. exists x. repeat split; [right; exact Hin|exact Hm|exact Hx].
Qed.

(** X2. The model string [extraer_modelo] returns is never longer than 50
    characters: it is the default VSOL-OLT, or the first 50 characters
    of a stripped line of the output that mentions model or hardware. *)
Theorem X2_modelo_acotado :
  forall version_info,
    String.length (extraer_modelo version_info) <= 50 /\
    (extraer_modelo version_info = "VSOL-OLT" \/
     exists linea, In linea (lineas_de version_info) /\
                   (menciona "model" linea || menciona "hardware" linea = true) /\
                   extraer_modelo version_info = Py.hasta 50 (Py.strip linea)).
Proof.
  intros v. split.
  - apply extraer_modelo_lineas_largo.
  - apply extraer_modelo_lineas_prefijo.
Qed.

(** ** The two classifiers *)

Lemma upper_lower (s : string) : Py.upper (Py.lower s) = Py.upper s.
Proof.
  induction s as [|c r IH]; [reflexivity|].
  cbn. rewrite upper_lower_char. f_equal. exact IH.
Qed.

Lemma upper_upper_char (a : ascii) : Py.upper_char (Py.upper_char a) = Py.upper_char a.
Proof. destruct a as [[] [] [] [] [] [] [] []]; reflexivity. Qed.

Lemma upper_upper (s : string) : Py.upper (Py.upper s) = Py.upper s.
Proof.
  induction s as [|c r IH]; [reflexivity|].
  cbn. rewrite upper_upper_char. f_equal. exact IH.
Qed.

Lemma es_olt_vsol_marca (v : string) :
  es_olt_vsol v = marca_snmp v || Py.contiene "V-SOL" (Py.upper v).
Proof.
  unfold es_olt_vsol, marca_snmp, indicadores. destruct v as [|c r]; [reflexivity|].
  cbn [Py.verdad_str negb existsb].
  destruct (Py.contiene "VSOL" _), (Py.contiene "V-SOL" _),
           (Py.contiene "GPON" _), (Py.contiene "OLT" _); reflexivity.
Qed.

(** X3. [es_olt_vsol] does not see the case of the letters: a text, its
    upper-case and its lower-case forms are classified alike, and the
    test is that one of VSOL, V-SOL, GPON, OLT occurs, case set aside.
    It accepts every description the SNMP prober accepts, and besides
    those that only carry V-SOL. *)
Theorem X3_clasificador_sin_caja :
  forall v,
    es_olt_vsol (Py.lower v) = es_olt_vsol v /\
    es_olt_vsol (Py.upper v) = es_olt_vsol v /\
    es_olt_vsol v = existsb (fun m => sin_distinguir m v) indicadores /\
    es_olt_vsol v = marca_snmp v || sin_distinguir "V-SOL" v.
Proof.
  intros v.
  assert (Hl : es_olt_vsol (Py.lower v) = es_olt_vsol v).
  { unfold es_olt_vsol. rewrite upper_lower. destruct v; reflexivity. }
  assert (Hu : es_olt_vsol (Py.upper v) = es_olt_vsol v).
  { unfold es_olt_vsol. rewrite upper_upper. destruct v; reflexivity. }
  assert (Hm : es_olt_vsol v = marca_snmp v || sin_distinguir "V-SOL" v).
  { rewrite es_olt_vsol_marca. unfold sin_distinguir.
    rewrite <- contiene_upper_lower. reflexivity. }
  repeat split; try assumption.
  rewrite Hm, marca_snmp_sin_distinguir. unfold indicadores, marcadores_snmp.
  cbn [existsb].
  destruct (sin_distinguir "VSOL" v), (sin_distinguir "V-SOL" v),
           (sin_distinguir "GPON" v), (sin_distinguir "OLT" v); reflexivity.
Qed.

(** ** Tokens, serials and names *)

Lemma split_tokens (s : string) :
  Forall (fun t => t <> "" /\ sin_espacios t = true) (Py.split s).
Proof.
  induction s as [|c r IH]; [constructor|].
  cbn [Py.split]. destruct (Py.isspace_char c) eqn:Hc; [exact IH|].
  assert (Huno : String c "" <> "" /\ sin_espacios (String c "") = true).
  { split; [discriminate|]. unfold sin_espacios. cbn. rewrite Hc. reflexivity. }
  destruct r as [|c' r']; [constructor; [exact Huno|constructor]|].
  destruct (Py.isspace_char c') eqn:Hc'; [constructor; [exact Huno|exact IH]|].
  destruct (Py.split (String c' r')) as [|h t]; [constructor; [exact Huno|constructor]|].
  inversion IH as [|x l [_ Hh] Ht]; subst.
  constructor; [|exact Ht]. split; [discriminate|].
  unfold sin_espacios in *. cbn. rewrite Hc. exact Hh.
Qed.

Lemma rstrip_sin_espacios (t : string) : sin_espacios t = true -> Py.rstrip t = t.
Proof.
  induction t as [|c r IH]; [reflexivity|].
  unfold sin_espacios in *. cbn [Py.todos Py.rstrip]. intros H.
  apply andb_prop in H. destruct H as [Hc Hr]. rewrite (IH Hr).
  destruct r; [|reflexivity].
  destruct (Py.isspace_char c); [discriminate|reflexivity].
Qed.

Lemma strip_sin_espacios (t : string) : sin_espacios t = true -> Py.strip t = t.
Proof.
  intros H. unfold Py.strip.
  assert (Hl : Py.lstrip t = t).
  { destruct t as [|c r]; [reflexivity|]. unfold sin_espacios in H. cbn in H |- *.
    destruct (Py.isspace_char c); [discriminate|reflexivity]. }
  rewrite Hl. apply rstrip_sin_espacios. exact H.
Qed.

Lemma ultimo_token (s : string) :
  1 < List.length (Py.split s) ->
  Py.ultimo (Py.split s) <> "" /\ sin_espacios (Py.ultimo (Py.split s)) = true.
Proof.
  intros H. pose proof (split_tokens s) as Hf.
  rewrite Forall_forall in Hf. apply Hf. unfold Py.ultimo.
  destruct (Py.split s) as [|a l]; [simpl in H; lia|].
  destruct (exists_last (l := a :: l)) as (l' & x & E); [discriminate|].
  rewrite E, last_last. apply in_or_app. right. left. reflexivity.
Qed.

Lemma extraer_serial_lineas_token (lineas : list string) (s : string) :
  extraer_serial_lineas lineas = Some s ->
  s <> "" /\ sin_espacios s = true /\
  exists linea, In linea lineas /\
                (menciona "serial" linea || menciona "sn" linea = true) /\
                s = Py.ultimo (Py.split linea).
Proof.
  induction lineas as [|l r IH]; cbn [extraer_serial_lineas]; [discriminate|].
  fold (menciona "serial" l) (menciona "sn" l).
  destruct (menciona "serial" l || menciona "sn" l) eqn:E.
  - cbv zeta. destruct (Nat.ltb 1 (List.length (Py.split l))) eqn:Hn.
    + apply Nat.ltb_lt in Hn. destruct (ultimo_token l Hn) as [H1 H2].
      rewrite (strip_sin_espacios _ H2). intros H. injection H as <-.
      repeat split; try assumption. exists l. repeat split; [left; reflexivity|exact E].
    + intros H. destruct (IH H) as (H1 & H2 & x & Hin & Hm & Hx).
      repeat split; try assumption. exists x. repeat split; [right|..]; assumption.
  - intros H. destruct (IH H) as (H1 & H2 & x & Hin & Hm & Hx).
    repeat split; try assumption. exists x. repeat split; [right|..]; assumption.
Qed.

(** X4. A serial returned by [extraer_serial] is a token of the output:
    it is not empty, holds no whitespace, and is the last token of a line
    that mentions serial or sn. *)
Theorem X4_serial_es_token :
  forall output s,
    extraer_serial output = Some s ->
    s <> "" /\ sin_espacios s = true /\
    exists linea, In linea (lineas_de output) /\
                  (menciona "serial" linea || menciona "sn" linea = true) /\
                  s = Py.ultimo (Py.split linea).
Proof. intros output s. apply extraer_serial_lineas_token. Qed.

Lemma X4_serial_es_token_testigo :
  "VSOL1234" <> "" /\ sin_espacios "VSOL1234" = true /\
  exists linea, In linea (lineas_de "ONU SN:   VSOL1234  ") /\
                (menciona "serial" linea || menciona "sn" linea = true) /\
                "VSOL1234" = Py.ultimo (Py.split linea).
Proof.
  apply (X4_serial_es_token "ONU SN:   VSOL1234  " "VSOL1234"). reflexivity.
Defined.

Lemma extraer_nombre_lineas_token (lineas : list string) (n : string) :
  extraer_nombre_lineas lineas = Some n -> n <> "".
Proof.
  induction lineas as [|l r IH]; cbn [extraer_nombre_lineas]; [discriminate|].
  destruct (_ || _); [|exact IH].
  cbv zeta. destruct (Nat.ltb 1 (List.length (Py.split l))) eqn:Hn; [|exact IH].
  apply Nat.ltb_lt in Hn. intros H. injection H as <-. apply (ultimo_token l Hn).
Qed.


(** ** Detail commands of a unit *)

Lemma comandos_anota_exec (i : string) (c : Credencial) (cmd : string) (st : Estado) :
  comandos (anota (EvExec i c cmd) st) = comandos st ++ [cmd].
Proof. unfold comandos. rewrite traza_anota. reflexivity. Qed.

Lemma detalles_desde_comandos (red : Red) (ssh : SSHClient) (cs : list string) :
  forall st,
    comandos (snd (detalles_desde red ssh cs st)) =
    comandos st ++ hasta_primero (fun c => respuesta_valida (salida red ssh c)) cs /\
    fst (detalles_desde red ssh cs st) =
    match find (fun c => respuesta_valida (salida red ssh c)) cs with
    | Some c => lectura_de (salida red ssh c)
    | None => sin_lectura
    end.
Proof.
  induction cs as [|cmd r IH]; intros st.
  - split; [symmetry; apply app_nil_r|reflexivity].
  - cbn [detalles_desde hasta_primero find].
    rewrite bind_eq, ejecutar_comando_eq. cbn [fst snd].
    fold (respuesta_valida (salida red ssh cmd)).
    destruct (respuesta_valida (salida red ssh cmd)).
    + cbv zeta. unfold lectura_de.
      destruct (extraer_rx_power (salida red ssh cmd));
        [destruct (extraer_tx_power (salida red ssh cmd))|];
        (split; [apply comandos_anota_exec|reflexivity]).
    + destruct (IH (anota (EvExec (ssh_ip ssh) (ssh_cred ssh) cmd) st)) as [H1 H2].
      rewrite H1, H2, comandos_anota_exec, <- app_assoc. split; reflexivity.
Qed.

(** X6. [obtener_detalles_onu] sends the three detail commands in order
    and stops at the first whose output is not empty and does not
    mention invalid: the later ones are not sent.  The reading is taken
    from that output alone; no valid output, or an extractor of optical
    power that raises on it, gives no serial and the sentinel twice. *)
Theorem X6_primer_detalle_valido :
  forall red ssh i o st,
    comandos (snd (obtener_detalles_onu red ssh i o st)) =
    comandos st ++
    hasta_primero (fun c => respuesta_valida (salida red ssh c)) (comandos_detalle i o) /\
    fst (obtener_detalles_onu red ssh i o st) =
    match find (fun c => respuesta_valida (salida red ssh c)) (comandos_detalle i o) with
    | Some c => lectura_de (salida red ssh c)
    | None => sin_lectura
    end.
Proof. intros red ssh i o st. apply detalles_desde_comandos. Qed.

(** ** Computations that respect a preorder on the states *)

Section Orden.

Variable R : Estado -> Estado -> Prop.
Hypothesis R_refl : forall st, R st st.
Hypothesis R_trans : forall a b c, R a b -> R b c -> R a c.

Lemma respeta_ret {A : Type} (a : A) : respeta R (ret a).
Proof. intros st. apply R_refl. Qed.

Lemma respeta_bind {A B : Type} (m : M A) (k : A -> M B) :
  respeta R m -> (forall a, respeta R (k a)) -> respeta R (bind m k).
Proof.
  intros Hm Hk st. rewrite bind_eq. eapply R_trans; [apply Hm|apply Hk].
Qed.

Variable red : Red.
Variable creds : list Credencial.
Variable comms : list string.

Hypothesis r_ahora : respeta R (ahora red).
Hypothesis r_randint : forall a b, respeta R (randint red a b).
Hypothesis r_guardar_onu : forall o i, respeta R (guardar_onu red o i).
Hypothesis r_guardar_trafico : forall i s a b, respeta R (guardar_trafico red i s a b).
Hypothesis r_guardar_metrica : forall i t v, respeta R (guardar_metrica red i t v).
Hypothesis r_guardar_olt : forall o, respeta R (guardar_olt red o).
Hypothesis r_asigna : forall i o, respeta R (asigna i o).
Hypothesis r_ejecutar : forall ssh c, respeta R (ejecutar_comando red ssh c).
Hypothesis r_snmp_get : forall i oid c, respeta R (snmp_get red i oid c).
Hypothesis r_snmp_walk : forall i oid c, respeta R (snmp_walk red i oid c).
Hypothesis r_puerto : forall i p, respeta R (puerto_abierto red i p).

Ltac orden :=
  repeat first
    [ apply respeta_ret
    | assumption
    | match goal with
      | H : forall _, respeta R _ |- _ => apply H
      | H : forall _ _, respeta R _ |- _ => apply H
      | H : forall _ _ _, respeta R _ |- _ => apply H
      | H : forall _ _ _ _, respeta R _ |- _ => apply H
      end
    | apply respeta_bind; [|intros]
    | match goal with
      | |- respeta R (match ?x with _ => _ end) => destruct x
      | |- respeta R (let _ := _ in _) => cbv zeta
      end ].

Lemma respeta_extraer_nombre_sistema (s : string) :
  respeta R (extraer_nombre_sistema red s).
Proof. unfold extraer_nombre_sistema. orden. Qed.

Lemma respeta_detalles_desde (ssh : SSHClient) (cs : list string) :
  respeta R (detalles_desde red ssh cs).
Proof.
  induction cs as [|c r IH]; cbn [detalles_desde]; [orden|].
  apply respeta_bind; [apply r_ejecutar|]. intros out. orden.
Qed.

Lemma respeta_onus_desde (ssh : SSHClient) (olt_ip : string) (lineas : list string) :
  forall onus0, respeta R (onus_desde red ssh olt_ip lineas onus0).
Proof.
  induction lineas as [|l r IH]; intros onus0; cbn [onus_desde]; [orden|].
  destruct (_ && _); [|apply IH].
  destruct (Py.split l) as [|p0 [|p1 [|p2 [|p3 ps]]]]; try apply IH.
  destruct (campo_interfaz p0 1); [|orden].
  destruct (campo_interfaz p0 2); [|orden].
  apply respeta_bind; [apply respeta_detalles_desde|].
  intros [[s rx] tx]. orden.
Qed.

Lemma respeta_obtener_informacion_onus (ssh : SSHClient) (olt_ip : string) :
  respeta R (obtener_informacion_onus red ssh olt_ip).
Proof.
  unfold obtener_informacion_onus.
  apply respeta_bind; [apply r_ejecutar|]. intros. apply respeta_onus_desde.
Qed.

Lemma respeta_guardar_si (i t : string) (v : option spec_float) :
  respeta R (guardar_si red i t v).
Proof. unfold guardar_si. orden. Qed.

Lemma respeta_actualizar_informacion_olt (ssh : SSHClient) (o : OLTInfo) :
  respeta R (actualizar_informacion_olt red ssh o).
Proof.
  unfold actualizar_informacion_olt.
  apply respeta_bind; [apply r_ejecutar|]. intros temp_info.
  destruct (extraer_temperatura temp_info); [|orden].
  cbv zeta.
  repeat (apply respeta_bind;
          [first [apply r_ejecutar | apply respeta_guardar_si
                 | apply respeta_obtener_informacion_onus]|intros]).
  orden.
Qed.

Lemma respeta_probar_snmp_desde (ip0 : string) (cs : list string) :
  respeta R (probar_snmp_desde red ip0 cs).
Proof.
  induction cs as [|c r IH]; cbn [probar_snmp_desde]; [orden|].
  apply respeta_bind; [apply r_snmp_get|]. intros [d|]; [|exact IH].
  destruct (_ && _); [|exact IH].
  apply respeta_bind; [apply r_snmp_get|]. intros. orden.
Qed.

Lemma respeta_actualizar_olt_snmp (o : OLTInfo) : respeta R (actualizar_olt_snmp red o).
Proof.
  unfold actualizar_olt_snmp. destruct (snmp_community o); [|orden].
  unfold obtener_info_snmp_olt.
  repeat (apply respeta_bind;
          [first [apply r_snmp_get | apply r_snmp_walk]|intros]).
  apply respeta_bind; [orden|]. intros [x|]; orden.
Qed.

Hypothesis r_connect : forall i c, respeta R (ssh_connect red i c).
Hypothesis r_close : forall ssh, respeta R (ssh_close ssh).

Lemma respeta_identificar_desde (ip0 : string) (cs : list Credencial) :
  respeta R (identificar_desde red ip0 cs).
Proof.
  induction cs as [|c r IH]; cbn [identificar_desde]; [orden|].
  apply respeta_bind; [apply r_connect|]. intros [|]; [|exact IH].
  cbv zeta.
  apply respeta_bind; [apply r_ejecutar|]. intros v.
  apply respeta_bind; [apply r_ejecutar|]. intros s.
  destruct (es_olt_vsol v).
  - apply respeta_bind; [apply respeta_extraer_nombre_sistema|]. intros n.
    apply respeta_bind; [apply respeta_actualizar_informacion_olt|]. intros o.
    apply respeta_bind; [apply r_close|]. intros. apply respeta_ret.
  - apply respeta_bind; [apply r_close|]. intros. exact IH.
Qed.

Lemma respeta_actualizar_desde (items : dict OLTInfo) :
  forall n, respeta R (actualizar_desde red creds items n).
Proof.
  induction items as [|[k o] r IH]; intros n; cbn [actualizar_desde]; [orden|].
  apply respeta_bind.
  { destruct (snmp_community o); [apply respeta_actualizar_olt_snmp|apply respeta_ret]. }
  intros [|].
  - apply respeta_bind; [apply IH|]. intros [x y]. apply respeta_ret.
  - destruct creds as [|c cs].
    + apply respeta_bind; [apply IH|]. intros [x y]. apply respeta_ret.
    + apply respeta_bind; [apply r_connect|]. intros [|].
      * cbv zeta.
        apply respeta_bind; [apply respeta_actualizar_informacion_olt|]. intros o'.
        apply respeta_bind; [apply r_close|]. intros _.
        apply respeta_bind; [apply IH|]. intros [x y]. apply respeta_ret.
      * apply respeta_bind; [apply IH|]. intros [x y]. apply respeta_ret.
Qed.

End Orden.

Section OrdenPases.

Variable R : Estado -> Estado -> Prop.
Hypothesis R_refl : forall st, R st st.
Hypothesis R_trans : forall a b c, R a b -> R b c -> R a c.

Variable red : Red.
Variable creds : list Credencial.
Variable comms : list string.

Hypothesis r_probar : forall i, respeta R (probar_snmp_olt red comms i).
Hypothesis r_puerto : forall i p, respeta R (puerto_abierto red i p).
Hypothesis r_identificar : forall i, respeta R (identificar_olt_vsol red creds i).
Hypothesis r_guardar_olt : forall o, respeta R (guardar_olt red o).
Hypothesis r_asigna : forall i o, respeta R (asigna i o).

Lemma respeta_verificar_ip (ip0 : string) : respeta R (verificar_ip red creds comms ip0).
Proof.
  unfold verificar_ip.
  apply (respeta_bind R R_trans); [apply r_probar|]. intros [info|].
  - cbv zeta. apply (respeta_bind R R_trans); [apply r_asigna|]. intros. apply r_guardar_olt.
  - apply (respeta_bind R R_trans); [apply r_puerto|]. intros [|].
    + apply (respeta_bind R R_trans); [apply r_identificar|]. intros [o|].
      * apply (respeta_bind R R_trans); [apply r_asigna|]. intros. apply r_guardar_olt.
      * apply (respeta_ret R R_refl).
    + apply (respeta_ret R R_refl).
Qed.

Lemma respeta_escanear_direcciones (ips : list string) :
  respeta R (escanear_direcciones red creds comms ips).
Proof.
  induction ips as [|x r IH]; cbn [escanear_direcciones].
  - apply (respeta_ret R R_refl).
  - apply (respeta_bind R R_trans); [apply respeta_verificar_ip|]. intros. exact IH.
Qed.

End OrdenPases.

(** ** Units and the database *)

Lemma o_bien_no_vacio (x : option string) (y : string) : y <> "" -> o_bien x y <> "".
Proof.
  intros Hy. unfold o_bien. destruct x as [s|]; [|exact Hy].
  destruct s; [exact Hy|discriminate].
Qed.

Lemma claves_setitem_contiene {V : Type} (k : string) (v : V) (d : dict V) :
  In k (claves (setitem k v d)) /\ incl (claves d) (claves (setitem k v d)).
Proof.
  destruct (in_dec string_dec k (claves d)) as [Hin|Hout].
  - rewrite claves_setitem_in by assumption. split; [exact Hin|apply incl_refl].
  - rewrite claves_setitem_nuevo by assumption.
    split; [apply in_or_app; right; left; reflexivity|apply incl_appl, incl_refl].
Qed.

Lemma db_obtener_detalles_onu (red : Red) (ssh : SSHClient) (i o : string) :
  preserva db (obtener_detalles_onu red ssh i o).
Proof. apply preserva_obtener_detalles_onu. intros s c st. reflexivity. Qed.

Lemma subsecuencia_refl {A : Type} (l : list A) : subsecuencia l l.
Proof. induction l; constructor; assumption. Qed.

Lemma subsecuencia_app {A : Type} (a a' b b' : list A) :
  subsecuencia a a' -> subsecuencia b b' -> subsecuencia (a ++ b) (a' ++ b').
Proof. intros Ha Hb. induction Ha; cbn; try constructor; assumption. Qed.

Lemma find_app_uno {A : Type} (p : A -> bool) (l : list A) (x : A) :
  find p (l ++ [x]) =
  match find p l with
  | Some y => Some y
  | None => if p x then Some x else None
  end.
Proof.
  induction l as [|y r IH]; cbn; [reflexivity|].
  destruct (p y); [reflexivity|exact IH].
Qed.

Lemma registro_onus_nada (olt_ip : string) (st : Estado) : registro_onus olt_ip st st [].
Proof.
  unfold registro_onus. split; [|split].
  - exists []. split; [constructor|]. symmetry. apply app_nil_r.
  - apply incl_refl.
  - intros s. left. reflexivity.
Qed.

Lemma registro_completo_nada (olt_ip : string) (st : Estado) :
  registro_completo olt_ip st st [].
Proof.
  unfold registro_completo. split; [cbn; symmetry; apply app_nil_r|].
  intros s. reflexivity.
Qed.

(** The writes [obtener_informacion_onus] requests for one unit. *)
Lemma paso_unidad (red : Red) (olt_ip : string) (onu : ONUInfo)
    (a b x y x' y' : Z) (st : Estado) :
  let st' :=
    snd (guardar_trafico red olt_ip (serial onu) a b
           (snd (randint red x y
                   (snd (randint red x' y'
                           (snd (guardar_onu red onu olt_ip st))))))) in
  (onus (db st') = onus (db st) \/
   onus (db st') = setitem (serial onu) (olt_ip, onu) (onus (db st))) /\
  (exists filas,
     subsecuencia filas [(olt_ip, serial onu)] /\
     map par_trafico (trafico (db st')) = map par_trafico (trafico (db st)) ++ filas) /\
  ((forall k, red_db red k = true) ->
   onus (db st') = setitem (serial onu) (olt_ip, onu) (onus (db st)) /\
   map par_trafico (trafico (db st')) =
   map par_trafico (trafico (db st)) ++ [(olt_ip, serial onu)]).
Proof.
  cbv zeta. rewrite guardar_trafico_eq, guardar_onu_eq. cbn [snd randint].
  split; [|split].
  - destruct (red_db red (tic st)); cbn [tic avanza con_db];
      match goal with |- context [if ?c then _ else _] => destruct c end;
      cbn; auto.
  - destruct (red_db red (tic st)); cbn [tic avanza con_db];
      match goal with |- context [if ?c then _ else _] => destruct c end; cbn.
    + exists [(olt_ip, serial onu)]. split; [apply subsecuencia_refl|].
      rewrite map_app. reflexivity.
    + exists []. split; [repeat constructor|]. symmetry. apply app_nil_r.
    + exists [(olt_ip, serial onu)]. split; [apply subsecuencia_refl|].
      rewrite map_app. reflexivity.
    + exists []. split; [repeat constructor|]. symmetry. apply app_nil_r.
  - intros H. rewrite !H. cbn. rewrite map_app. split; reflexivity.
Qed.

Lemma registro_onus_cons (olt_ip : string) (onu : ONUInfo) (nuevas : list ONUInfo)
    (st st1 st' : Estado) :
  (onus (db st1) = onus (db st) \/
   onus (db st1) = setitem (serial onu) (olt_ip, onu) (onus (db st))) ->
  (exists filas,
     subsecuencia filas [(olt_ip, serial onu)] /\
     map par_trafico (trafico (db st1)) = map par_trafico (trafico (db st)) ++ filas) ->
  registro_onus olt_ip st1 st' nuevas ->
  registro_onus olt_ip st st' (onu :: nuevas).
Proof.
  intros Hon (f0 & Hf0 & Ht0) ((f & Hf & Ht) & Hk & Hg).
  split; [|split].
  - exists (f0 ++ f). split.
    + apply (subsecuencia_app f0 [(olt_ip, serial onu)]); assumption.
    + rewrite Ht, Ht0, <- app_assoc. reflexivity.
  - eapply incl_tran; [|exact Hk].
    destruct Hon as [->| ->]; [apply incl_refl|apply claves_setitem_contiene].
  - intros s. destruct (Hg s) as [E|(o & Ho & Hs & E)].
    + rewrite E. destruct Hon as [->| ->]; [left; reflexivity|].
      rewrite get_setitem. destruct (String.eqb_spec s (serial onu)) as [->|Hne].
      * right. exists onu. split; [left; reflexivity|]. split; reflexivity.
      * left. reflexivity.
    + right. exists o. split; [right; exact Ho|]. split; assumption.
Qed.

Lemma registro_completo_cons (olt_ip : string) (onu : ONUInfo) (nuevas : list ONUInfo)
    (st st1 st' : Estado) :
  onus (db st1) = setitem (serial onu) (olt_ip, onu) (onus (db st)) ->
  map par_trafico (trafico (db st1)) =
  map par_trafico (trafico (db st)) ++ [(olt_ip, serial onu)] ->
  registro_completo olt_ip st1 st' nuevas ->
  registro_completo olt_ip st st' (onu :: nuevas).
Proof.
  intros Hon Ht0 [Ht Hg]. split.
  - rewrite Ht, Ht0, <- app_assoc. reflexivity.
  - intros s. rewrite Hg. unfold ultima_con_serial. cbn [rev].
    rewrite find_app_uno.
    destruct (find (fun o => String.eqb (serial o) s) (rev nuevas)); [reflexivity|].
    rewrite Hon, get_setitem, (String.eqb_sym s). 
    destruct (String.eqb (serial onu) s); reflexivity.
Qed.

Lemma onus_desde_registro (red : Red) (ssh : SSHClient) (olt_ip : string)
    (lineas : list string) :
  forall onus0 st,
    exists nuevas,
      fst (onus_desde red ssh olt_ip lineas onus0 st) = onus0 ++ nuevas /\
      List.length nuevas <= List.length lineas /\
      Forall (fun o => serial o <> "") nuevas /\
      registro_onus olt_ip st (snd (onus_desde red ssh olt_ip lineas onus0 st)) nuevas /\
      ((forall k, red_db red k = true) ->
       registro_completo olt_ip st
         (snd (onus_desde red ssh olt_ip lineas onus0 st)) nuevas).
Proof.
  induction lineas as [|l r IH]; intros onus0 st.
  - exists []. cbn [onus_desde ret fst snd List.length]. rewrite app_nil_r.
    split; [reflexivity|]. split; [lia|]. split; [constructor|].
    split; [apply registro_onus_nada|intros _; apply registro_completo_nada].
  - assert (Hsalta : exists nuevas,
               fst (onus_desde red ssh olt_ip r onus0 st) = onus0 ++ nuevas /\
               List.length nuevas <= List.length (l :: r) /\
               Forall (fun o => serial o <> "") nuevas /\
               registro_onus olt_ip st (snd (onus_desde red ssh olt_ip r onus0 st)) nuevas /\
               ((forall k, red_db red k = true) ->
                registro_completo olt_ip st
                  (snd (onus_desde red ssh olt_ip r onus0 st)) nuevas)).
    { destruct (IH onus0 st) as (n & H1 & H2 & H3). exists n. cbn [List.length].
      split; [exact H1|]. split; [lia|exact H3]. }
    assert (Hfin : exists nuevas,
               onus0 = onus0 ++ nuevas /\
               List.length nuevas <= List.length (l :: r) /\
               Forall (fun o => serial o <> "") nuevas /\
               registro_onus olt_ip st st nuevas /\
               ((forall k, red_db red k = true) ->
                registro_completo olt_ip st st nuevas)).
    { exists []. rewrite app_nil_r. cbn [List.length].
      split; [reflexivity|]. split; [lia|]. split; [constructor|].
      split; [apply registro_onus_nada|intros _; apply registro_completo_nada]. }
    cbn [onus_desde].
    destruct (_ && _); [|exact Hsalta].
    destruct (Py.split l) as [|p0 [|p1 [|p2 [|p3 ps]]]]; try exact Hsalta.
    destruct (campo_interfaz p0 1) as [slot0|]; [|exact Hfin].
    destruct (campo_interfaz p0 2) as [puerto0|]; [|exact Hfin].
    rewrite bind_eq.
    pose proof (db_obtener_detalles_onu red ssh p0 p1 st) as Hdb.
    destruct (obtener_detalles_onu red ssh p0 p1 st) as [[[s0 rx] tx] st1].
    cbn [fst snd] in *. cbv zeta.
    repeat rewrite bind_eq.
    match goal with
    | |- context [onus_desde red ssh olt_ip r (onus0 ++ [?onu]) _] =>
        set (onu_info := onu)
    end.
    match goal with
    | |- context [onus_desde red ssh olt_ip r (onus0 ++ [onu_info]) ?s] =>
        set (st6 := s)
    end.
    destruct (IH (onus0 ++ [onu_info]) st6) as (nuevas & H1 & H2 & H3 & H4 & H5).
    exists (onu_info :: nuevas).
    assert (Hs : serial onu_info <> "").
    { apply o_bien_no_vacio. discriminate. }
    assert (Hp : (onus (db st6) = onus (db st) \/
                  onus (db st6) =
                  setitem (serial onu_info) (olt_ip, onu_info) (onus (db st))) /\
                 (exists filas,
                    subsecuencia filas [(olt_ip, serial onu_info)] /\
                    map par_trafico (trafico (db st6)) =
                    map par_trafico (trafico (db st)) ++ filas) /\
                 ((forall k, red_db red k = true) ->
                  onus (db st6) =
                  setitem (serial onu_info) (olt_ip, onu_info) (onus (db st)) /\
                  map par_trafico (trafico (db st6)) =
                  map par_trafico (trafico (db st)) ++ [(olt_ip, serial onu_info)])).
    { rewrite <- Hdb. change (db st1) with (db (snd (ahora red st1))).
      subst st6. apply paso_unidad. }
    destruct Hp as (Hon & Htr & Hall).
    split; [|split; [|split; [|split]]].
    + rewrite H1, <- app_assoc. reflexivity.
    + cbn [List.length]. lia.
    + constructor; assumption.
    + apply (registro_onus_cons olt_ip onu_info nuevas st st6); assumption.
    + intros Hk. destruct (Hall Hk) as [K1 K2].
      apply (registro_completo_cons olt_ip onu_info nuevas st st6);
        [exact K1|exact K2|exact (H5 Hk)].
Qed.

(** X7. [obtener_informacion_onus] returns at most one unit per line of
    the listing, and every unit it returns has a serial that is not
    empty.  Whatever the database accepts, the traffic rows it appends
    are rows of these units, in their order, no serial leaves the units
    table, and the row under a serial is the row of before or that of a
    returned unit with that serial.  When the database accepts every
    write there is one traffic row for each unit and the units table
    holds, under each serial, the last unit returned with it: of two
    units that get the same serial only the second is stored. *)
Theorem X7_unidades_registradas :
  forall red ssh olt_ip st,
    List.length (fst (obtener_informacion_onus red ssh olt_ip st)) <=
    List.length (lineas_de (salida red ssh "show gpon onu state")) /\
    Forall (fun o => serial o <> "") (fst (obtener_informacion_onus red ssh olt_ip st)) /\
    registro_onus olt_ip st (snd (obtener_informacion_onus red ssh olt_ip st))
                  (fst (obtener_informacion_onus red ssh olt_ip st)) /\
    ((forall k, red_db red k = true) ->
     registro_completo olt_ip st (snd (obtener_informacion_onus red ssh olt_ip st))
                       (fst (obtener_informacion_onus red ssh olt_ip st))).
Proof.
  intros red ssh olt_ip st. unfold obtener_informacion_onus.
  rewrite bind_eq, ejecutar_comando_eq. cbn [fst snd].
  destruct (onus_desde_registro red ssh olt_ip
              (Py.split_sep salto (salida red ssh "show gpon onu state")) []
              (anota (EvExec (ssh_ip ssh) (ssh_cred ssh) "show gpon onu state") st))
    as (nuevas & H1 & H2 & H3 & H4 & H5).
  cbn [app] in H1. rewrite H1.
  split; [exact H2|]. split; [exact H3|]. split; [exact H4|exact H5].
Qed.

Lemma X7_unidades_registradas_testigo :
  let r := obtener_informacion_onus red_dos_unidades (sesion "10.0.0.7" cred_B)
             "10.0.0.7" estado_inicial in
  registro_completo "10.0.0.7" estado_inicial (snd r) (fst r) /\
  map serial (fst r) = ["router"; "router"] /\
  map interfaz (fst r) = ["gpon-onu_1/1/1"; "gpon-onu_1/1/2"] /\
  map (fun kv => (fst kv, interfaz (snd (snd kv)))) (onus (db (snd r))) =
  [("router", "gpon-onu_1/1/2")].
Proof.
  cbv zeta. split; [|repeat split; vm_compute; reflexivity].
  refine (proj2 (proj2 (proj2
            (X7_unidades_registradas red_dos_unidades (sesion "10.0.0.7" cred_B)
               "10.0.0.7" estado_inicial))) _).
  intros k. reflexivity.
Defined.

(** ** Records that agree with themselves *)

Lemma coherente_nueva_olt (i n m : string) : coherente i (nueva_olt i n m).
Proof. repeat split. Qed.

Lemma actualizar_informacion_olt_coherente (red : Red) (ssh : SSHClient)
    (k : string) (o : OLTInfo) (st : Estado) :
  coherente k o ->
  coherente k (fst (actualizar_informacion_olt red ssh o st)) /\
  snmp_community (fst (actualizar_informacion_olt red ssh o st)) = snmp_community o /\
  nombre (fst (actualizar_informacion_olt red ssh o st)) = nombre o /\
  modelo (fst (actualizar_informacion_olt red ssh o st)) = modelo o.
Proof.
  intros H. destruct (actualizar_informacion_olt_fst red ssh o st) as [s ->].
  destruct (extraer_temperatura (salida red ssh "show system temperature")).
  - destruct H as (H1 & _ & _). repeat split. exact H1.
  - repeat split; apply H.
Qed.

Lemma identificar_desde_coherente (red : Red) (ip0 : string) (creds : list Credencial) :
  forall st o,
    fst (identificar_desde red ip0 creds st) = Some o ->
    coherente ip0 o /\ snmp_community o = None.
Proof.
  induction creds as [|c r IH]; intros st o; [discriminate|].
  cbn [identificar_desde]. rewrite bind_eq, ssh_connect_eq. cbn [fst snd].
  destruct (red_connect red ip0 c); [|apply IH].
  cbv zeta.
  repeat (progress (rewrite ?bind_eq, ?ejecutar_comando_eq; cbn [fst snd])).
  destruct (es_olt_vsol _).
  - rewrite !bind_eq. cbn [ret fst]. intros H. injection H as <-.
    match goal with
    | |- context [actualizar_informacion_olt red ?ssh ?o0 ?s] =>
        destruct (actualizar_informacion_olt_coherente red ssh ip0 o0 s
                    (coherente_nueva_olt _ _ _)) as (H1 & H2 & _)
    end.
    split; [exact H1|]. rewrite H2. reflexivity.
  - rewrite !bind_eq. apply IH.
Qed.

Lemma hallar_coherente (red : Red) (creds : list Credencial) (comms : list string)
    (ip0 : string) (st : Estado) (o : OLTInfo) :
  fst (hallar red creds comms ip0 st) = Some o -> coherente ip0 o.
Proof.
  unfold hallar. rewrite bind_eq. unfold probar_snmp_olt.
  rewrite probar_snmp_desde_fst.
  destruct (find (acepta red ip0) comms) as [c|]; cbn [option_map].
  - cbn. intros H. injection H as <-. repeat split.
  - rewrite ?bind_eq. cbn [puerto_abierto bind modifica ret fst snd].
    destruct (red_puerto red ip0 22); [|discriminate].
    intros H. apply (identificar_desde_coherente red ip0 creds _ _ H).
Qed.

Lemma Forall_setitem {V : Type} (P : string * V -> Prop) (k : string) (v : V)
    (d : dict V) :
  Forall P d -> P (k, v) -> Forall P (setitem k v d).
Proof.
  intros Hd Hv. induction d as [|[k' v'] r IH]; cbn [setitem].
  - constructor; [exact Hv|constructor].
  - inversion Hd; subst. destruct (String.eqb k k'); constructor; auto.
Qed.

Lemma actualizar_desde_refrescado (red : Red) (creds : list Credencial)
    (items : dict OLTInfo) :
  forall n st,
    Forall2 (refrescado red creds) items
            (fst (fst (actualizar_desde red creds items n st))).
Proof.
  induction items as [|[k o] resto IH]; intros n st; [constructor|].
  cbn [actualizar_desde].
  destruct (snmp_community o) as [c|] eqn:Hc.
  - rewrite bind_eq, (actualizar_olt_snmp_eq red o c st Hc). cbn [fst snd].
    rewrite bind_par_fst. cbn [fst]. constructor; [|apply IH].
    split; [reflexivity|]. cbn [fst snd]. rewrite Hc. reflexivity.
  - rewrite bind_eq. cbn [ret fst snd].
    destruct creds as [|cred creds'] eqn:Ecreds.
    + rewrite bind_par_fst. cbn [fst]. constructor; [|apply IH].
      split; [reflexivity|]. cbn [fst snd]. rewrite Hc. reflexivity.
    + rewrite bind_eq, ssh_connect_eq. cbn [fst snd].
      destruct (red_connect red k cred) eqn:Hk.
      * cbv zeta. rewrite bind_eq. rewrite bind_eq. rewrite bind_par_fst. cbn [fst].
        constructor; [|apply IH].
        split; [reflexivity|]. cbn [fst snd]. rewrite Hc, Hk. eexists. reflexivity.
      * rewrite bind_par_fst. cbn [fst]. constructor; [|apply IH].
        split; [reflexivity|]. cbn [fst snd]. rewrite Hc, Hk. reflexivity.
Qed.

Lemma refrescado_coherente (red : Red) (creds : list Credencial)
    (a b : string * OLTInfo) :
  refrescado red creds a b -> coherente (fst a) (snd a) -> coherente (fst b) (snd b).
Proof.
  intros [Hk H] Ha. rewrite Hk.
  destruct (snmp_community (snd a)); [rewrite H; exact Ha|].
  destruct creds as [|c cs]; [rewrite H; exact Ha|].
  destruct (red_connect red (fst a) c); [|rewrite H; exact Ha].
  destruct H as [s ->].
  apply (actualizar_informacion_olt_coherente red _ _ _ s Ha).
Qed.

Lemma alcanzable_coherente (red : Red) (creds : list Credencial) (comms : list string)
    (st : Estado) :
  alcanzable red creds comms st -> inventario_coherente st.
Proof.
  unfold inventario_coherente.
  induction 1 as [st H|st filas _ IH|st ip0 _ IH|st _ IH].
  - rewrite H. constructor.
  - revert st IH. induction filas as [|[[i n] m] r IHf]; intros st IH; [exact IH|].
    cbn [cargar_olts_existentes]. rewrite bind_eq. apply IHf.
    cbn. apply Forall_setitem; [exact IH|apply coherente_nueva_olt].
  - rewrite verificar_ip_olts.
    destruct (fst (hallar red creds comms ip0 st)) as [o|] eqn:E; [|exact IH].
    apply Forall_setitem; [exact IH|]. apply (hallar_coherente _ _ _ _ _ _ E).
  - rewrite actualizar_todas_olts_eq. cbn [snd con_olts olts_detectadas].
    pose proof (actualizar_desde_refrescado red creds (olts_detectadas st) 0 st) as H2.
    induction H2 as [|a b l l' Hab _ IH2]; [constructor|].
    inversion IH; subst. constructor; [|apply IH2; assumption].
    apply (refrescado_coherente red creds a b Hab). assumption.
Qed.

Lemma suma_total_onus_coherente (d : dict OLTInfo) :
  Forall (fun kv => coherente (fst kv) (snd kv)) d ->
  suma_total_onus (valores d) = List.length (flat_map onus_detalladas (valores d)).
Proof.
  induction 1 as [|[k o] r (_ & Ht & _) _ IH]; [reflexivity|].
  cbn [valores map snd suma_total_onus flat_map] in *. cbn [snd] in Ht.
  rewrite length_app, Ht. unfold valores in IH. rewrite IH. reflexivity.
Qed.

(** X8. In every state the monitor goes through, each record of the
    inventory holds the address it is filed under, its [total_onus] is
    the number of its unit records and its counts by port are those of
    its units.  So the unit total of the statistics is the number of unit
    records of the inventory, and it bounds the low-signal count. *)
Theorem X8_inventario_coherente :
  forall red creds comms st,
    alcanzable red creds comms st ->
    inventario_coherente st /\
    e_total_onus (fst (obtener_estadisticas red st)) = List.length (todas_las_onus st) /\
    e_onus_senal_baja (fst (obtener_estadisticas red st)) <=
    e_total_onus (fst (obtener_estadisticas red st)).
Proof.
  intros red creds comms st H.
  pose proof (alcanzable_coherente red creds comms st H) as Hc.
  assert (Ht : e_total_onus (fst (obtener_estadisticas red st)) =
               List.length (todas_las_onus st)).
  { unfold obtener_estadisticas, todas_las_onus. cbn.
    apply suma_total_onus_coherente. exact Hc. }
  split; [exact Hc|]. split; [exact Ht|].
  rewrite Ht, estadisticas_senal_baja. apply filter_length_le.
Qed.

Lemma X8_inventario_coherente_testigo :
  inventario_coherente tras_descubrir /\
  e_total_onus (fst (obtener_estadisticas red_olt tras_descubrir)) =
  List.length (todas_las_onus tras_descubrir) /\
  e_onus_senal_baja (fst (obtener_estadisticas red_olt tras_descubrir)) <=
  e_total_onus (fst (obtener_estadisticas red_olt tras_descubrir)).
Proof.
  apply (X8_inventario_coherente red_olt [cred_A; cred_B] ["public"]).
  apply alc_verificar. apply alc_inicial. reflexivity.
Defined.

(** ** What a refresh pass changes *)

Lemma Forall2_nth_refrescado (red : Red) (creds : list Credencial) (d d' : dict OLTInfo) :
  Forall2 (refrescado red creds) d d' ->
  forall n k o, nth_error d n = Some (k, o) ->
                exists o', nth_error d' n = Some (k, o') /\
                           refrescado red creds (k, o) (k, o').
Proof.
  induction 1 as [|x y l l' Hxy _ IH]; intros n k o Hn.
  - destruct n; discriminate.
  - destruct n as [|n]; cbn [nth_error] in *.
    + injection Hn as ->. destruct y as [k' o']. pose proof Hxy as [Hk _].
      cbn [fst] in Hk. subst k'. exists o'. split; [reflexivity|exact Hxy].
    + apply IH. exact Hn.
Qed.

(** X9. A refresh pass never changes the record of a device that has a
    community string, whatever the device answers: the SNMP refresh only
    sends queries, so the temperature, the loads and the units of a
    device found by SNMP stay as they were. *)
Theorem X9_refresco_snmp_no_cambia :
  forall red creds st n k o,
    nth_error (olts_detectadas st) n = Some (k, o) ->
    snmp_community o <> None ->
    nth_error (olts_detectadas (snd (actualizar_todas_olts red creds st))) n =
    Some (k, o).
Proof.
  intros red creds st n k o Hn Hc. rewrite actualizar_todas_olts_eq.
  cbn [snd con_olts olts_detectadas].
  destruct (Forall2_nth_refrescado red creds _ _
              (actualizar_desde_refrescado red creds (olts_detectadas st) 0 st)
              n k o Hn) as (o' & Hn' & _ & Hr).
  rewrite Hn'. cbn [fst snd] in Hr.
  destruct (snmp_community o); [|contradiction]. cbn in Hr. subst o'. reflexivity.
Qed.

Lemma X9_refresco_snmp_no_cambia_testigo :
  nth_error (olts_detectadas
               (snd (actualizar_todas_olts red_en_cero [cred_B] inventario_snmp))) 0 =
  Some ("10.0.0.9", con_community "public" (nueva_olt "10.0.0.9" "OLT-9" "VSOL GPON")).
Proof.
  apply (X9_refresco_snmp_no_cambia red_en_cero [cred_B] inventario_snmp 0).
  - reflexivity.
  - discriminate.
Defined.

Lemma actualizar_desde_cuenta (red : Red) (creds : list Credencial) (items : dict OLTInfo) :
  forall n st,
    snd (fst (actualizar_desde red creds items n st)) =
    n + List.length (filter (refrescada red creds) items).
Proof.
  induction items as [|[k o] resto IH]; intros n st; [cbn; lia|].
  cbn [actualizar_desde filter]. unfold refrescada at 1. cbn [fst snd].
  rewrite refresco_snmp_community.
  destruct (snmp_community o) as [c|] eqn:Hc.
  - rewrite bind_eq, (actualizar_olt_snmp_eq red o c st Hc). cbn [fst snd].
    rewrite bind_par_fst. cbn [snd orb List.length]. rewrite IH. lia.
  - rewrite bind_eq. cbn [ret fst snd orb].
    destruct creds as [|cred creds'] eqn:Ecreds.
    + rewrite bind_par_fst. cbn [snd]. apply IH.
    + rewrite bind_eq, ssh_connect_eq. cbn [fst snd].
      destruct (red_connect red k cred).
      * cbv zeta. rewrite bind_eq. rewrite bind_eq. rewrite bind_par_fst.
        cbn [snd List.length]. rewrite IH. lia.
      * rewrite bind_par_fst. cbn [snd]. apply IH.
Qed.

(** X10. The number [actualizar_todas_olts] returns is the number of
    devices that have a community string or that accept a connection
    with the first configured credential; it never exceeds the number of
    devices of the inventory. *)
Theorem X10_cuenta_actualizadas :
  forall red creds st,
    fst (actualizar_todas_olts red creds st) =
    List.length (filter (refrescada red creds) (olts_detectadas st)) /\
    fst (actualizar_todas_olts red creds st) <= List.length (olts_detectadas st).
Proof.
  intros red creds st. rewrite actualizar_todas_olts_eq. cbn [fst].
  rewrite actualizar_desde_cuenta. split; [reflexivity|]. apply filter_length_le.
Qed.

(** ** The database only grows *)

Lemma prefijo_refl {A : Type} (l : list A) : prefijo l l.
Proof. exists []. symmetry. apply app_nil_r. Qed.

Lemma prefijo_trans {A : Type} (a b c : list A) :
  prefijo a b -> prefijo b c -> prefijo a c.
Proof. intros [x ->] [y ->]. exists (x ++ y). symmetry. apply app_assoc. Qed.

Lemma crece_refl (st : Estado) : crece st st.
Proof. repeat split; first [apply incl_refl | apply prefijo_refl]. Qed.

Lemma crece_trans (a b c : Estado) : crece a b -> crece b c -> crece a c.
Proof.
  intros (H1 & H2 & H3 & H4) (K1 & K2 & K3 & K4).
  repeat split; first [eapply incl_tran; eassumption | eapply prefijo_trans; eassumption].
Qed.

Lemma crece_db (a b : Estado) : db b = db a -> crece a b.
Proof.
  intros H. unfold crece. rewrite H.
  repeat split; first [apply incl_refl | apply prefijo_refl].
Qed.

Lemma crece_guardar_olt (red : Red) (o : OLTInfo) : respeta crece (guardar_olt red o).
Proof.
  intros st. rewrite guardar_olt_eq. cbn [snd].
  destruct (red_db red (S (tic st))); [|apply crece_db; reflexivity].
  unfold crece. cbn.
  repeat split; try apply incl_refl; try apply prefijo_refl.
  apply claves_setitem_contiene.
Qed.

Lemma crece_guardar_onu (red : Red) (o : ONUInfo) (i : string) :
  respeta crece (guardar_onu red o i).
Proof.
  intros st. rewrite guardar_onu_eq. cbn [snd].
  destruct (red_db red (tic st)); [|apply crece_db; reflexivity].
  unfold crece. cbn.
  repeat split; try apply incl_refl; try apply prefijo_refl.
  apply claves_setitem_contiene.
Qed.

Lemma crece_guardar_metrica (red : Red) (i t : string) (v : spec_float) :
  respeta crece (guardar_metrica red i t v).
Proof.
  intros st. rewrite guardar_metrica_eq. cbn [snd].
  destruct (red_db red (S (tic st))); [|apply crece_db; reflexivity].
  unfold crece. cbn.
  repeat split; try apply incl_refl; try apply prefijo_refl.
  eexists. reflexivity.
Qed.

Lemma crece_guardar_trafico (red : Red) (i s : string) (a b : Z) :
  respeta crece (guardar_trafico red i s a b).
Proof.
  intros st. rewrite guardar_trafico_eq. cbn [snd].
  destruct (red_db red (tic st)); [|apply crece_db; reflexivity].
  unfold crece. cbn.
  repeat split; try apply incl_refl; try apply prefijo_refl.
  eexists. reflexivity.
Qed.

Ltac sin_db := intros; intros ?st; apply crece_db; reflexivity.

Lemma crece_actualizar_informacion_olt (red : Red) (ssh : SSHClient) (o : OLTInfo) :
  respeta crece (actualizar_informacion_olt red ssh o).
Proof.
  apply (respeta_actualizar_informacion_olt crece crece_refl crece_trans);
    first [ apply crece_guardar_onu | apply crece_guardar_trafico
          | apply crece_guardar_metrica | sin_db ].
Qed.

Lemma crece_identificar (red : Red) (creds : list Credencial) (i : string) :
  respeta crece (identificar_olt_vsol red creds i).
Proof.
  apply (respeta_identificar_desde crece crece_refl crece_trans);
    first [ apply crece_guardar_onu | apply crece_guardar_trafico
          | apply crece_guardar_metrica | sin_db ].
Qed.

Lemma crece_probar (red : Red) (comms : list string) (i : string) :
  respeta crece (probar_snmp_olt red comms i).
Proof.
  apply (respeta_probar_snmp_desde crece crece_refl crece_trans); sin_db.
Qed.

Lemma crece_verificar_ip (red : Red) (creds : list Credencial) (comms : list string)
    (i : string) : respeta crece (verificar_ip red creds comms i).
Proof.
  apply (respeta_verificar_ip crece crece_refl crece_trans);
    first [ apply crece_probar | apply crece_identificar | apply crece_guardar_olt
          | sin_db ].
Qed.

Lemma crece_actualizar_desde (red : Red) (creds : list Credencial)
    (items : dict OLTInfo) (n : nat) :
  respeta crece (actualizar_desde red creds items n).
Proof.
  apply (respeta_actualizar_desde crece crece_refl crece_trans);
    first [ apply crece_guardar_onu | apply crece_guardar_trafico
          | apply crece_guardar_metrica | sin_db ].
Qed.

(** X11. Neither an identification task, nor a scan pass, nor a refresh
    pass ever removes anything from the database: the devices and the
    units of the tables stay in them, and the metric and traffic rows
    written before are the first rows afterwards. *)
Theorem X11_base_de_datos_crece :
  forall red creds comms st,
    (forall i, crece st (snd (verificar_ip red creds comms i st))) /\
    (forall ips, crece st (snd (escanear_direcciones red creds comms ips st))) /\
    (forall rangos, crece st (snd (escanear_red_empresarial red creds comms rangos st))) /\
    crece st (snd (actualizar_todas_olts red creds st)).
Proof.
  intros red creds comms st.
  assert (Hips : forall ips, crece st (snd (escanear_direcciones red creds comms ips st))).
  { intros ips.
    apply (respeta_escanear_direcciones crece crece_refl crece_trans);
      first [ apply crece_probar | apply crece_identificar | apply crece_guardar_olt
            | sin_db ]. }
  split; [|split; [|split]].
  - intros i. apply crece_verificar_ip.
  - exact Hips.
  - intros rangos. rewrite escanear_red_empresarial_eq. apply Hips.
  - rewrite actualizar_todas_olts_eq. cbn [snd].
    eapply crece_trans; [apply crece_actualizar_desde|]. apply crece_db. reflexivity.
Qed.

Lemma misma_tabla_refl (st : Estado) : misma_tabla_olts st st.
Proof. reflexivity. Qed.

Lemma misma_tabla_trans (a b c : Estado) :
  misma_tabla_olts a b -> misma_tabla_olts b c -> misma_tabla_olts a c.
Proof. unfold misma_tabla_olts. intros H K. rewrite K. exact H. Qed.

(** X12. A refresh pass never writes the devices table: the rows of the
    devices, with their names, models and update time, are after the
    pass the rows of before, however many devices were refreshed. *)
Theorem X12_refresco_no_guarda_olt :
  forall red creds st,
    olts (db (snd (actualizar_todas_olts red creds st))) = olts (db st).
Proof.
  intros red creds st. rewrite actualizar_todas_olts_eq. cbn [snd].
  change (misma_tabla_olts st
            (snd (actualizar_desde red creds (olts_detectadas st) 0 st))).
  apply (respeta_actualizar_desde misma_tabla_olts misma_tabla_refl misma_tabla_trans);
    first [escritura | intros; intros ?st; reflexivity].
Qed.

(** ** Sessions are closed *)

Lemma equilibrado_refl (red : Red) (st : Estado) : equilibrado red st st.
Proof. exists []. split; symmetry; apply app_nil_r. Qed.

Lemma equilibrado_trans (red : Red) (a b c : Estado) :
  equilibrado red a b -> equilibrado red b c -> equilibrado red a c.
Proof.
  intros (X & H1 & H2) (Y & K1 & K2). exists (X ++ Y).
  rewrite K1, K2, H1, H2, !app_assoc. split; reflexivity.
Qed.

Lemma equilibrado_trazas (red : Red) (a b : Estado) :
  traza (ev_abre red) b = traza (ev_abre red) a ->
  traza ev_cierra b = traza ev_cierra a ->
  equilibrado red a b.
Proof. intros H K. exists []. rewrite H, K, !app_nil_r. split; reflexivity. Qed.

Ltac sin_sesion :=
  intros; intros ?st; apply equilibrado_trazas; reflexivity.

Lemma equilibrado_anota (red : Red) (ev : Evento) (st : Estado) :
  ev_abre red ev = [] -> ev_cierra ev = [] -> equilibrado red st (anota ev st).
Proof.
  intros H K. apply equilibrado_trazas; rewrite traza_anota, ?H, ?K; apply app_nil_r.
Qed.

Lemma equilibrado_ejecutar (red : Red) (ssh : SSHClient) (c : string) :
  respeta (equilibrado red) (ejecutar_comando red ssh c).
Proof.
  intros st. rewrite ejecutar_comando_eq. apply equilibrado_anota; reflexivity.
Qed.

(** One session: a connection that succeeds, a body that opens and
    closes no session, and the closing. *)
Lemma sesion_equilibrada (red : Red) (i : string) (c : Credencial) (st s2 : Estado) :
  red_connect red i c = true ->
  traza (ev_abre red) s2 = traza (ev_abre red) (anota (EvConnect i c) st) ->
  traza ev_cierra s2 = traza ev_cierra (anota (EvConnect i c) st) ->
  equilibrado red st (anota (EvClose i c) s2).
Proof.
  intros Hc H1 H2. exists [(i, c)].
  rewrite !traza_anota, H1, H2, !traza_anota. cbn [ev_abre ev_cierra]. rewrite Hc.
  rewrite !app_nil_r. split; reflexivity.
Qed.

Lemma conexion_fallida (red : Red) (i : string) (c : Credencial) (st : Estado) :
  red_connect red i c = false -> equilibrado red st (anota (EvConnect i c) st).
Proof.
  intros Hc. apply equilibrado_anota; [|reflexivity]. cbn. rewrite Hc. reflexivity.
Qed.

Lemma trazas_cuerpo_refresco (red : Red) (ssh : SSHClient) (o : OLTInfo) (st : Estado) :
  traza (ev_abre red) (snd (actualizar_informacion_olt red ssh o st)) =
  traza (ev_abre red) st /\
  traza ev_cierra (snd (actualizar_informacion_olt red ssh o st)) = traza ev_cierra st.
Proof.
  split.
  - apply (traza_actualizar_informacion_olt (ev_abre red) red (fun _ _ _ => eq_refl)).
  - apply (traza_actualizar_informacion_olt ev_cierra red (fun _ _ _ => eq_refl)).
Qed.

Lemma equilibrado_identificar_desde (red : Red) (ip0 : string) (creds : list Credencial) :
  respeta (equilibrado red) (identificar_desde red ip0 creds).
Proof.
  induction creds as [|c r IH]; intros st; [apply equilibrado_refl|].
  cbn [identificar_desde]. rewrite bind_eq, ssh_connect_eq. cbn [fst snd].
  destruct (red_connect red ip0 c) eqn:Hc.
  - cbv zeta.
    repeat (progress (rewrite ?bind_eq, ?ejecutar_comando_eq; cbn [fst snd])).
    destruct (es_olt_vsol _).
    + rewrite !bind_eq. cbn [ret snd ssh_close modifica ssh_ip ssh_cred].
      apply sesion_equilibrada; [exact Hc| |].
      * rewrite (proj1 (trazas_cuerpo_refresco red _ _ _)),
                (traza_extraer_nombre_sistema (ev_abre red) red), !traza_anota.
        cbn [ev_abre]. rewrite !app_nil_r. reflexivity.
      * rewrite (proj2 (trazas_cuerpo_refresco red _ _ _)),
                (traza_extraer_nombre_sistema ev_cierra red), !traza_anota.
        cbn [ev_cierra]. rewrite !app_nil_r. reflexivity.
    + rewrite !bind_eq. cbn [snd ssh_close modifica ssh_ip ssh_cred].
      eapply equilibrado_trans; [|apply IH].
      apply sesion_equilibrada; [exact Hc| |];
        rewrite !traza_anota; cbn [ev_abre ev_cierra]; rewrite !app_nil_r; reflexivity.
  - eapply equilibrado_trans; [apply conexion_fallida; exact Hc|apply IH].
Qed.

Lemma equilibrado_tras_snmp (red : Red) (i c : string) (st : Estado) :
  equilibrado red st (tras_snmp i c st).
Proof.
  apply equilibrado_trazas; unfold tras_snmp; rewrite !traza_anota; cbn;
    rewrite !app_nil_r; reflexivity.
Qed.

Lemma equilibrado_actualizar_desde (red : Red) (creds : list Credencial)
    (items : dict OLTInfo) :
  forall n, respeta (equilibrado red) (actualizar_desde red creds items n).
Proof.
  induction items as [|[k o] resto IH]; intros n st; [apply equilibrado_refl|].
  cbn [actualizar_desde].
  destruct (snmp_community o) as [c|] eqn:Hc.
  - rewrite bind_eq, (actualizar_olt_snmp_eq red o c st Hc). cbn [fst snd].
    rewrite bind_par_snd.
    eapply equilibrado_trans; [apply equilibrado_tras_snmp|apply IH].
  - rewrite bind_eq. cbn [ret fst snd].
    destruct creds as [|cred creds'] eqn:Ecreds.
    + rewrite bind_par_snd. apply IH.
    + rewrite bind_eq, ssh_connect_eq. cbn [fst snd].
      destruct (red_connect red k cred) eqn:Hk.
      * cbv zeta. rewrite bind_eq. rewrite bind_eq.
        unfold ssh_close at 1, modifica at 1. cbn [fst snd ssh_ip ssh_cred].
        rewrite bind_par_snd.
        eapply equilibrado_trans; [|apply IH].
        apply sesion_equilibrada; [exact Hk|apply trazas_cuerpo_refresco..].
      * rewrite bind_par_snd.
        eapply equilibrado_trans; [apply conexion_fallida; exact Hk|apply IH].
Qed.

Lemma equilibrado_verificar_ip (red : Red) (creds : list Credencial)
    (comms : list string) (i : string) :
  respeta (equilibrado red) (verificar_ip red creds comms i).
Proof.
  assert (Hp : forall i, respeta (equilibrado red) (probar_snmp_olt red comms i)).
  { intros j.
    apply (respeta_probar_snmp_desde (equilibrado red)
             (equilibrado_refl red) (equilibrado_trans red)).
    intros; intros ?st; apply equilibrado_anota; reflexivity. }
  apply (respeta_verificar_ip (equilibrado red)
           (equilibrado_refl red) (equilibrado_trans red));
    first [ exact Hp | intros; apply equilibrado_identificar_desde
          | intros; intros ?st; apply equilibrado_anota; reflexivity
          | intros; intros ?st; apply equilibrado_trazas;
            rewrite guardar_olt_eq; cbn [snd]; destruct (red_db _ _); reflexivity
          | sin_sesion ].
Qed.

Lemma compensado_refl (red : Red) (st : Estado) : compensado red st st.
Proof. exists [], []. rewrite !app_nil_r. repeat split. constructor. Qed.

Lemma compensado_trans (red : Red) (a b c : Estado) :
  compensado red a b -> compensado red b c -> compensado red a c.
Proof.
  intros (X & Y & H1 & H2 & H3) (X' & Y' & K1 & K2 & K3).
  exists (X ++ X'), (Y ++ Y'). rewrite K1, K2, H1, H2, <- !app_assoc.
  repeat split. apply Permutation_app; assumption.
Qed.

Lemma equilibrado_compensado (red : Red) (a b : Estado) :
  equilibrado red a b -> compensado red a b.
Proof. intros (X & H1 & H2). exists X, X. repeat split; try assumption. apply Permutation_refl. Qed.

Lemma compensado_escanear_direcciones (red : Red) (creds : list Credencial)
    (comms : list string) (ips : list string) :
  forall st, compensado red st (snd (escanear_direcciones red creds comms ips st)).
Proof.
  induction ips as [|x r IH]; intros st; [apply compensado_refl|].
  cbn [escanear_direcciones]. rewrite bind_eq.
  eapply compensado_trans; [|apply IH].
  apply equilibrado_compensado, equilibrado_verificar_ip.
Qed.

(** X13. Every session the monitor opens it closes.  Over a run of the
    shell prober, of the task of a pass for one address and of a refresh
    pass, which each run in one thread, the connections that succeeded
    and the sessions closed are the same, in the same order.  Over a
    scan pass, whose tasks run in worker threads, they are the same with
    their order set aside. *)
Theorem X13_sesiones_cerradas :
  forall red creds comms st,
    (forall i, equilibrado red st (snd (identificar_olt_vsol red creds i st))) /\
    (forall i, equilibrado red st (snd (verificar_ip red creds comms i st))) /\
    (forall rangos,
       compensado red st (snd (escanear_red_empresarial red creds comms rangos st))) /\
    equilibrado red st (snd (actualizar_todas_olts red creds st)).
Proof.
  intros red creds comms st.
  split; [|split; [|split]].
  - intros i. apply equilibrado_identificar_desde.
  - intros i. apply equilibrado_verificar_ip.
  - intros rangos. rewrite escanear_red_empresarial_eq. cbn [snd].
    apply compensado_escanear_direcciones.
  - rewrite actualizar_todas_olts_eq. cbn [snd].
    eapply equilibrado_trans; [apply equilibrado_actualizar_desde|].
    apply equilibrado_trazas; reflexivity.
Qed.

(** ** Views kept by the probers *)

Lemma igual_en_refl {X : Type} (f : Estado -> X) (st : Estado) : igual_en f st st.
Proof. reflexivity. Qed.

Lemma igual_en_trans {X : Type} (f : Estado -> X) (a b c : Estado) :
  igual_en f a b -> igual_en f b c -> igual_en f a c.
Proof. unfold igual_en. intros H K. rewrite K. exact H. Qed.

Lemma traza_identificar_desde {T : Type} (h : Evento -> list T) (red : Red)
    (ip0 : string) (creds : list Credencial) (st : Estado) :
  (forall i c, h (EvConnect i c) = []) ->
  (forall i c cmd, h (EvExec i c cmd) = []) ->
  (forall i c, h (EvClose i c) = []) ->
  traza h (snd (identificar_desde red ip0 creds st)) = traza h st.
Proof.
  intros H1 H2 H3.
  apply (respeta_identificar_desde (igual_en (traza h))
           (igual_en_refl _) (igual_en_trans _));
    intros; intros ?s; unfold igual_en;
    first [ reflexivity
          | rewrite ?guardar_onu_eq, ?guardar_metrica_eq, ?guardar_trafico_eq;
            cbn [snd]; destruct (red_db _ _); reflexivity
          | rewrite ejecutar_comando_eq; cbn [snd]; rewrite traza_anota, H2; apply app_nil_r
          | rewrite ssh_connect_eq; cbn [snd]; rewrite traza_anota, H1; apply app_nil_r
          | unfold ssh_close, modifica; cbn [snd]; rewrite traza_anota, H3; apply app_nil_r ].
Qed.

Lemma traza_probar_snmp_desde {T : Type} (h : Evento -> list T) (red : Red)
    (ip0 : string) (cs : list string) (st : Estado) :
  (forall i oid c, h (EvSnmpGet i oid c) = []) ->
  traza h (snd (probar_snmp_desde red ip0 cs st)) = traza h st.
Proof.
  intros H1.
  apply (respeta_probar_snmp_desde (igual_en (traza h))
           (igual_en_refl _) (igual_en_trans _)).
  intros; intros ?s; unfold igual_en.
  rewrite snmp_get_eq; cbn [snd]; rewrite traza_anota, H1; apply app_nil_r.
Qed.

Lemma probar_snmp_desde_consultas (red : Red) (ip0 : string) (cs : list string) :
  forall st,
    consultas (snd (probar_snmp_desde red ip0 cs st)) =
    consultas st ++ map (pair ip0) (comunidades_consultadas (acepta red ip0) cs).
Proof.
  induction cs as [|c r IH]; intros st; [symmetry; apply app_nil_r|].
  cbn [probar_snmp_desde comunidades_consultadas].
  rewrite bind_eq, snmp_get_eq. cbn [fst snd]. unfold acepta at 1.
  assert (Hno : consultas (snd (probar_snmp_desde red ip0 r
                  (anota (EvSnmpGet ip0 "1.3.6.1.2.1.1.1.0" c) st))) =
                consultas st ++
                map (pair ip0) (c :: comunidades_consultadas (acepta red ip0) r)).
  { rewrite IH. unfold consultas. rewrite traza_anota. cbn. rewrite <- app_assoc.
    reflexivity. }
  destruct (red_snmp_get red ip0 "1.3.6.1.2.1.1.1.0" c) as [d|]; [|exact Hno].
  destruct (marca_snmp d) eqn:Hm.
  - rewrite (marca_snmp_verdad d Hm). cbn [andb].
    rewrite bind_eq, snmp_get_eq. cbn [fst snd ret].
    unfold consultas. rewrite !traza_anota. cbn. rewrite <- app_assoc. reflexivity.
  - rewrite andb_false_r. exact Hno.
Qed.

Lemma length_comunidades_consultadas (p : string -> bool) (cs : list string) :
  List.length (comunidades_consultadas p cs) <= S (List.length cs).
Proof. induction cs as [|c r IH]; cbn; [lia|]. destruct (p c); cbn; lia. Qed.

(** X14. The SNMP prober only sends SNMP queries, all of them to the
    address probed: one per community up to the first accepted one and
    a second one, for the system name, to that community; so at most one
    more than there are communities.  It probes no port and attempts no
    shell connection.  The candidate it builds has a name that is not
    empty and a model of at most 50 characters. *)
Theorem X14_consultas_del_prober :
  forall red comms ip0 st,
    consultas (snd (probar_snmp_olt red comms ip0 st)) =
    consultas st ++ map (pair ip0) (comunidades_consultadas (acepta red ip0) comms) /\
    List.length (comunidades_consultadas (acepta red ip0) comms) <= S (List.length comms) /\
    conexiones (snd (probar_snmp_olt red comms ip0 st)) = conexiones st /\
    puertos (snd (probar_snmp_olt red comms ip0 st)) = puertos st /\
    (forall c, si_nombre (candidato red ip0 c) <> "" /\
               String.length (si_modelo (candidato red ip0 c)) <= 50 /\
               si_ip (candidato red ip0 c) = ip0).
Proof.
  intros red comms ip0 st. split; [|split; [|split; [|split]]].
  - apply probar_snmp_desde_consultas.
  - apply length_comunidades_consultadas.
  - apply traza_probar_snmp_desde. reflexivity.
  - apply traza_probar_snmp_desde. reflexivity.
  - intros c. split; [|split].
    + cbn [candidato si_nombre]. apply o_bien_no_vacio. discriminate.
    + apply length_hasta.
    + reflexivity.
Qed.

(** ** What the shell identifier returns *)

Lemma nombre_sistema_no_vacio (red : Red) (s : string) (st : Estado) :
  fst (extraer_nombre_sistema red s st) <> "".
Proof.
  unfold extraer_nombre_sistema.
  destruct (extraer_nombre_lineas (Py.split_sep salto s)) as [n|] eqn:E.
  - cbn. apply (extraer_nombre_lineas_token _ _ E).
  - cbn. discriminate.
Qed.

Lemma identificar_desde_resultado (red : Red) (ip0 : string) (creds : list Credencial) :
  forall st,
    match fst (identificar_desde red ip0 creds st) with
    | Some o =>
        exists c, find (reconocida red ip0) creds = Some c /\
                  modelo o = extraer_modelo (salida red (sesion ip0 c) "show version") /\
                  nombre o <> ""
    | None => find (reconocida red ip0) creds = None
    end.
Proof.
  induction creds as [|c r IH]; intros st; [reflexivity|].
  cbn [identificar_desde find]. unfold reconocida at 1 3.
  rewrite bind_eq, ssh_connect_eq. cbn [fst snd].
  destruct (red_connect red ip0 c); cbn [andb]; [|apply IH].
  cbv zeta. fold (sesion ip0 c).
  repeat (progress (rewrite ?bind_eq, ?ejecutar_comando_eq; cbn [fst snd])).
  destruct (es_olt_vsol (salida red (sesion ip0 c) "show version")).
  - rewrite !bind_eq. cbn [ret fst].
    match goal with
    | |- context [actualizar_informacion_olt red ?ssh ?o0 ?s] =>
        destruct (actualizar_informacion_olt_coherente red ssh ip0 o0 s
                    (coherente_nueva_olt _ _ _)) as (_ & _ & H3 & H4)
    end.
    exists c. split; [reflexivity|]. split.
    + rewrite H4. reflexivity.
    + rewrite H3. cbn [nueva_olt nombre]. apply nombre_sistema_no_vacio.
  - rewrite !bind_eq. apply IH.
Qed.

(** X15. [identificar_olt_vsol] returns a record exactly when some
    credential of the list connects to a device whose version output
    carries a marker.  The record is then that of the first such
    credential: its model is read from the version output of that
    session, its name is not empty, it carries the address probed and no
    SNMP community, and its total is the number of its unit records.
    The identifier sends no SNMP query and probes no port. *)
Theorem X15_identificacion_por_consola :
  forall red creds ip0 st,
    match fst (identificar_olt_vsol red creds ip0 st) with
    | Some o =>
        exists c, find (reconocida red ip0) creds = Some c /\
                  modelo o = extraer_modelo (salida red (sesion ip0 c) "show version") /\
                  nombre o <> "" /\ coherente ip0 o /\ snmp_community o = None
    | None => find (reconocida red ip0) creds = None
    end /\
    consultas (snd (identificar_olt_vsol red creds ip0 st)) = consultas st /\
    puertos (snd (identificar_olt_vsol red creds ip0 st)) = puertos st.
Proof.
  intros red creds ip0 st. unfold identificar_olt_vsol. split; [|split].
  - pose proof (identificar_desde_resultado red ip0 creds st) as H.
    destruct (fst (identificar_desde red ip0 creds st)) as [o|] eqn:E; [|exact H].
    destruct H as (c & H1 & H2 & H3).
    destruct (identificar_desde_coherente red ip0 creds st o E) as [H4 H5].
    exists c. repeat split; try assumption; apply H4.
  - apply traza_identificar_desde; reflexivity.
  - apply traza_identificar_desde; reflexivity.
Qed.

(** ** The task of a pass, step by step *)

Lemma verificar_ip_eq (red : Red) (creds : list Credencial) (comms : list string)
    (ip0 : string) (st : Estado) :
  snd (verificar_ip red creds comms ip0 st) =
  match fst (hallar red creds comms ip0 st) with
  | Some o =>
      snd (guardar_olt red o
             (snd (asigna ip0 o (snd (hallar red creds comms ip0 st)))))
  | None => snd (hallar red creds comms ip0 st)
  end.
Proof.
  unfold verificar_ip, hallar. rewrite !bind_eq.
  destruct (fst (probar_snmp_olt red comms ip0 st)) as [info|].
  - rewrite !bind_eq. reflexivity.
  - rewrite !bind_eq. cbn [puerto_abierto bind modifica ret fst snd].
    destruct (red_puerto red ip0 22); [|reflexivity].
    rewrite bind_eq.
    destruct (fst (identificar_olt_vsol red creds ip0 _)) as [o|].
    + rewrite !bind_eq. reflexivity.
    + reflexivity.
Qed.

Lemma traza_verificar_ip {T : Type} (h : Evento -> list T) (red : Red)
    (creds : list Credencial) (comms : list string) (ip0 : string) (st : Estado) :
  traza h (snd (verificar_ip red creds comms ip0 st)) =
  traza h (snd (hallar red creds comms ip0 st)).
Proof.
  rewrite verificar_ip_eq.
  destruct (fst (hallar red creds comms ip0 st)); [|reflexivity].
  rewrite guardar_olt_eq. cbn [snd]. destruct (red_db _ _); reflexivity.
Qed.

Lemma find_existsb {A : Type} (p : A -> bool) (l : list A) :
  existsb p l = match find p l with Some _ => true | None => false end.
Proof. induction l as [|x r IH]; cbn; [reflexivity|]. destruct (p x); [reflexivity|exact IH]. Qed.

Lemma verificar_ip_trazas :
  forall red creds comms ip0 st,
    consultas (snd (verificar_ip red creds comms ip0 st)) =
    consultas st ++ map (pair ip0) (comunidades_consultadas (acepta red ip0) comms) /\
    puertos (snd (verificar_ip red creds comms ip0 st)) =
    puertos st ++ (if existsb (acepta red ip0) comms then [] else [(ip0, 22%Z)]) /\
    conexiones (snd (verificar_ip red creds comms ip0 st)) =
    conexiones st ++
    (if existsb (acepta red ip0) comms then []
     else if red_puerto red ip0 22 then
            map (pair ip0) (hasta_primero (reconocida red ip0) creds)
          else []).
Proof.
  intros red creds comms ip0 st.
  unfold consultas, puertos, conexiones. rewrite !traza_verificar_ip.
  rewrite find_existsb.
  unfold hallar. rewrite bind_eq. unfold probar_snmp_olt.
  rewrite probar_snmp_desde_fst.
  pose proof (probar_snmp_desde_consultas red ip0 comms st) as Hc.
  pose proof (traza_probar_snmp_desde ev_puerto red ip0 comms st
                (fun _ _ _ => eq_refl)) as Hp.
  pose proof (traza_probar_snmp_desde ev_conexion red ip0 comms st
                (fun _ _ _ => eq_refl)) as Hx.
  unfold consultas in Hc.
  destruct (find (acepta red ip0) comms) as [c|]; cbn [option_map].
  - cbn [ret snd]. rewrite Hc, Hp, Hx, !app_nil_r. repeat split.
  - rewrite bind_eq. cbn [puerto_abierto bind modifica ret fst snd].
    destruct (red_puerto red ip0 22).
    + unfold identificar_olt_vsol.
      rewrite (traza_identificar_desde ev_snmp) by reflexivity.
      rewrite (traza_identificar_desde ev_puerto) by reflexivity.
      pose proof (identificar_desde_conexiones red ip0 creds) as Hi.
      unfold conexiones in Hi. rewrite Hi.
      rewrite !traza_anota, Hc, Hp, Hx. cbn [ev_snmp ev_puerto ev_conexion].
      rewrite !app_nil_r. repeat split.
    + cbn [ret snd]. rewrite !traza_anota, Hc, Hp, Hx. cbn [ev_snmp ev_puerto ev_conexion].
      rewrite !app_nil_r. repeat split.
Qed.

(** X16. The task of a pass probes an address in a fixed order.  It
    first sends the SNMP queries of the prober.  Only when no community
    is accepted does it probe port 22, and only when that port is open
    does it attempt shell connections: with the credentials in order up
    to the first that is recognised.  It probes no other port and no
    other address. *)
Theorem X16_orden_de_sondeo :
  forall red creds comms ip0 st,
    consultas (snd (verificar_ip red creds comms ip0 st)) =
    consultas st ++ map (pair ip0) (comunidades_consultadas (acepta red ip0) comms) /\
    puertos (snd (verificar_ip red creds comms ip0 st)) =
    puertos st ++ (if existsb (acepta red ip0) comms then [] else [(ip0, 22%Z)]) /\
    conexiones (snd (verificar_ip red creds comms ip0 st)) =
    conexiones st ++
    (if existsb (acepta red ip0) comms then []
     else if red_puerto red ip0 22 then
            map (pair ip0) (hasta_primero (reconocida red ip0) creds)
          else []).
Proof. exact verificar_ip_trazas. Qed.

(** ** The database follows the inventory *)

Lemma tabla_olts_hallar (red : Red) (creds : list Credencial) (comms : list string)
    (ip0 : string) (st : Estado) :
  olts (db (snd (hallar red creds comms ip0 st))) = olts (db st).
Proof.
  unfold hallar. rewrite bind_eq. unfold probar_snmp_olt.
  assert (Hp : olts (db (snd (probar_snmp_desde red ip0 comms st))) = olts (db st)).
  { apply (respeta_probar_snmp_desde misma_tabla_olts misma_tabla_refl misma_tabla_trans).
    first [escritura | intros; intros ?s; reflexivity]. }
  destruct (fst (probar_snmp_desde red ip0 comms st)) as [info|].
  - cbn [ret snd]. exact Hp.
  - rewrite bind_eq. cbn [puerto_abierto bind modifica ret fst snd].
    destruct (red_puerto red ip0 22); [|exact Hp].
    unfold identificar_olt_vsol.
    match goal with
    | |- olts (db (snd (identificar_desde red ip0 creds ?s))) = _ =>
        assert (Hi : olts (db (snd (identificar_desde red ip0 creds s))) = olts (db s))
    end.
    { apply (respeta_identificar_desde misma_tabla_olts misma_tabla_refl misma_tabla_trans);
        first [escritura | intros; intros ?s; reflexivity]. }
    rewrite Hi. exact Hp.
Qed.

(** X17. When the task of a pass finds a record at an address, the
    inventory holds that record under the address.  The table of
    devices of the database holds its name and model under the same
    address when the database accepts the write; when it refuses, the
    table is as before and the device is in the inventory only.  When
    the task finds no record, neither the inventory nor the table of
    devices changes. *)
Theorem X17_base_refleja_inventario :
  forall red creds comms ip0 st,
    match fst (hallar red creds comms ip0 st) with
    | Some o =>
        get (olts_detectadas (snd (verificar_ip red creds comms ip0 st))) ip0 = Some o /\
        olts (db (snd (verificar_ip red creds comms ip0 st))) =
        (if red_db red (S (tic (snd (hallar red creds comms ip0 st)))) then
           setitem ip0
             (nombre o, modelo o,
              red_reloj red (tic (snd (hallar red creds comms ip0 st))))
             (olts (db st))
         else olts (db st))
    | None =>
        olts_detectadas (snd (verificar_ip red creds comms ip0 st)) = olts_detectadas st /\
        olts (db (snd (verificar_ip red creds comms ip0 st))) = olts (db st)
    end /\
    ((forall k, red_db red k = true) ->
     forall o, fst (hallar red creds comms ip0 st) = Some o ->
               exists t,
                 get (olts (db (snd (verificar_ip red creds comms ip0 st)))) ip0 =
                 Some (nombre o, modelo o, t)).
Proof.
  intros red creds comms ip0 st.
  pose proof (verificar_ip_olts red creds comms ip0 st) as Ho.
  pose proof (verificar_ip_eq red creds comms ip0 st) as He.
  pose proof (tabla_olts_hallar red creds comms ip0 st) as Hd.
  assert (Hs : forall o,
             fst (hallar red creds comms ip0 st) = Some o ->
             olts (db (snd (verificar_ip red creds comms ip0 st))) =
             (if red_db red (S (tic (snd (hallar red creds comms ip0 st)))) then
                setitem ip0
                  (nombre o, modelo o,
                   red_reloj red (tic (snd (hallar red creds comms ip0 st))))
                  (olts (db st))
              else olts (db st))).
  { intros o E. rewrite E in He. rewrite He, guardar_olt_eq. cbn [snd asigna modifica].
    destruct (hallar_coherente red creds comms ip0 st o E) as [Hip _].
    cbn [tic con_olts]. destruct (red_db red _).
    - cbn. rewrite Hd, Hip. reflexivity.
    - cbn. exact Hd. }
  split.
  - destruct (fst (hallar red creds comms ip0 st)) as [o|] eqn:E.
    + split.
      * rewrite Ho, get_setitem, String.eqb_refl. reflexivity.
      * apply Hs. reflexivity.
    + split; [exact Ho|]. rewrite He. exact Hd.
  - intros Hk o E. rewrite (Hs o E), Hk. eexists.
    rewrite get_setitem, String.eqb_refl. reflexivity.
Qed.

Lemma X17_base_refleja_inventario_testigo :
  exists o t,
    fst (hallar red_olt [cred_A; cred_B] ["public"] "10.0.0.7" estado_inicial) = Some o /\
    get (olts (db tras_descubrir)) "10.0.0.7" = Some (nombre o, modelo o, t).
Proof.
  pose proof (proj2 (X17_base_refleja_inventario red_olt [cred_A; cred_B] ["public"]
                       "10.0.0.7" estado_inicial) (fun k => eq_refl)) as H.
  destruct (fst (hallar red_olt [cred_A; cred_B] ["public"] "10.0.0.7" estado_inicial))
    as [o|] eqn:E.
  - destruct (H o eq_refl) as [t Ht]. exists o, t. split; [reflexivity|exact Ht].
  - vm_compute in E. discriminate.
Defined.

(** ** Loading the devices of the database *)

Lemma setitem_nuevo {V : Type} (k : string) (v : V) (d : dict V) :
  ~ In k (claves d) -> setitem k v d = d ++ [(k, v)].
Proof.
  induction d as [|[k0 v0] r IH]; simpl; [reflexivity|].
  intros H. destruct (String.eqb_spec k k0) as [->|Hk]; [tauto|].
  rewrite IH; [reflexivity|tauto].
Qed.

Lemma NoDup_get_in {V : Type} (d : dict V) (k : string) (v : V) :
  NoDup (claves d) -> In (k, v) d -> get d k = Some v.
Proof.
  induction d as [|[k0 v0] r IH]; cbn; [intros _ []|].
  intros H [Hin|Hin].
  - injection Hin as -> ->. rewrite String.eqb_refl. reflexivity.
  - apply NoDup_cons_iff in H as [Hk Hr].
    destruct (String.eqb_spec k k0) as [->|Hne].
    + exfalso. apply Hk. apply in_map_iff. exists (k0, v). split; [reflexivity|exact Hin].
    + apply IH; assumption.
Qed.

Lemma cargar_olts_existentes_eq (filas : list (string * string * string)) :
  forall st,
    cargar_olts_existentes filas st =
    (tt, con_olts (fun d => fold_left (fun d f => setitem (ip_fila f) (olt_de_fila f) d)
                                      filas d) st).
Proof.
  induction filas as [|[[i n] m] r IH]; intros st.
  - destruct st; reflexivity.
  - cbn [cargar_olts_existentes]. rewrite bind_eq, IH. destruct st; reflexivity.
Qed.

Lemma cargar_nuevas (filas : list (string * string * string)) :
  forall d,
    NoDup (claves d ++ map ip_fila filas) ->
    fold_left (fun d f => setitem (ip_fila f) (olt_de_fila f) d) filas d =
    d ++ map (fun f => (ip_fila f, olt_de_fila f)) filas.
Proof.
  induction filas as [|f r IH]; intros d H; [symmetry; apply app_nil_r|].
  cbn [fold_left map]. cbn [map] in H.
  assert (Hf : ~ In (ip_fila f) (claves d)).
  { intros Hin. apply NoDup_remove_2 in H. apply H, in_or_app. left. exact Hin. }
  rewrite (setitem_nuevo _ _ _ Hf). rewrite IH.
  - rewrite <- app_assoc. reflexivity.
  - unfold claves in *. rewrite map_app. cbn [map fst]. rewrite <- app_assoc. exact H.
Qed.

(** X18. [cargar_olts_existentes] puts one record in the inventory for
    each row of the table of devices, under the address of the row, with
    the name and model of the row, no unit and no SNMP community.  When
    the addresses of the rows differ from each other and from the keys
    already there, the records are appended in the order of the rows.
    Loading sends nothing to the network and writes nothing to the
    database. *)
Theorem X18_carga_inicial :
  forall filas st,
    NoDup (claves (olts_detectadas st) ++ map ip_fila filas) ->
    olts_detectadas (snd (cargar_olts_existentes filas st)) =
    olts_detectadas st ++ map (fun f => (ip_fila f, olt_de_fila f)) filas /\
    (forall f, In f filas ->
       get (olts_detectadas (snd (cargar_olts_existentes filas st))) (ip_fila f) =
       Some (olt_de_fila f)) /\
    db (snd (cargar_olts_existentes filas st)) = db st /\
    bitacora (snd (cargar_olts_existentes filas st)) = bitacora st.
Proof.
  intros filas st H. rewrite cargar_olts_existentes_eq. cbn [snd con_olts olts_detectadas db bitacora].
  rewrite (cargar_nuevas filas _ H).
  split; [reflexivity|]. split; [|split; reflexivity].
  intros f Hf. apply NoDup_get_in.
  - unfold claves in *. rewrite map_app, map_map. cbn [fst]. exact H.
  - apply in_or_app. right. apply in_map_iff. exists f. split; [reflexivity|exact Hf].
Qed.

Lemma X18_carga_inicial_testigo :
  olts_detectadas (snd (cargar_olts_existentes
                          [("10.0.0.5", "OLT-A", "V1600G"); ("10.0.0.9", "OLT-B", "V1600D")]
                          estado_inicial)) =
  olts_detectadas estado_inicial ++
  map (fun f => (ip_fila f, olt_de_fila f))
      [("10.0.0.5", "OLT-A", "V1600G"); ("10.0.0.9", "OLT-B", "V1600D")].
Proof.
  apply (X18_carga_inicial
           [("10.0.0.5", "OLT-A", "V1600G"); ("10.0.0.9", "OLT-B", "V1600D")]
           estado_inicial).
  cbn. repeat constructor; cbn; intuition discriminate.
Defined.

(** ** The addresses a scan pass contacts *)

Lemma dentro_map_pair {B : Type} (ips : list string) (i : string) (l : list B) :
  In i ips -> dentro ips (map (pair i) l).
Proof.
  intros H. unfold dentro. apply Forall_forall. intros e He.
  apply in_map_iff in He as (b & <- & _). exact H.
Qed.

Lemma dentro_app {B : Type} (ips : list string) (l l' : list (string * B)) :
  dentro ips l -> dentro ips l' -> dentro ips (l ++ l').
Proof. intros H K. apply Forall_app. split; assumption. Qed.

Lemma dentro_incl {B : Type} (ips ips' : list string) (l : list (string * B)) :
  incl ips ips' -> dentro ips l -> dentro ips' l.
Proof.
  intros Hi H. unfold dentro in *. rewrite Forall_forall in *.
  intros e He. apply Hi, H, He.
Qed.

Lemma solo_contacta_refl (ips : list string) (st : Estado) : solo_contacta ips st st.
Proof.
  exists [], [], []. rewrite !app_nil_r. repeat split; constructor.
Qed.

Lemma solo_contacta_trans (ips : list string) (a b c : Estado) :
  solo_contacta ips a b -> solo_contacta ips b c -> solo_contacta ips a c.
Proof.
  intros (q1 & p1 & c1 & H1 & H2 & H3 & H4 & H5 & H6 & H7)
         (q2 & p2 & c2 & K1 & K2 & K3 & K4 & K5 & K6 & K7).
  exists (q1 ++ q2), (p1 ++ p2), (c1 ++ c2).
  rewrite K1, K3, K6, H1, H3, H6, <- !app_assoc.
  repeat split; try apply dentro_app; try assumption.
  apply Forall_app. split; assumption.
Qed.

Lemma solo_contacta_incl (ips ips' : list string) (a b : Estado) :
  incl ips ips' -> solo_contacta ips a b -> solo_contacta ips' a b.
Proof.
  intros Hi (q & p & c & H1 & H2 & H3 & H4 & H5 & H6 & H7).
  exists q, p, c. repeat split; try assumption; eapply dentro_incl; eassumption.
Qed.

Lemma solo_contacta_verificar_ip (red : Red) (creds : list Credencial)
    (comms : list string) (ip0 : string) (st : Estado) :
  solo_contacta [ip0] st (snd (verificar_ip red creds comms ip0 st)).
Proof.
  destruct (verificar_ip_trazas red creds comms ip0 st) as (H1 & H2 & H3).
  assert (Hin : In ip0 [ip0]) by (left; reflexivity).
  eexists _, _, _. split; [exact H1|]. split; [apply dentro_map_pair, Hin|].
  split; [exact H2|]. split; [|split; [|split; [exact H3|]]].
  - destruct (existsb _ _); repeat constructor.
  - destruct (existsb _ _); repeat constructor.
  - destruct (existsb _ _); [constructor|].
    destruct (red_puerto red ip0 22); [apply dentro_map_pair, Hin|constructor].
Qed.

Lemma solo_contacta_escanear_direcciones (red : Red) (creds : list Credencial)
    (comms : list string) (ips : list string) :
  forall st, solo_contacta ips st (snd (escanear_direcciones red creds comms ips st)).
Proof.
  induction ips as [|x r IH]; intros st; [apply solo_contacta_refl|].
  cbn [escanear_direcciones]. rewrite bind_eq.
  apply (solo_contacta_trans _ _ (snd (verificar_ip red creds comms x st))).
  - apply (solo_contacta_incl [x]); [|apply solo_contacta_verificar_ip].
    intros y [<-|[]]. left. reflexivity.
  - apply (solo_contacta_incl r); [|apply IH]. apply incl_tl, incl_refl.
Qed.

Lemma in_direcciones_rango (r a : string) :
  In a (direcciones_rango r) <-> exists i, 1 <= i <= 253 /\ a = (r ++ str_nat i)%string.
Proof.
  unfold direcciones_rango. rewrite in_map_iff. split.
  - intros (i & <- & Hi). apply in_seq in Hi. exists i. split; [lia|reflexivity].
  - intros (i & Hi & ->). exists i. split; [reflexivity|]. apply in_seq. lia.
Qed.

(** X19. A scan pass contacts the network only at the addresses of its
    ranges: every SNMP query, every port probe and every shell
    connection of the pass goes to a range prefix followed by a number
    from 1 to 253, and the only port probed is 22.  Each range gives 253
    tasks. *)
Theorem X19_pase_confinado :
  forall red creds comms rangos st,
    solo_contacta (direcciones rangos)
                  st (snd (escanear_red_empresarial red creds comms rangos st)) /\
    (forall a, In a (direcciones rangos) <->
               exists r i, In r rangos /\ 1 <= i <= 253 /\ a = (r ++ str_nat i)%string) /\
    List.length (direcciones rangos) = 253 * List.length rangos.
Proof.
  intros red creds comms rangos st. split; [|split].
  - rewrite escanear_red_empresarial_eq. cbn [snd].
    apply solo_contacta_escanear_direcciones.
  - intros a. unfold direcciones. rewrite in_flat_map. split.
    + intros (r & Hr & Ha). apply in_direcciones_rango in Ha as (i & Hi & ->).
      exists r, i. repeat split; try assumption; lia.
    + intros (r & i & Hr & Hi & ->). exists r. split; [exact Hr|].
      apply in_direcciones_rango. exists i. split; [exact Hi|reflexivity].
  - unfold direcciones. induction rangos as [|r l IH]; [reflexivity|].
    cbn [flat_map]. rewrite length_app, IH. unfold direcciones_rango.
    rewrite length_map, length_seq. cbn [List.length]. lia.
Qed.

(** ** The inventory keeps its addresses *)

Lemma prefijo_claves_setitem {V : Type} (k : string) (v : V) (d : dict V) :
  prefijo (claves d) (claves (setitem k v d)).
Proof.
  destruct (in_dec string_dec k (claves d)) as [Hin|Hout].
  - rewrite claves_setitem_in by assumption. apply prefijo_refl.
  - rewrite claves_setitem_nuevo by assumption. exists [k]. reflexivity.
Qed.

Lemma prefijo_length {A : Type} (l l' : list A) :
  prefijo l l' -> List.length l <= List.length l'.
Proof. intros [s ->]. rewrite length_app. lia. Qed.

Lemma conserva_claves_refl (st : Estado) : conserva_claves st st.
Proof. apply prefijo_refl. Qed.

Lemma conserva_claves_trans (a b c : Estado) :
  conserva_claves a b -> conserva_claves b c -> conserva_claves a c.
Proof. apply prefijo_trans. Qed.

Lemma conserva_claves_verificar_ip (red : Red) (creds : list Credencial)
    (comms : list string) (ip0 : string) (st : Estado) :
  conserva_claves st (snd (verificar_ip red creds comms ip0 st)).
Proof.
  unfold conserva_claves. rewrite verificar_ip_olts.
  destruct (fst (hallar red creds comms ip0 st)).
  - apply prefijo_claves_setitem.
  - apply prefijo_refl.
Qed.

Lemma conserva_claves_escanear_direcciones (red : Red) (creds : list Credencial)
    (comms : list string) (ips : list string) :
  forall st, conserva_claves st (snd (escanear_direcciones red creds comms ips st)).
Proof.
  induction ips as [|x r IH]; intros st; [apply conserva_claves_refl|].
  cbn [escanear_direcciones]. rewrite bind_eq.
  eapply conserva_claves_trans; [apply conserva_claves_verificar_ip|apply IH].
Qed.

Lemma conserva_claves_cargar (filas : list (string * string * string)) :
  forall st, conserva_claves st (snd (cargar_olts_existentes filas st)).
Proof.
  induction filas as [|[[i n] m] r IH]; intros st; [apply conserva_claves_refl|].
  cbn [cargar_olts_existentes]. rewrite bind_eq.
  eapply conserva_claves_trans; [|apply IH].
  apply prefijo_claves_setitem.
Qed.

(** X20. No operation of the monitor removes an address from the
    inventory or moves it: after loading the devices of the database,
    after a task of a pass, after a scan pass and after a refresh pass
    the addresses of before are the first addresses of the inventory, in
    the same order.  The number a scan pass returns is the size of the
    whole inventory after the pass, not the number of devices the pass
    found, so it is never below the size of before. *)
Theorem X20_inventario_conserva_direcciones :
  forall red creds comms st,
    (forall filas, conserva_claves st (snd (cargar_olts_existentes filas st))) /\
    (forall ip0, conserva_claves st (snd (verificar_ip red creds comms ip0 st))) /\
    (forall rangos,
       conserva_claves st (snd (escanear_red_empresarial red creds comms rangos st)) /\
       fst (escanear_red_empresarial red creds comms rangos st) =
       List.length (olts_detectadas
                      (snd (escanear_red_empresarial red creds comms rangos st))) /\
       List.length (olts_detectadas st) <=
       fst (escanear_red_empresarial red creds comms rangos st)) /\
    conserva_claves st (snd (actualizar_todas_olts red creds st)).
Proof.
  intros red creds comms st. split; [|split; [|split]].
  - intros filas. apply conserva_claves_cargar.
  - intros ip0. apply conserva_claves_verificar_ip.
  - intros rangos. rewrite escanear_red_empresarial_eq. cbn [fst snd].
    pose proof (conserva_claves_escanear_direcciones red creds comms
                  (direcciones rangos) st) as H.
    split; [exact H|]. unfold vista. rewrite length_map. split; [reflexivity|].
    apply prefijo_length in H. unfold claves in H. rewrite !length_map in H. exact H.
  - unfold conserva_claves. rewrite actualizar_todas_olts_eq.
    cbn [snd con_olts olts_detectadas].
    rewrite (Forall2_claves red _ _
               (actualizar_desde_items red creds (olts_detectadas st) 0 st)).
    apply prefijo_refl.
Qed.

(** ** The web handlers read the inventory *)

Lemma get_claves_valores {V : Type} (d : dict V) :
  NoDup (claves d) -> map (get d) (claves d) = map Some (valores d).
Proof.
  unfold claves, valores.
  induction d as [|[k0 v0] r IH]; [reflexivity|].
  cbn [map fst snd]. intros H.
  apply NoDup_cons_iff in H as [Hk Hr].
  cbn [get]. rewrite String.eqb_refl. f_equal.
  rewrite <- (IH Hr). apply map_ext_in. intros k Hin.
  cbn [get]. destruct (String.eqb_spec k k0) as [->|Hne]; [contradiction|reflexivity].
Qed.

Lemma get_in {V : Type} (d : dict V) (k : string) (v : V) :
  get d k = Some v -> In (k, v) d.
Proof.
  induction d as [|[k0 v0] r IH]; cbn [get]; [discriminate|].
  destruct (String.eqb_spec k k0) as [->|Hne].
  - intros E. injection E as ->. left. reflexivity.
  - intros E. right. apply IH, E.
Qed.

Lemma suma_por_direccion (d : dict OLTInfo) :
  NoDup (claves d) ->
  list_sum (map (fun k => match get d k with
                          | Some olt => total_onus olt
                          | None => 0
                          end) (claves d)) =
  suma_total_onus (valores d).
Proof.
  intros H.
  rewrite <- (map_map (get d) (fun r => match r with
                                        | Some olt => total_onus olt
                                        | None => 0
                                        end)).
  rewrite (get_claves_valores d H), map_map.
  induction (valores d) as [|o l IH]; [reflexivity|].
  cbn [map suma_total_onus]. rewrite list_sum_cons, IH. reflexivity.
Qed.

(** X21. In every state the monitor goes through, the read handlers of
    the web layer agree with each other and with the statistics of the
    monitor.  The total [get_onus_by_olt] gives for an address is the
    number of units it lists.  The unit total of [get_stats] is the sum
    of those totals over the addresses of the inventory, and it is the
    unit total of [obtener_estadisticas].  The count of devices online
    of [get_stats] is the number of devices of the inventory, which is
    the total of [get_olts].  [get_stats] reads the clock and changes
    nothing else. *)
Theorem X21_manejadores_web :
  forall red creds comms st,
    alcanzable red creds comms st ->
    (forall k, snd (get_onus_by_olt (Some st) k) =
               List.length (fst (get_onus_by_olt (Some st) k))) /\
    (exists w,
       get_stats red (Some st) = (Some w, Some (avanza st)) /\
       w_total_onus w =
       list_sum (map (fun k => snd (get_onus_by_olt (Some st) k))
                     (claves (olts_detectadas st))) /\
       w_total_onus w = e_total_onus (fst (obtener_estadisticas red st)) /\
       w_olts_online w = w_total_olts w /\
       w_total_olts w = snd (get_olts (Some st)) /\
       w_total_olts w = List.length (fst (get_olts (Some st)))).
Proof.
  intros red creds comms st H.
  pose proof (alcanzable_coherente red creds comms st H) as Hc.
  pose proof (alcanzable_NoDup red creds comms st H) as Hn.
  split.
  - intros k. cbn [get_onus_by_olt].
    destruct (get (olts_detectadas st) k) as [o|] eqn:E; [|reflexivity].
    cbn [fst snd]. unfold inventario_coherente in Hc. rewrite Forall_forall in Hc.
    apply get_in in E. apply (Hc _ E).
  - eexists. split; [reflexivity|]. cbn [w_total_onus w_olts_online w_total_olts].
    split; [|split; [reflexivity|split; [|split]]].
    + rewrite <- (suma_por_direccion _ Hn). f_equal. apply map_ext. intros k.
      cbn [get_onus_by_olt]. destruct (get (olts_detectadas st) k); reflexivity.
    + unfold valores. apply length_map.
    + reflexivity.
    + cbn [get_olts fst]. unfold valores. symmetry. apply length_map.
Qed.

Lemma X21_manejadores_web_testigo :
  snd (get_onus_by_olt (Some tras_descubrir) "10.0.0.7") =
  List.length (fst (get_onus_by_olt (Some tras_descubrir) "10.0.0.7")).
Proof.
  refine (proj1 (X21_manejadores_web red_olt [cred_A; cred_B] ["public"]
                   tras_descubrir _) "10.0.0.7").
  apply alc_verificar. apply alc_inicial. reflexivity.
Defined.

(** ** Where the numeric readings come from *)

Lemma primer_numero_origen (partes : list string) (v : spec_float) :
  primer_numero partes = Retorna (Some v) ->
  exists parte, In parte partes /\ parece_numero parte = true /\ Py.float parte = Some v.
Proof.
  induction partes as [|p r IH]; cbn [primer_numero]; [discriminate|].
  destruct (parece_numero p) eqn:Hp.
  - destruct (Py.float p) as [f|] eqn:Hf; [|discriminate].
    intros H. injection H as <-. exists p. repeat split; [left; reflexivity|assumption..].
  - intros H. destruct (IH H) as (x & Hin & Hx). exists x. split; [right; exact Hin|exact Hx].
Qed.

Lemma primer_porcentaje_origen (partes : list string) (v : spec_float) :
  primer_porcentaje partes = Some v ->
  exists parte, In parte partes /\ Py.contiene "%" parte = true /\
                Py.float (Py.quitar "%" parte) = Some v.
Proof.
  induction partes as [|p r IH]; cbn [primer_porcentaje]; [discriminate|].
  destruct (Py.contiene "%" p) eqn:Hp.
  - destruct (Py.float (Py.quitar "%" p)) as [f|] eqn:Hf.
    + intros H. injection H as <-. exists p. repeat split; [left; reflexivity|assumption..].
    + intros H. destruct (IH H) as (x & Hin & Hx). exists x. split; [right; exact Hin|exact Hx].
  - intros H. destruct (IH H) as (x & Hin & Hx). exists x. split; [right; exact Hin|exact Hx].
Qed.

Lemma extraer_rx_power_lineas_origen (lineas : list string) (n : Py.numero) :
  extraer_rx_power_lineas lineas = Retorna n ->
  n = Py.PyInt (-999) \/
  exists v linea parte,
    n = Py.PyFloat v /\ In linea lineas /\ linea_rx linea = true /\
    In parte (Py.split linea) /\ parece_numero parte = true /\ Py.float parte = Some v.
Proof.
  induction lineas as [|l r IH]; cbn [extraer_rx_power_lineas].
  - intros H. injection H as <-. left. reflexivity.
  - fold (menciona "rx" l) (menciona "power" l). fold (linea_rx l).
    assert (Hr : extraer_rx_power_lineas r = Retorna n ->
                 n = Py.PyInt (-999) \/
                 exists v linea parte,
                   n = Py.PyFloat v /\ In linea (l :: r) /\ linea_rx linea = true /\
                   In parte (Py.split linea) /\ parece_numero parte = true /\
                   Py.float parte = Some v).
    { intros H. destruct (IH H) as [K|(v & x & p & K1 & K2 & K)]; [left; exact K|].
      right. exists v, x, p. split; [exact K1|]. split; [right; exact K2|exact K]. }
    destruct (linea_rx l) eqn:Hl; [|exact Hr].
    destruct (primer_numero (Py.split l)) as [[v|]|e] eqn:Hp; [|exact Hr|discriminate].
    intros H. injection H as <-. right.
    destruct (primer_numero_origen _ _ Hp) as (p & K1 & K2 & K3).
    exists v, l, p. repeat split; try assumption. left. reflexivity.
Qed.

Lemma extraer_tx_power_lineas_origen (lineas : list string) (n : Py.numero) :
  extraer_tx_power_lineas lineas = Retorna n ->
  n = Py.PyInt (-999) \/
  exists v linea parte,
    n = Py.PyFloat v /\ In linea lineas /\ linea_tx linea = true /\
    In parte (Py.split linea) /\ parece_numero parte = true /\ Py.float parte = Some v.
Proof.
  induction lineas as [|l r IH]; cbn [extraer_tx_power_lineas].
  - intros H. injection H as <-. left. reflexivity.
  - fold (menciona "tx" l) (menciona "power" l). fold (linea_tx l).
    assert (Hr : extraer_tx_power_lineas r = Retorna n ->
                 n = Py.PyInt (-999) \/
                 exists v linea parte,
                   n = Py.PyFloat v /\ In linea (l :: r) /\ linea_tx linea = true /\
                   In parte (Py.split linea) /\ parece_numero parte = true /\
                   Py.float parte = Some v).
    { intros H. destruct (IH H) as [K|(v & x & p & K1 & K2 & K)]; [left; exact K|].
      right. exists v, x, p. split; [exact K1|]. split; [right; exact K2|exact K]. }
    destruct (linea_tx l) eqn:Hl; [|exact Hr].
    destruct (primer_numero (Py.split l)) as [[v|]|e] eqn:Hp; [|exact Hr|discriminate].
    intros H. injection H as <-. right.
    destruct (primer_numero_origen _ _ Hp) as (p & K1 & K2 & K3).
    exists v, l, p. repeat split; try assumption. left. reflexivity.
Qed.

Lemma extraer_temperatura_lineas_origen (lineas : list string) (v : spec_float) :
  extraer_temperatura_lineas lineas = Retorna (Some v) ->
  exists linea parte,
    In linea lineas /\ menciona "temperature" linea = true /\
    In parte (Py.split linea) /\ parece_numero parte = true /\ Py.float parte = Some v.
Proof.
  induction lineas as [|l r IH]; cbn [extraer_temperatura_lineas]; [discriminate|].
  fold (menciona "temperature" l).
  assert (Hr : extraer_temperatura_lineas r = Retorna (Some v) ->
               exists linea parte,
                 In linea (l :: r) /\ menciona "temperature" linea = true /\
                 In parte (Py.split linea) /\ parece_numero parte = true /\
                 Py.float parte = Some v).
  { intros H. destruct (IH H) as (x & p & K1 & K). exists x, p.
    split; [right; exact K1|exact K]. }
  destruct (menciona "temperature" l) eqn:Hl; [|exact Hr].
  destruct (primer_numero (Py.split l)) as [[w|]|e] eqn:Hp; [|exact Hr|discriminate].
  intros H. injection H as <-.
  destruct (primer_numero_origen _ _ Hp) as (p & K1 & K2 & K3).
  exists l, p. repeat split; try assumption. left. reflexivity.
Qed.

Lemma extraer_porcentaje_lineas_origen (lineas : list string) (v : spec_float) :
  extraer_porcentaje_lineas lineas = Some v ->
  exists linea parte,
    In linea lineas /\ In parte (Py.split linea) /\ Py.contiene "%" parte = true /\
    Py.float (Py.quitar "%" parte) = Some v.
Proof.
  induction lineas as [|l r IH]; cbn [extraer_porcentaje_lineas]; [discriminate|].
  assert (Hr : extraer_porcentaje_lineas r = Some v ->
               exists linea parte,
                 In linea (l :: r) /\ In parte (Py.split linea) /\
                 Py.contiene "%" parte = true /\
                 Py.float (Py.quitar "%" parte) = Some v).
  { intros H. destruct (IH H) as (x & p & K1 & K). exists x, p.
    split; [right; exact K1|exact K]. }
  destruct (Py.contiene "%" l); [|exact Hr].
  destruct (primer_porcentaje (Py.split l)) as [w|] eqn:Hp; [|exact Hr].
  intros H. injection H as <-.
  destruct (primer_porcentaje_origen _ _ Hp) as (p & K1 & K2 & K3).
  exists l, p. repeat split; try assumption. left. reflexivity.
Qed.

(** X22. A reading the numeric extractors return is never made up: an
    RX or TX power is the integer -999 or the float of a token, made of
    digits, points and hyphens, of a line that mentions the direction
    and power; a temperature is the float of such a token of a line that
    mentions temperature; a percentage is the float of a token that
    holds a percent sign, with the sign removed. *)
Theorem X22_lecturas_del_texto :
  forall output,
    (forall n, extraer_rx_power output = Retorna n ->
               n = Py.PyInt (-999) \/
               exists v, n = Py.PyFloat v /\ leido_de linea_rx output v) /\
    (forall n, extraer_tx_power output = Retorna n ->
               n = Py.PyInt (-999) \/
               exists v, n = Py.PyFloat v /\ leido_de linea_tx output v) /\
    (forall v, extraer_temperatura output = Retorna (Some v) ->
               leido_de (menciona "temperature") output v) /\
    (forall v, extraer_porcentaje output = Some v ->
               exists linea parte,
                 In linea (lineas_de output) /\ In parte (Py.split linea) /\
                 Py.contiene "%" parte = true /\
                 Py.float (Py.quitar "%" parte) = Some v).
Proof.
  intros output. unfold leido_de, lineas_de. split; [|split; [|split]].
  - intros n H. destruct (extraer_rx_power_lineas_origen _ _ H)
      as [K|(v & l & p & K1 & K)]; [left; exact K|].
    right. exists v. split; [exact K1|]. exists l, p. exact K.
  - intros n H. destruct (extraer_tx_power_lineas_origen _ _ H)
      as [K|(v & l & p & K1 & K)]; [left; exact K|].
    right. exists v. split; [exact K1|]. exists l, p. exact K.
  - intros v H. apply (extraer_temperatura_lineas_origen _ _ H).
  - intros v H. apply (extraer_porcentaje_lineas_origen _ _ H).
Qed.

Lemma X22_lecturas_del_texto_testigo :
  literal "-21.5" = Py.PyInt (-999) \/
  exists v, literal "-21.5" = Py.PyFloat v /\ leido_de linea_rx "Rx optical power: -21.5 dBm" v.
Proof.
  refine (proj1 (X22_lecturas_del_texto "Rx optical power: -21.5 dBm") (literal "-21.5") _).
  vm_compute. reflexivity.
Defined.

Lemma rx_tx_lineas (lineas : list string) :
  (forall linea, In linea lineas -> linea_rx linea = linea_tx linea) ->
  extraer_rx_power_lineas lineas = extraer_tx_power_lineas lineas.
Proof.
  induction lineas as [|l r IH]; intros H; [reflexivity|].
  cbn [extraer_rx_power_lineas extraer_tx_power_lineas].
  fold (menciona "tx" l) (menciona "rx" l) (menciona "power" l).
  fold (linea_rx l) (linea_tx l).
  rewrite <- (H l (or_introl eq_refl)).
  assert (Hr : extraer_rx_power_lineas r = extraer_tx_power_lineas r).
  { apply IH. intros x Hx. apply H. right. exact Hx. }
  rewrite Hr. reflexivity.
Qed.

(** X23. The RX and the TX extractor differ only in the lines they look
    at: each takes the first numeric token of its line.  On a text whose
    lines mention both directions or neither, such as one line that
    gives both powers, the two return the same value, the first number
    of the line. *)
Theorem X23_rx_tx_misma_linea :
  forall output,
    (forall linea, In linea (lineas_de output) -> linea_rx linea = linea_tx linea) ->
    extraer_rx_power output = extraer_tx_power output.
Proof. intros output H. apply rx_tx_lineas. exact H. Qed.

Lemma X23_rx_tx_misma_linea_testigo :
  extraer_rx_power "Rx/Tx power: -20.5 2.1" = extraer_tx_power "Rx/Tx power: -20.5 2.1" /\
  extraer_tx_power "Rx/Tx power: -20.5 2.1" = Retorna (literal "-20.5").
Proof.
  split.
  - apply (X23_rx_tx_misma_linea "Rx/Tx power: -20.5 2.1").
    intros linea [<-|[]]. vm_compute. reflexivity.
  - vm_compute. reflexivity.
Defined.
